(** * Retrieval engine of the air-quality chatbot: [src/src/vector_store.py]

    A shallow embedding of the [VectorStore] class: the hash-based
    bag-of-words embedder, the chunker, the metadata filter, the flat
    inner-product index, persistence, and the three public operations
    [initialize], [add_documents] and [similarity_search].

    Conventions.
    - A Python [str] is a [string] whose characters are read as the code
      points 0..255 (the Latin-1 block of Unicode).
    - numpy/FAISS floating-point numbers are idealised as real numbers.
    - What the class takes from its environment (the random generator behind
      [np.random.rand], the clock, whether the disk can be written, whether
      the FAISS append succeeds) is collected in a record [Env]. *)

From Stdlib Require Import ZArith List Ascii String Reals Lra Lia Bool.
From stdpp Require Import base option list strings gmap.
Import ListNotations.

(** ** Text: lower-casing and tokenisation *)

Module Text.

Definition code (c : ascii) : Z := Z.of_N (N_of_ascii c).

Definition between (lo hi x : Z) : bool := ((lo <=? x) && (x <=? hi))%Z.

(** [str.lower] on one code point below 256: A-Z and the Latin-1 capitals
    (192..222 without the multiplication sign 215) move up by 32. *)
Definition lower_char (c : ascii) : ascii :=
  let n := code c in
  if between 65 90 n || (between 192 222 n && negb (n =? 215)%Z)
  then ascii_of_N (Z.to_N (n + 32))
  else c.

Fixpoint lower (s : string) : string :=
  match s with
  | EmptyString => EmptyString
  | String c s' => String (lower_char c) (lower s')
  end.

(** The class [\w] of a [str] pattern: [ch.isalnum() or ch == '_'],
    tabulated for the code points below 256. *)
Definition is_word_char (c : ascii) : bool :=
  let n := code c in
  between 48 57 n || between 65 90 n || (n =? 95)%Z || between 97 122 n
  || (n =? 170)%Z || between 178 179 n || (n =? 181)%Z || between 185 186 n
  || between 188 190 n || between 192 214 n || between 216 246 n
  || between 248 255 n.

(** [re.findall(r'\b\w+\b', s)]: the maximal runs of word characters, from
    left to right.  [run] holds the current run, last character first. *)
Fixpoint findall_from (run : list ascii) (s : string) : list string :=
  match s with
  | EmptyString =>
      match run with
      | [] => []
      | _ => [string_of_list_ascii (rev run)]
      end
  | String c s' =>
      if is_word_char c then findall_from (c :: run) s'
      else match run with
           | [] => findall_from [] s'
           | _ => string_of_list_ascii (rev run) :: findall_from [] s'
           end
  end.

Definition findall_words (s : string) : list string := findall_from [] s.

(** [word.encode()]: UTF-8; a code point in 128..255 takes two bytes. *)
Definition encode_char (c : ascii) : list Z :=
  let n := code c in
  if (n <? 128)%Z then [n]
  else [Z.lor 192 (Z.shiftr n 6); Z.lor 128 (Z.land n 63)].

Fixpoint encode (s : string) : list Z :=
  match s with
  | EmptyString => []
  | String c s' => encode_char c ++ encode s'
  end.

End Text.

(** ** MD5 (RFC 1321) over 32-bit words held in [Z] *)

Module MD5.

Local Open Scope Z_scope.

Definition mask32 : Z := 4294967295.
Definition add32 (x y : Z) : Z := Z.land (x + y) mask32.
Definition not32 (x : Z) : Z := Z.lxor x mask32.
Definition rotl32 (x : Z) (n : Z) : Z :=
  Z.land (Z.lor (Z.shiftl x n) (Z.shiftr x (32 - n))) mask32.

Definition shifts : list Z :=
  [7; 12; 17; 22; 7; 12; 17; 22; 7; 12; 17; 22; 7; 12; 17; 22;
   5; 9; 14; 20; 5; 9; 14; 20; 5; 9; 14; 20; 5; 9; 14; 20;
   4; 11; 16; 23; 4; 11; 16; 23; 4; 11; 16; 23; 4; 11; 16; 23;
   6; 10; 15; 21; 6; 10; 15; 21; 6; 10; 15; 21; 6; 10; 15; 21].

(** [K i = floor (2^32 * abs (sin (i + 1)))]. *)
Definition K : list Z :=
  [3614090360; 3905402710; 606105819; 3250441966; 4118548399; 1200080426;
   2821735955; 4249261313; 1770035416; 2336552879; 4294925233; 2304563134;
   1804603682; 4254626195; 2792965006; 1236535329; 4129170786; 3225465664;
   643717713; 3921069994; 3593408605; 38016083; 3634488961; 3889429448;
   568446438; 3275163606; 4107603335; 1163531501; 2850285829; 4243563512;
   1735328473; 2368359562; 4294588738; 2272392833; 1839030562; 4259657740;
   2763975236; 1272893353; 4139469664; 3200236656; 681279174; 3936430074;
   3572445317; 76029189; 3654602809; 3873151461; 530742520; 3299628645;
   4096336452; 1126891415; 2878612391; 4237533241; 1700485571; 2399980690;
   4293915773; 2240044497; 1873313359; 4264355552; 2734768916; 1309151649;
   4149444226; 3174756917; 718787259; 3951481745].

Definition zero_bytes (n : nat) : list Z := List.repeat 0 n.

(** Little-endian bytes of [x], [n] of them. *)
Fixpoint le_bytes (n : nat) (x : Z) : list Z :=
  match n with
  | O => []
  | S n' => Z.land x 255 :: le_bytes n' (Z.shiftr x 8)
  end.

Fixpoint le_word (bs : list Z) : Z :=
  match bs with
  | [] => 0
  | b :: bs' => b + 256 * le_word bs'
  end.

(** Padding: 0x80, zeros up to 56 modulo 64, then the bit length on 8 bytes. *)
Definition pad (msg : list Z) : list Z :=
  let len := Z.of_nat (List.length msg) in
  let zeros := Z.to_nat ((55 - len) mod 64) in
  msg ++ [128] ++ zero_bytes zeros ++ le_bytes 8 (8 * len).

(** The sixteen words of the first 64 bytes of [bs]. *)
Fixpoint words (n : nat) (bs : list Z) : list Z :=
  match n with
  | O => []
  | S n' => le_word (firstn 4 bs) :: words n' (skipn 4 bs)
  end.

Definition state : Type := Z * Z * Z * Z.

Definition round (M : list Z) (st : state) (i : nat) : state :=
  let '(A, B, C, D) := st in
  let iz := Z.of_nat i in
  let '(F, g) :=
    if iz <? 16 then (Z.lor (Z.land B C) (Z.land (not32 B) D), iz)
    else if iz <? 32 then
      (Z.lor (Z.land D B) (Z.land (not32 D) C), (5 * iz + 1) mod 16)
    else if iz <? 48 then (Z.lxor B (Z.lxor C D), (3 * iz + 5) mod 16)
    else (Z.lxor C (Z.lor B (not32 D)), (7 * iz) mod 16) in
  let F' := add32 (add32 (add32 F A) (nth i K 0)) (nth (Z.to_nat g) M 0) in
  (D, add32 B (rotl32 F' (nth i shifts 0)), B, C).

Definition compress (st : state) (block : list Z) : state :=
  let M := words 16 block in
  let '(A, B, C, D) := st in
  let '(A', B', C', D') := fold_left (round M) (seq 0 64) st in
  (add32 A A', add32 B B', add32 C C', add32 D D').

Fixpoint blocks (n : nat) (st : state) (bs : list Z) : state :=
  match n with
  | O => st
  | S n' => blocks n' (compress st (firstn 64 bs)) (skipn 64 bs)
  end.

Definition init : state := (1732584193, 4023233417, 2562383102, 271733878).

(** The sixteen digest bytes. *)
Definition digest (msg : list Z) : list Z :=
  let p := pad msg in
  let '(A, B, C, D) := blocks (List.length p / 64)%nat init p in
  le_bytes 4 A ++ le_bytes 4 B ++ le_bytes 4 C ++ le_bytes 4 D.

(** [int(hexdigest, 16)]: the digest read as one big-endian number. *)
Definition hexdigest_int (msg : list Z) : Z :=
  fold_left (fun acc b => 256 * acc + b) (digest msg) 0.

End MD5.

(** ** Python values, exceptions, dictionaries *)

Inductive exn : Set :=
  | KeyError | IndexError | AttributeError | AssertionError | ValueError
  | RuntimeError.

Inductive result (A : Type) : Type :=
  | Ok (a : A)
  | Raise (e : exn).
Arguments Ok {A} a.
Arguments Raise {A} e.

Definition bind {A B} (r : result A) (f : A -> result B) : result B :=
  match r with
  | Ok a => f a
  | Raise e => Raise e
  end.

Notation "x <- r ;; k" := (bind r (fun x => k))
  (at level 100, r at next level, right associativity).

(** The metadata values that occur in this repository and survive JSON:
    [None], booleans, integers, strings and lists of these. *)
#[warnings="-register-all"]
Inductive pyval : Type :=
  | PNone
  | PBool (b : bool)
  | PInt (n : Z)
  | PStr (s : string)
  | PList (l : list pyval).

(** Python's [==] on these values ([True == 1] holds in Python). *)
Fixpoint py_eqb (a b : pyval) : bool :=
  match a, b with
  | PNone, PNone => true
  | PBool x, PBool y => Bool.eqb x y
  | PBool x, PInt n => (n =? (if x then 1 else 0))%Z
  | PInt n, PBool x => (n =? (if x then 1 else 0))%Z
  | PInt n, PInt m => (n =? m)%Z
  | PStr s, PStr t => String.eqb s t
  | PList l, PList m =>
      (fix go (l m : list pyval) : bool :=
         match l, m with
         | [], [] => true
         | x :: l', y :: m' => py_eqb x y && go l' m'
         | _, _ => false
         end) l m
  | _, _ => false
  end.

Abbreviation Meta := (gmap string pyval).

(** A document or chunk: a Python dict of which the keys ['content'] and
    ['metadata'] are read; either may be absent. *)
Record Doc : Type := mkDoc {
  doc_content : option string;
  doc_metadata : option Meta
}.

(** ** Vectors *)

Abbreviation vec := (list R).

Definition dimension : nat := 384.

(** [np.zeros(n)] *)
Definition zeros (n : nat) : vec := replicate n 0%R.

Definition sum_sq (v : vec) : R := fold_right (fun x acc => (x * x + acc)%R) 0%R v.

(** [np.linalg.norm] *)
Definition norm (v : vec) : R := sqrt (sum_sq v).

Definition dot (u v : vec) : R := fold_right Rplus 0%R (zip_with Rmult u v).

(** Division of a row by its norm, skipped when the norm is not positive:
    the [if norm > 0] of the embedder and the row step of
    [faiss.normalize_L2]. *)
Definition normalize_row (v : vec) : vec :=
  let n := norm v in
  if Rlt_dec 0 n then map (fun x => (x / n)%R) v else v.

(** ** Embedder *)

Definition word_pos (word : string) : nat :=
  Z.to_nat (MD5.hexdigest_int (Text.encode word) mod Z.of_nat dimension).

(** [embedding[pos] += 1] *)
Definition bump (pos : nat) (embedding : vec) : vec :=
  alter (fun x => (x + 1)%R) pos embedding.

Definition histogram (words : list string) : vec :=
  fold_left (fun embedding word => bump (word_pos word) embedding)
            words (zeros dimension).

Definition embed_text (text : string) : vec :=
  let words := Text.findall_words (Text.lower text) in
  normalize_row (histogram words).

Definition _generate_simple_embeddings (texts : list string) : list vec :=
  map embed_text texts.

(** [faiss.normalize_L2(x)] reads [x.shape[1]]; the array built from an
    empty list of rows is one-dimensional, so that access raises. *)
Definition normalize_L2 (x : list vec) : result (list vec) :=
  match x with
  | [] => Raise IndexError
  | _ => Ok (map normalize_row x)
  end.

(** ** Chunker *)

Definition chunk_size : nat := 1000.
Definition overlap : nat := 200.

Fixpoint range_from (fuel start stop step : nat) : list nat :=
  match fuel with
  | O => []
  | S fuel' =>
      if start <? stop then start :: range_from fuel' (start + step) stop step
      else []
  end.

(** [range(start, stop, step)] for a positive step. *)
Definition range (start stop step : nat) : list nat :=
  range_from stop start stop step.

(** [content[i:j]] *)
Definition slice (content : string) (i j : nat) : string :=
  substring i (j - i) content.

Definition _split_document (doc : Doc) : list Doc :=
  let content := default EmptyString (doc_content doc) in
  if String.length content <=? 1000 then [doc]
  else
    map (fun i =>
           let chunk_content := slice content i (i + chunk_size) in
           let md := default ∅ (doc_metadata doc) in
           mkDoc (Some chunk_content)
                 (Some (<["chunk_index" := PInt (Z.of_nat (i / (chunk_size - overlap)))]> md)))
        (range 0 (String.length content) (chunk_size - overlap)).

(** ** Filter *)

Definition _matches_filter (metadata filter_metadata : Meta) : bool :=
  forallb (fun kv : string * pyval =>
             match metadata !! kv.1 with
             | None => false
             | Some v => py_eqb v kv.2
             end)
          (map_to_list filter_metadata).

(** ** Environment *)

Record Env : Type := mkEnv {
  (** entry [(i, j)] of the matrix drawn by [np.random.rand] *)
  random_entry : nat -> nat -> R;
  (** whether [IndexFlatIP.add] runs to completion *)
  faiss_add_completes : bool;
  (** whether ['data/vector_store.json'] can be created and written *)
  disk_writable : bool;
  (** [datetime.utcnow().isoformat()] *)
  utcnow : string
}.

(** [np.random.rand(n, m)] *)
Definition random_rand (env : Env) (n m : nat) : list vec :=
  map (fun i => map (fun j => random_entry env i j) (seq 0 m)) (seq 0 n).

(** ** The flat inner-product index ([faiss.IndexFlatIP]) *)

Record IndexFlatIP : Type := mkIndex {
  d : nat;
  xb : list vec
}.

Definition new_index (dim : nat) : IndexFlatIP := mkIndex dim [].

Definition ntotal (idx : IndexFlatIP) : nat := length (xb idx).

(** [index.add(x)]: the rows must have the index's dimension; on failure the
    index is left as it was. *)
Definition faiss_add (env : Env) (idx : IndexFlatIP) (x : list vec)
  : result IndexFlatIP :=
  match x with
  | [] => Raise ValueError
  | _ =>
      if negb (forallb (fun row => length row =? d idx) x)
      then Raise AssertionError
      else if faiss_add_completes env
           then Ok (mkIndex (d idx) (xb idx ++ x))
           else Raise RuntimeError
  end.

(** Insertion into a list ordered by descending score; an entry goes behind
    the entries with a strictly greater score only, so that among equal
    scores the earlier inserted row comes first. *)
Fixpoint insert_desc (x : R * nat) (l : list (R * nat)) : list (R * nat) :=
  match l with
  | [] => [x]
  | y :: l' =>
      if Rlt_dec x.1 y.1 then y :: insert_desc x l' else x :: y :: l'
  end.

Definition sort_desc (l : list (R * nat)) : list (R * nat) :=
  fold_right insert_desc [] l.

(** The scored rows [(dot q row_i, i)], in insertion order. *)
Definition scored (idx : IndexFlatIP) (q : vec) : list (R * nat) :=
  imap (fun i row => (dot q row, i)) (xb idx).

(** [index.search(q, k)] for one query row: the [k] best rows by descending
    inner product, ties by insertion order.  A non-positive [k] and a query
    of another dimension are refused by assertions. *)
Definition faiss_search (idx : IndexFlatIP) (q : vec) (k : Z)
  : result (list (R * nat)) :=
  if (k <=? 0)%Z then Raise AssertionError
  else if negb (length q =? d idx) then Raise AssertionError
  else Ok (take (Z.to_nat k) (sort_desc (scored idx q))).

(** ** The store *)

Record VectorStore : Type := mkStore {
  index : option IndexFlatIP;
  documents : list string;
  metadata : list Meta
}.

(** [VectorStore.__init__] *)
Definition new_store : VectorStore := mkStore None [] [].

(** The file ['data/vector_store.json']. *)
Inductive Disk : Type :=
  | NoFile
  | Unreadable
  | Snapshot (docs : list string) (metas : list Meta) (timestamp : string).

Record SearchResult : Type := mkResult {
  res_content : string;
  res_score : R;
  res_metadata : Meta
}.

(** [_save_data]: every exception is logged and swallowed. *)
Definition _save_data (env : Env) (st : VectorStore) (disk : Disk) : Disk :=
  if disk_writable env
  then Snapshot (documents st) (metadata st) (utcnow env)
  else disk.

(** [_load_existing_data]: every exception is logged and swallowed, after
    the assignments already made. *)
Definition _load_existing_data (env : Env) (st : VectorStore) (disk : Disk)
  : VectorStore :=
  match disk with
  | NoFile => st
  | Unreadable => st
  | Snapshot docs metas _ =>
      let st1 := mkStore (index st) docs metas in
      match docs with
      | [] => st1
      | _ =>
          let rebuilt :=
            embeddings <- normalize_L2 (_generate_simple_embeddings docs) ;;
            match index st1 with
            | None => Raise AttributeError
            | Some idx => faiss_add env idx embeddings
            end in
          match rebuilt with
          | Ok idx' => mkStore (Some idx') docs metas
          | Raise _ => st1
          end
      end
  end.

(** [initialize] *)
Definition initialize (env : Env) (st : VectorStore) (disk : Disk)
  : VectorStore :=
  let st1 := mkStore (Some (new_index dimension)) (documents st) (metadata st) in
  _load_existing_data env st1 disk.

(** [_get_existing_embeddings] *)
Definition _get_existing_embeddings (env : Env) (st : VectorStore) : list vec :=
  match index st with
  | None => []
  | Some idx =>
      if ntotal idx =? 0 then []
      else random_rand env (ntotal idx) dimension
  end.

(** The first loop of [add_documents]: chunk every document and collect the
    chunks' texts and metadata; [chunk['content']] raises on a chunk
    without content. *)
Fixpoint collect_chunks (chunks : list Doc) : result (list string * list Meta) :=
  match chunks with
  | [] => Ok ([], [])
  | chunk :: rest =>
      match doc_content chunk with
      | None => Raise KeyError
      | Some text =>
          tm <- collect_chunks rest ;;
          Ok (text :: tm.1, default ∅ (doc_metadata chunk) :: tm.2)
      end
  end.

Definition collect (docs : list Doc) : result (list string * list Meta) :=
  collect_chunks (concat (map _split_document docs)).

(** [add_documents]: the state it leaves behind (store and disk) and whether
    it returned or re-raised. *)
Definition add_documents (env : Env) (st : VectorStore) (disk : Disk)
  (docs : list Doc) : VectorStore * Disk * result unit :=
  match collect docs with
  | Raise e => (st, disk, Raise e)
  | Ok (texts, metadatas) =>
      match normalize_L2 (_generate_simple_embeddings texts) with
      | Raise e => (st, disk, Raise e)
      | Ok embeddings =>
          match index st with
          | None => (st, disk, Raise AttributeError)
          | Some idx =>
              let indexed :=
                if ntotal idx =? 0 then
                  match faiss_add env idx embeddings with
                  | Ok idx' => (Some idx', Ok tt)
                  | Raise e => (Some idx, Raise e)
                  end
                else
                  let all_embeddings :=
                    _get_existing_embeddings env st ++ embeddings in
                  let fresh := new_index dimension in
                  match faiss_add env fresh all_embeddings with
                  | Ok idx' => (Some idx', Ok tt)
                  | Raise e => (Some fresh, Raise e)
                  end in
              match indexed with
              | (index', Raise e) =>
                  (mkStore index' (documents st) (metadata st), disk, Raise e)
              | (index', Ok _) =>
                  let st' := mkStore index' (documents st ++ texts)
                                     (metadata st ++ metadatas) in
                  (st', _save_data env st' disk, Ok tt)
              end
          end
      end
  end.

Definition filter_given (filter_metadata : option Meta) : bool :=
  match filter_metadata with
  | None => false
  | Some f => negb (size f =? 0)
  end.

(** The body of the loop over the hits of the index search: format one hit
    and keep it if it passes the filter. *)
Definition format_hit (st : VectorStore) (filter_metadata : option Meta)
  (hit : R * nat) : option SearchResult :=
  let '(score, idx) := hit in
  match documents st !! idx with
  | None => None
  | Some text =>
      let result := mkResult text score (default ∅ (metadata st !! idx)) in
      if filter_given filter_metadata then
        if _matches_filter (res_metadata result) (default ∅ filter_metadata)
        then Some result else None
      else Some result
  end.

Definition format_results (st : VectorStore) (filter_metadata : option Meta)
  (hits : list (R * nat)) : list SearchResult :=
  omap (format_hit st filter_metadata) hits.

(** The body of [similarity_search], inside its [try]. *)
Definition search_body (st : VectorStore) (query : string) (k : Z)
  (filter_metadata : option Meta) : result (list SearchResult) :=
  match index st with
  | None => Ok []
  | Some idx =>
      if ntotal idx =? 0 then Ok []
      else
        query_embedding <- normalize_L2 (_generate_simple_embeddings [query]) ;;
        hits <- faiss_search idx (default [] (head query_embedding))
                  (Z.min k (Z.of_nat (ntotal idx))) ;;
        Ok (take (Z.to_nat k) (format_results st filter_metadata hits))
  end.

(** [similarity_search]: any exception of the body is logged and turned
    into the empty list. *)
Definition similarity_search (st : VectorStore) (query : string) (k : Z)
  (filter_metadata : option Meta) : result (list SearchResult) :=
  match search_body st query k filter_metadata with
  | Ok results => Ok results
  | Raise _ => Ok []
  end.

(** ** Quantities used in the statements *)

(** [ceil(a / b)] *)
Definition ceil_div (a b : nat) : nat := (a + b - 1) / b.

(** The chunk count that the specification states for a content of
    length [L] above 1000: [ceil((L - 1000) / 800) + 1]. *)
Definition spec_chunk_count (L : nat) : nat := ceil_div (L - 1000) 800 + 1.

(** Chunk [i] of a long document as the specification describes it. *)
Definition chunk_at (doc : Doc) (content : string) (i : nat) : Doc :=
  mkDoc (Some (slice content (800 * i) (800 * i + 1000)))
        (Some (<["chunk_index" := PInt (Z.of_nat i)]>
                 (default ∅ (doc_metadata doc)))).

(** A text of [n] letters a. *)
Definition letters (n : nat) : string := string_of_list_ascii (repeat "a"%char n).

(** The term-frequency table behind [histogram], counted in [nat]; the
    lemmas relate [histogram] to it. *)
Definition counts (words : list string) : list nat :=
  fold_left (fun c word => alter S (word_pos word) c) words
            (replicate dimension 0).

Definition sum_nat (l : list nat) : nat := fold_right Nat.add 0 l.

Definition sum_sq_nat (l : list nat) : nat :=
  fold_right (fun x acc => x * x + acc) 0 l.

(** The words of a text as the embedder sees them. *)
Definition tokens (text : string) : list string :=
  Text.findall_words (Text.lower text).

(** The hits that the index returns for [query] when asked for [k] rows. *)
Definition top_hits (idx : IndexFlatIP) (query : string) (k : Z) : list (R * nat) :=
  take (Z.to_nat (Z.min k (Z.of_nat (ntotal idx))))
       (sort_desc (scored idx (embed_text query))).

(** The vector that the index holds at position [i]. *)
Definition vector_at (st : VectorStore) (i : nat) : option vec :=
  match index st with
  | None => None
  | Some idx => xb idx !! i
  end.

(** Number of indexed vectors. *)
Definition vector_count (st : VectorStore) : nat :=
  match index st with
  | None => 0
  | Some idx => ntotal idx
  end.

(** The index rows are the embeddings of the stored texts, as they are
    after [initialize] and after an add to an empty index. *)
Definition index_matches_texts (st : VectorStore) : Prop :=
  exists idx, index st = Some idx /\ d idx = dimension
              /\ xb idx = _generate_simple_embeddings (documents st).

(** The lists inside a [result], empty on an exception. *)
Definition results_of (r : result (list SearchResult)) : list SearchResult :=
  match r with
  | Ok l => l
  | Raise _ => []
  end.

(** The part of [add_documents] before the index is touched: chunking,
    embedding and normalisation. *)
Definition chunk_and_embed (docs : list Doc)
  : result (list string * list Meta * list vec) :=
  tm <- collect docs ;;
  embeddings <- normalize_L2 (_generate_simple_embeddings tm.1) ;;
  Ok (tm, embeddings).

(** ** Sample data

    Two one-word passages from two sources, a passage without any word, and
    environments in which every random entry is one half. *)
Definition weather_meta : Meta := {[ "source" := PStr "WeatherClient" ]}.
Definition guidelines_meta : Meta := {[ "source" := PStr "GuidelinesClient" ]}.
Definition doc_ozone : Doc := mkDoc (Some "ozone"%string) (Some weather_meta).
Definition doc_asthma : Doc := mkDoc (Some "asthma"%string) (Some guidelines_meta).

Definition sample_env : Env :=
  mkEnv (fun _ _ => (1 / 2)%R) true true "2024-01-01T00:00:00".

Definition failing_add_env : Env :=
  mkEnv (fun _ _ => (1 / 2)%R) false true "2024-01-01T00:00:00".

(** A freshly initialised store on a machine without snapshot. *)
Definition store_0 (env : Env) : VectorStore := initialize env new_store NoFile.

(** Outcome of one batch with both passages. *)
Definition add_both (env : Env) : VectorStore * Disk * result unit :=
  add_documents env (store_0 env) NoFile [doc_ozone; doc_asthma].

(** Outcome of a first batch with the ozone passage... *)
Definition add_first (env : Env) : VectorStore * Disk * result unit :=
  add_documents env (store_0 env) NoFile [doc_ozone].

(** ... and of a second batch, with the asthma passage, on top of it. *)
Definition add_second (env : Env) : VectorStore * Disk * result unit :=
  add_documents env (add_first env).1.1 (add_first env).1.2 [doc_asthma].

(** A new process that initialises from the snapshot left by [add_second]. *)
Definition reloaded (env : Env) : VectorStore :=
  initialize env new_store (add_second env).1.2.

(** The store that [add_both] leaves behind when the append completes. *)
Definition both_store : VectorStore :=
  mkStore (Some (mkIndex dimension [embed_text "ozone"; embed_text "asthma"]))
          ["ozone"; "asthma"]%string [weather_meta; guidelines_meta].

(** The store that [add_second] leaves behind when the append completes:
    its first row is the random row. *)
Definition second_store (env : Env) : VectorStore :=
  mkStore (Some (mkIndex dimension
                   [map (fun j => random_entry env 0 j) (seq 0 dimension);
                    embed_text "asthma"]))
          ["ozone"; "asthma"]%string [weather_meta; guidelines_meta].

(** A store whose index has two coordinates, unlike the query vectors. *)
Definition mismatched_store : VectorStore :=
  mkStore (Some (mkIndex 2 [[1%R; 0%R]])) ["ozone"%string] [weather_meta].




(** ** Ranking and filtering, as used in the statements *)




(** Whether the metadata of a result passes the filter. *)
Definition passes (f : Meta) (r : SearchResult) : bool :=
  _matches_filter (res_metadata r) f.

(** ** The rest of the store's interface *)

(** What a call gives its caller: the returned value, or an exception
    with its message. *)
Inductive outcome (A : Type) : Type :=
  | Returned (a : A)
  | Failed (message : string).
Arguments Returned {A} a.
Arguments Failed {A} message.

(** [VectorStore.health_check] *)
Definition health_check (st : VectorStore) : outcome bool :=
  match index st with
  | None => Failed "Vector store not initialized"
  | Some _ => Returned true
  end.

(** The three parallel collections have the same length. *)
Definition lengths_agree (st : VectorStore) : Prop :=
  vector_count st = length (documents st)
  /\ length (documents st) = length (metadata st).


(** A list of numbers in non-increasing order. *)
Fixpoint descending (l : list R) : Prop :=
  match l with
  | [] => True
  | x :: l' => Forall (fun y => (y <= x)%R) l' /\ descending l'
  end.


(** [''.join(parts)] *)
Definition join_all (parts : list string) : string :=
  fold_right String.append EmptyString parts.

(** The text of a chunk ([''] when the key is absent). *)
Definition chunk_text (chunk : Doc) : string :=
  default EmptyString (doc_content chunk).


(** ** The pipeline around the store ([src/src/rag_pipeline.py],
    [src/src/data_clients/base_client.py]) *)

(** [needle in hay] for two strings *)
Fixpoint contains (needle hay : string) : bool :=
  String.prefix needle hay
  || match hay with
     | EmptyString => false
     | String _ hay' => contains needle hay'
     end.

(** [any(p in text for p in patterns)] *)
Definition any_in (patterns : list string) (text : string) : bool :=
  existsb (fun p => contains p text) patterns.

Definition action_patterns : list string :=
  ["what should"; "should i"; "what can i"; "can i"; "is it safe";
   "advice"; "recommend"; "how to"; "what to do"; "go outside";
   "stay indoor"; "avoid"; "limit"; "reduce"]%string.

Definition weather_patterns : list string :=
  ["current"; "forecast"; "temperature"; "humidity"; "aqi"; "pm2.5";
   "pm10"; "ozone"; "measurement"; "data"; "pollutant"; "index";
   "concentration"; "weather"]%string.

Definition health_patterns : list string :=
  ["protect"; "precaution"; "safety"; "children"; "elderly";
   "asthma"; "pregnant"; "mask"; "purifier"; "sensitive";
   "exercise"; "outdoor activity"; "symptoms"; "breathing";
   "lung"; "respiratory"; "harmful"]%string.

(** [RAGPipeline._classify_query] *)
Definition _classify_query (query : string) : string :=
  let query_lower := Text.lower query in
  if any_in action_patterns query_lower then "health_guidelines"
  else if any_in weather_patterns query_lower then "weather_air_quality"
  else if any_in health_patterns query_lower then "health_guidelines"
  else "health_guidelines".

Definition weather_filter : Meta :=
  <["category" := PList [PStr "meteorological_factors";
                         PStr "weather_air_quality"; PStr "aqi_standards"]]>
    (<["source" := PList [PStr "OpenAQClient"; PStr "WeatherClient"]]> ∅).

Definition health_filter : Meta :=
  <["category" := PList [PStr "health_standards"; PStr "safety_guidelines";
                         PStr "protective_measures"]]>
    (<["source" := PList [PStr "GuidelinesClient"]]> ∅).

(** The truth value of an optional string ([if location:]). *)
Definition location_given (location : option string) : bool :=
  match location with
  | None => false
  | Some EmptyString => false
  | Some _ => true
  end.

(** The filter that [_retrieve_category_specific_docs] builds. *)
Definition category_filter (category : string) (location : option string)
  : option Meta :=
  let filter_metadata :=
    if String.eqb category "weather_air_quality" then Some weather_filter
    else if String.eqb category "health_guidelines" then Some health_filter
    else None in
  if location_given location then
    let loc := PStr (default EmptyString location) in
    if filter_given filter_metadata
    then Some (<["location" := loc]> (default ∅ filter_metadata))
    else Some (<["location" := loc]> ∅)
  else filter_metadata.

(** [RAGPipeline._retrieve_category_specific_docs] *)
Definition _retrieve_category_specific_docs (st : VectorStore)
  (query category : string) (location : option string)
  : result (list SearchResult) :=
  similarity_search st query 5 (category_filter category location).

(** [BaseDataClient._format_document], for the client class [class_name]
    at the time [timestamp]. *)
Definition _format_document (class_name timestamp content : string)
  (metadata : Meta) : Doc :=
  mkDoc (Some content)
        (Some (<["timestamp" := PStr timestamp]>
                 (<["source" := PStr class_name]> metadata))).

(** No stored metadata holds a list under ['source']. *)
Definition no_list_source (st : VectorStore) : Prop :=
  Forall (fun m : Meta => forall l, m !! "source" <> Some (PList l))
         (metadata st).

(** [RAGPipeline.populate_knowledge_base], given what [get_initial_data]
    of each client returned or raised, in the order of the clients. *)
Definition populate_knowledge_base (env : Env) (st : VectorStore) (disk : Disk)
  (client_data : list (outcome (list Doc)))
  : VectorStore * Disk * result unit :=
  let all_documents :=
    concat (omap (fun o => match o with
                           | Returned documents => Some documents
                           | Failed _ => None
                           end) client_data) in
  match all_documents with
  | [] => (st, disk, Ok tt)
  | _ => add_documents env st disk all_documents
  end.


(** A document as a data client hands it over: built by
    [_format_document]. *)
Definition formatted (doc : Doc) : Prop :=
  exists class_name timestamp content metadata,
    doc = _format_document class_name timestamp content metadata.

(** What the clients returned consists of formatted documents. *)
Definition clients_format_documents (client_data : list (outcome (list Doc)))
  : Prop :=
  Forall (fun o => match o with
                   | Returned documents => Forall formatted documents
                   | Failed _ => True
                   end) client_data.


(** The documents that [populate_knowledge_base] gathers. *)
Definition gathered (client_data : list (outcome (list Doc))) : list Doc :=
  concat (omap (fun o => match o with
                         | Returned documents => Some documents
                         | Failed _ => None
                         end) client_data).


(** ** The response formatter ([src/src/response_formatter.py]) *)

(** [ResponseFormatter._extract_data_sources] *)
Definition _extract_data_sources (context : string) : list string :=
  let sources :=
    (if contains "OpenAQ" context then ["OpenAQ"%string] else [])
    ++ (if contains "Weather" context then ["Weather API"%string] else [])
    ++ (if contains "WHO" context || contains "EPA" context
        then ["WHO/EPA Guidelines"%string] else []) in
  match sources with
  | [] => ["Knowledge Base"%string]
  | _ => sources
  end.

(** [x in l] for a list of strings *)
Definition in_list (x : string) (l : list string) : bool :=
  existsb (String.eqb x) l.

(** [ResponseFormatter._calculate_confidence] *)
Definition _calculate_confidence (context : string) (data_sources : list string)
  : R :=
  let c0 := (5 / 10)%R in
  let c1 := if 1 <? length data_sources then (c0 + 2 / 10)%R else c0 in
  let c2 := if in_list "OpenAQ" data_sources then (c1 + 1 / 10)%R else c1 in
  let c3 := if in_list "WHO" data_sources || in_list "EPA" data_sources
            then (c2 + 1 / 10)%R else c2 in
  let c4 := if contains "2024" context || contains "2025" context
            then (c3 + 1 / 10)%R else c3 in
  Rmin c4 1.

(** Python's truth value of a metadata value. *)
Definition py_truthy (v : pyval) : bool :=
  match v with
  | PNone => false
  | PBool b => b
  | PInt n => negb (n =? 0)%Z
  | PStr s => negb (String.eqb s EmptyString)
  | PList l => match l with [] => false | _ => true end
  end.

(** A value of the user context: a plain value or a dictionary of plain
    values. *)
Inductive context_value : Type :=
  | CVal (v : pyval)
  | CDict (m : Meta).

Abbreviation UserContext := (gmap string context_value).

(** [user_context.get('age_group') == group] *)
Definition age_group_is (user_context : UserContext) (group : string) : bool :=
  match user_context !! "age_group" with
  | Some (CVal v) => py_eqb v (PStr group)
  | _ => false
  end.

(** The truth value of [user_context.get('health_conditions', {}).get(name)];
    the second [get] raises when the value under ['health_conditions'] is
    not a dictionary. *)
Definition health_condition (user_context : UserContext) (name : string)
  : result bool :=
  match user_context !! "health_conditions" with
  | None => Ok false
  | Some (CDict m) =>
      Ok (match m !! name with
          | Some v => py_truthy v
          | None => false
          end)
  | Some (CVal _) => Raise AttributeError
  end.

Definition children_advice : list string :=
  ["Children should avoid outdoor activities when air quality is poor";
   "Use air purifiers in children's bedrooms and play areas"]%string.

Definition elderly_advice : list string :=
  ["Elderly individuals should limit outdoor activities during poor air quality";
   "Keep medications readily available and monitor for worsening symptoms"]%string.

Definition asthma_advice : list string :=
  ["Asthma patients should avoid outdoor activities when AQI > 100";
   "Keep rescue inhalers readily available";
   "Use air purifiers with HEPA filters"]%string.

Definition pregnancy_advice : list string :=
  ["Pregnant women should avoid outdoor activities when air quality is poor";
   "Use air purifiers at home and work";
   "Consult healthcare provider for specific guidance"]%string.

Definition general_advice : list string :=
  ["Stay indoors with windows closed";
   "Use air purifiers if available";
   "Consider wearing N95 masks if going outside is necessary"]%string.

(** [ResponseFormatter._generate_recommendations] *)
Definition _generate_recommendations (user_context : UserContext)
  (context : string) : result (list string) :=
  let r1 := if age_group_is user_context "children" then children_advice else [] in
  let r2 := if age_group_is user_context "elderly" then elderly_advice else [] in
  asthma <- health_condition user_context "asthma" ;;
  let r3 := if asthma then asthma_advice else [] in
  pregnancy <- health_condition user_context "pregnancy" ;;
  let r4 := if pregnancy then pregnancy_advice else [] in
  let r5 := if contains "unhealthy" (Text.lower context)
               || contains "poor" (Text.lower context)
            then general_advice else [] in
  Ok (take 5 (r1 ++ r2 ++ r3 ++ r4 ++ r5)).

Record FormattedResponse : Type := mkResponse {
  fr_response : string;
  fr_confidence : R;
  fr_data_sources : list string;
  fr_timestamp : string;
  fr_recommendations : list string
}.

(** [ResponseFormatter.format_response] at the time [now]. *)
Definition format_response (now response context : string)
  (user_context : UserContext) : result FormattedResponse :=
  let data_sources := _extract_data_sources context in
  recommendations <- _generate_recommendations user_context context ;;
  let confidence := _calculate_confidence context data_sources in
  Ok (mkResponse response confidence data_sources now recommendations).


(** ** The web endpoints ([src/main.py]) and the health checks behind them *)

(** The truth value of an optional string such as an API key. *)
Definition key_given (key : option string) : bool :=
  match key with
  | None => false
  | Some EmptyString => false
  | Some _ => true
  end.

(** [OpenAQClient.health_check]: [True] when the request succeeds; any
    exception of the request is caught and gives [False]. *)
Definition openaq_health_check (request_succeeds : bool) : outcome bool :=
  Returned request_succeeds.

(** [WeatherClient.health_check]: without API key [True]; otherwise as for
    OpenAQ. *)
Definition weather_health_check (api_key : option string)
  (request_succeeds : bool) : outcome bool :=
  if key_given api_key then Returned request_succeeds else Returned true.

(** [GuidelinesClient.health_check] *)
Definition guidelines_health_check : outcome bool := Returned true.

(** [RAGPipeline.health_check], given the outcome of each client's
    [health_check] in the order of the clients: the first exception is
    re-raised, returned values are not looked at. *)
Fixpoint pipeline_health_check (clients : list (outcome bool)) : outcome unit :=
  match clients with
  | [] => Returned tt
  | Returned _ :: rest => pipeline_health_check rest
  | Failed message :: _ => Failed message
  end.

(** ["healthy"], or [f"unhealthy: {str(e)}"] *)
Definition service_status {A} (o : outcome A) : string :=
  match o with
  | Returned _ => "healthy"
  | Failed message => String.append "unhealthy: " message
  end.

Record HealthResponse : Type := mkHealth {
  hr_status : string;
  hr_timestamp : string;
  hr_services : list (string * string)
}.

Definition none_has_no_health_check : string :=
  "'NoneType' object has no attribute 'health_check'".

(** The [/health] endpoint.  [vector_store] and [rag_pipeline] are the
    module's globals, [None] until the startup has set them; a pipeline is
    given by the outcomes of its clients' health checks. *)
Definition health_endpoint (now : string) (vector_store : option VectorStore)
  (rag_pipeline : option (list (outcome bool))) : HealthResponse :=
  let store_check :=
    match vector_store with
    | None => Failed none_has_no_health_check
    | Some st => health_check st
    end in
  let clients_check :=
    match rag_pipeline with
    | None => Failed none_has_no_health_check
    | Some clients => pipeline_health_check clients
    end in
  let services :=
    [("vector_store"%string, service_status store_check);
     ("data_clients"%string, service_status clients_check)] in
  mkHealth (if forallb (fun kv : string * string => contains "healthy" kv.2)
                       services
            then "operational" else "degraded")
           now services.

(** The clients that the startup of [main.py] registers, by the outcome of
    the two HTTP requests and the weather API key. *)
Definition registered_clients (openaq_reachable : bool)
  (weather_key : option string) (weather_reachable : bool)
  : list (outcome bool) :=
  [openaq_health_check openaq_reachable;
   weather_health_check weather_key weather_reachable;
   guidelines_health_check].

(** What an endpoint sends back. *)
Inductive http_reply (A : Type) : Type :=
  | Reply (body : A)
  | HttpError (status_code : Z) (detail : string).
Arguments Reply {A} body.
Arguments HttpError {A} status_code detail.

(** The [/chat] endpoint.  [http_exception_str] is [str] of an
    [HTTPException]; [rag_pipeline] is the global, given by what its
    [process_query] returns or raises for the request. *)
Definition chat (http_exception_str : Z -> string -> string)
  (rag_pipeline : option (outcome FormattedResponse))
  : http_reply FormattedResponse :=
  let body : outcome FormattedResponse :=
    match rag_pipeline with
    | None => Failed (http_exception_str 503%Z "RAG pipeline not initialized")
    | Some result => result
    end in
  match body with
  | Returned result => Reply result
  | Failed message =>
      HttpError 500%Z (String.append "Error processing request: " message)
  end.


(** * Sanity checks of the embedding *)

Example md5_empty :
  MD5.hexdigest_int (Text.encode "") = 0xd41d8cd98f00b204e9800998ecf8427e%Z.
Proof. vm_compute. reflexivity. Qed.

Example md5_abc :
  MD5.hexdigest_int (Text.encode "abc") = 0x900150983cd24fb0d6963f7d28e17f72%Z.
Proof. vm_compute. reflexivity. Qed.

Example md5_long :
  MD5.hexdigest_int
    (Text.encode "12345678901234567890123456789012345678901234567890123456789012345678901234567890")
  = 0x57edf4a22be3c955ac49da2e2107b67a%Z.
Proof. vm_compute. reflexivity. Qed.

Example findall_example :
  Text.findall_words (Text.lower "Hello, World_1 x! a--b")
  = ["hello"; "world_1"; "x"; "a"; "b"]%string.
Proof. vm_compute. reflexivity. Qed.

Example word_pos_a : word_pos "a" = 97.
Proof. vm_compute. reflexivity. Qed.

Example word_pos_b : word_pos "b" = 271.
Proof. vm_compute. reflexivity. Qed.

(** * Chunker *)

Section Chunker.

Lemma range_from_spec (step : nat) (Hstep : 0 < step) :
  forall fuel start stop,
    stop - start <= fuel ->
    range_from fuel start stop step
    = map (fun j => start + j * step) (seq 0 (ceil_div (stop - start) step)).
Proof.
  unfold ceil_div.
  induction fuel as [|fuel IH]; intros start stop Hfuel; simpl.
  - replace (stop - start) with 0 by lia.
    rewrite Nat.div_small by lia. reflexivity.
  - destruct (Nat.ltb_spec start stop) as [Hlt|Hge].
    + rewrite IH by lia.
      assert (Hq : (stop - start + step - 1) / step
                   = S ((stop - (start + step) + step - 1) / step)).
      { destruct (Nat.le_gt_cases step (stop - start)) as [Hbig|Hsmall].
        - replace (stop - start + step - 1)
            with ((stop - (start + step) + step - 1) + 1 * step) by lia.
          rewrite Nat.div_add by lia. lia.
        - replace (stop - (start + step)) with 0 by lia.
          rewrite (Nat.div_small (0 + step - 1)) by lia.
          symmetry. apply Nat.div_unique with (r := stop - start - 1). lia. lia. }
      rewrite Hq. simpl. f_equal; [lia|].
      rewrite <- seq_shift, map_map. apply map_ext. intros j. lia.
    + replace (stop - start) with 0 by lia.
      rewrite Nat.div_small by lia. reflexivity.
Qed.

Lemma range_spec (stop step : nat) :
  0 < step ->
  range 0 stop step = map (fun j => j * step) (seq 0 (ceil_div stop step)).
Proof.
  intros Hstep. unfold range.
  rewrite (range_from_spec step Hstep) by lia.
  rewrite Nat.sub_0_r. reflexivity.
Qed.

Lemma substring_length (s : string) :
  forall n m, String.length (substring n m s) = Nat.min m (String.length s - n).
Proof.
  induction s as [|c s IH]; intros n m.
  - destruct n, m; simpl; lia.
  - destruct n as [|n].
    + destruct m as [|m]; simpl; [reflexivity|]. rewrite IH. lia.
    + simpl. rewrite IH. reflexivity.
Qed.

Lemma ceil_div_bound (L i : nat) : i < ceil_div L 800 -> 800 * i < L.
Proof.
  unfold ceil_div. intros H.
  assert (H1 : 800 * ((L + 800 - 1) / 800) <= L + 800 - 1)
    by (apply Nat.Div0.mul_div_le).
  lia.
Qed.

Lemma letters_length (n : nat) : String.length (letters n) = n.
Proof.
  unfold letters. induction n as [|n IH]; simpl; [reflexivity|]. now rewrite IH.
Qed.

End Chunker.

Lemma split_document_eq (doc : Doc) (content : string) :
  doc_content doc = Some content ->
  _split_document doc
  = (if String.length content <=? 1000 then [doc]
     else map (chunk_at doc content) (seq 0 (ceil_div (String.length content) 800))).
Proof.
  intros Hc. unfold _split_document. rewrite Hc. simpl.
  destruct (String.length content <=? 1000); [reflexivity|].
  change (chunk_size - overlap) with 800.
  rewrite range_spec by lia. rewrite map_map.
  apply map_ext. intros i. unfold chunk_at, chunk_size.
  change (Nat.divmod (i * 800) 799 0 799).1 with (i * 800 / 800).
  rewrite Nat.div_mul by lia.
  replace (i * 800) with (800 * i) by lia. reflexivity.
Qed.

(** C4 (as amended): a document whose content has length [L] above 1000 is
    split into exactly [ceil(L / 800)] chunks; chunk [i] holds
    [content[800*i : 800*i + 1000]] and a copy of the parent metadata with
    [chunk_index = i]; a document of length at most 1000 yields itself as
    its only chunk; and no empty trailing chunk is emitted: every chunk of
    a content that is not empty is not empty, the last one included.  The
    only empty chunk is an empty document, which comes back as it is. *)
Theorem split_document_chunks (doc : Doc) (content : string) :
  doc_content doc = Some content ->
  _split_document doc
  = (if String.length content <=? 1000 then [doc]
     else map (chunk_at doc content) (seq 0 (ceil_div (String.length content) 800)))
  /\ (0 < String.length content ->
      Forall (fun chunk => exists text,
                doc_content chunk = Some text /\ 0 < String.length text)
             (_split_document doc))
  /\ (String.length content = 0 -> _split_document doc = [doc]).
Proof.
  intros Hc. pose proof (split_document_eq doc content Hc) as Heq.
  split; [exact Heq|]. split.
  - intros HL. rewrite Heq.
    destruct (Nat.leb_spec (String.length content) 1000) as [Hle|Hgt].
    + constructor; [|constructor]. exists content. split; [exact Hc|exact HL].
    + apply List.Forall_forall. intros chunk Hin.
      apply in_map_iff in Hin. destruct Hin as (i & <- & Hi).
      apply in_seq in Hi.
      exists (slice content (800 * i) (800 * i + 1000)). split; [reflexivity|].
      unfold slice. rewrite substring_length.
      assert (800 * i < String.length content) by (apply ceil_div_bound; lia).
      lia.
  - intros HL. rewrite Heq, HL. reflexivity.
Qed.

(** Witness for C4: a content of 1601 characters gives three chunks, none
    of them empty. *)
Lemma split_document_chunks_witness :
  length (_split_document (mkDoc (Some (letters 1601)) None)) = 3
  /\ Forall (fun chunk => exists text,
               doc_content chunk = Some text /\ 0 < String.length text)
            (_split_document (mkDoc (Some (letters 1601)) None)).
Proof.
  pose proof (split_document_chunks (mkDoc (Some (letters 1601)) None)
                (letters 1601) eq_refl) as (Heq & Hne & _).
  split.
  - rewrite Heq, letters_length. reflexivity.
  - apply Hne. rewrite letters_length. lia.
Defined.

(** C4 as stated fails: for a content of 1601 characters the code emits
    three chunks (windows at 0, 800 and 1600) where the stated formula
    [ceil((L - 1000) / 800) + 1] gives two.  The third chunk is the
    trailing one, and it holds one character.  A chunk without any
    character is emitted for an empty document only, which is its own
    chunk. *)
Lemma split_document_count_counterexample :
  length (_split_document (mkDoc (Some (letters 1601)) None))
  <> spec_chunk_count 1601
  /\ _split_document (mkDoc (Some (letters 1601)) None) !! 2
     = Some (mkDoc (Some "a"%string) (Some {[ "chunk_index" := PInt 2 ]}))
  /\ _split_document (mkDoc (Some ""%string) None)
     = [mkDoc (Some ""%string) None].
Proof.
  split; [|split].
  - rewrite (split_document_eq (mkDoc (Some (letters 1601)) None)
               (letters 1601) eq_refl), letters_length.
    change (1601 <=? 1000) with false. cbv iota.
    rewrite length_map, length_seq. vm_compute. discriminate.
  - rewrite (split_document_eq (mkDoc (Some (letters 1601)) None)
               (letters 1601) eq_refl), letters_length.
    change (1601 <=? 1000) with false. cbv iota.
    change (ceil_div 1601 800) with 3.
    cbn [seq map lookup list_lookup]. unfold chunk_at. cbn [doc_metadata].
    assert (Hs : slice (letters 1601) (800 * 2) (800 * 2 + 1000) = "a"%string)
      by (vm_compute; reflexivity).
    rewrite Hs. reflexivity.
  - reflexivity.
Qed.

(** * Vectors and the embedder *)

Section Vectors.

Local Open Scope R_scope.

Lemma sum_sq_nonneg (v : vec) : 0 <= sum_sq v.
Proof.
  induction v as [|x v IH]; simpl; [lra|].
  pose proof (Rle_0_sqr x) as Hx. unfold Rsqr in Hx. lra.
Qed.

Lemma sum_sq_scale (v : vec) (n : R) :
  n <> 0 -> sum_sq (map (fun x => x / n) v) = sum_sq v / (n * n).
Proof.
  intros Hn. induction v as [|x v IH]; simpl.
  - field. exact Hn.
  - rewrite IH. field. exact Hn.
Qed.

Lemma sum_sq_zeros (n : nat) : sum_sq (zeros n) = 0.
Proof.
  unfold zeros. induction n as [|n IH]; simpl; [reflexivity|]. rewrite IH. lra.
Qed.

Lemma norm_zeros (n : nat) : norm (zeros n) = 0.
Proof. unfold norm. rewrite sum_sq_zeros. apply sqrt_0. Qed.

Lemma norm_nonneg (v : vec) : 0 <= norm v.
Proof. apply sqrt_pos. Qed.

Lemma normalize_row_pos (v : vec) :
  0 < norm v -> normalize_row v = map (fun x => x / norm v) v.
Proof.
  intros H. unfold normalize_row. destruct (Rlt_dec 0 (norm v)); [reflexivity|lra].
Qed.

Lemma normalize_row_null (v : vec) : norm v = 0 -> normalize_row v = v.
Proof.
  intros H. unfold normalize_row. rewrite H.
  destruct (Rlt_dec 0 0); [lra|reflexivity].
Qed.

Lemma norm_normalize_row (v : vec) : 0 < norm v -> norm (normalize_row v) = 1.
Proof.
  intros H. rewrite normalize_row_pos by exact H.
  unfold norm at 1. rewrite sum_sq_scale by lra.
  unfold norm. rewrite sqrt_sqrt by apply sum_sq_nonneg.
  assert (Hs : sum_sq v <> 0).
  { intros Hz. unfold norm in H. rewrite Hz, sqrt_0 in H. lra. }
  replace (sum_sq v / sum_sq v) with 1 by (field; exact Hs).
  apply sqrt_1.
Qed.

Lemma norm_cases (v : vec) : norm v = 0 \/ 0 < norm v.
Proof. pose proof (norm_nonneg v). lra. Qed.

Lemma normalize_row_unit (v : vec) : norm v = 1 -> normalize_row v = v.
Proof.
  intros H. rewrite normalize_row_pos by lra. rewrite H.
  rewrite <- (map_id v) at 2. apply map_ext. intros x. unfold id. field.
Qed.

(** Normalising twice is normalising once. *)
Lemma normalize_row_idem (v : vec) :
  normalize_row (normalize_row v) = normalize_row v.
Proof.
  destruct (norm_cases v) as [H0|Hpos].
  - rewrite (normalize_row_null v H0). apply normalize_row_null. exact H0.
  - apply normalize_row_unit. apply norm_normalize_row. exact Hpos.
Qed.

Lemma normalize_row_length (v : vec) : length (normalize_row v) = length v.
Proof.
  unfold normalize_row. destruct (Rlt_dec 0 (norm v)); [apply length_map|reflexivity].
Qed.

(** A normalised row has norm one or is a null row. *)
Lemma normalize_row_norm (v : vec) :
  norm (normalize_row v) = 1 \/ norm (normalize_row v) = 0.
Proof.
  destruct (norm_cases v) as [H0|Hpos].
  - right. rewrite normalize_row_null; exact H0.
  - left. apply norm_normalize_row. exact Hpos.
Qed.

End Vectors.

Section Embedder.

Local Open Scope R_scope.

Lemma word_pos_bound (word : string) : (word_pos word < dimension)%nat.
Proof.
  unfold word_pos.
  pose proof (Z.mod_pos_bound (MD5.hexdigest_int (Text.encode word))
                (Z.of_nat dimension)) as H.
  unfold dimension in *. lia.
Qed.

Lemma bump_INR (pos : nat) (c : list nat) :
  bump pos (map INR c) = map INR (alter S pos c).
Proof.
  unfold bump. revert pos. induction c as [|x c IH]; intros [|pos];
    try reflexivity.
  - change (INR x + 1 :: map INR c = INR (S x) :: map INR c).
    rewrite S_INR. reflexivity.
  - change (INR x :: alter (fun x => x + 1) pos (map INR c)
            = INR x :: map INR (alter S pos c)).
    f_equal. apply IH.
Qed.

Lemma histogram_counts (words : list string) :
  histogram words = map INR (counts words).
Proof.
  unfold histogram, counts, zeros.
  replace (replicate dimension 0) with (map INR (replicate dimension 0%nat))
    by (induction dimension; simpl; [reflexivity|f_equal; assumption]).
  generalize (replicate dimension 0%nat) as c.
  induction words as [|w ws IH]; intros c; simpl; [reflexivity|].
  rewrite bump_INR. apply IH.
Qed.

Lemma counts_length (words : list string) :
  length (counts words) = dimension.
Proof.
  unfold counts.
  assert (H : forall c, length (fold_left (fun c word => alter S (word_pos word) c)
                                          words c) = length c).
  { induction words as [|w ws IH]; intros c; simpl; [reflexivity|].
    rewrite IH. apply length_alter. }
  rewrite H. apply length_replicate.
Qed.

Lemma histogram_length (words : list string) :
  length (histogram words) = dimension.
Proof. rewrite histogram_counts, length_map. apply counts_length. Qed.

Lemma sum_nat_alter (pos : nat) (c : list nat) :
  (pos < length c)%nat -> sum_nat (alter S pos c) = S (sum_nat c).
Proof.
  revert pos. induction c as [|x c IH]; intros pos Hpos; simpl in Hpos; [lia|].
  destruct pos as [|pos]; [reflexivity|].
  change (x + sum_nat (alter S pos c) = S (x + sum_nat c))%nat.
  rewrite IH by lia. lia.
Qed.

Lemma sum_nat_counts (words : list string) :
  sum_nat (counts words) = length words.
Proof.
  unfold counts.
  assert (H : forall c, length c = dimension ->
     sum_nat (fold_left (fun c word => alter S (word_pos word) c) words c)
     = (length words + sum_nat c)%nat).
  { induction words as [|w ws IH]; intros c Hc; simpl; [reflexivity|].
    rewrite IH by (rewrite length_alter; exact Hc).
    rewrite sum_nat_alter by (rewrite Hc; apply word_pos_bound). lia. }
  rewrite H by apply length_replicate.
  assert (Hz : forall n, sum_nat (replicate n 0%nat) = 0%nat)
    by (induction n; simpl; [reflexivity|assumption]).
  rewrite Hz. lia.
Qed.

Lemma sum_nat_le_sq (c : list nat) : (sum_nat c <= sum_sq_nat c)%nat.
Proof.
  induction c as [|x c IH]; [reflexivity|].
  change (x + sum_nat c <= x * x + sum_sq_nat c)%nat. nia.
Qed.

Lemma sum_sq_INR (c : list nat) : sum_sq (map INR c) = INR (sum_sq_nat c).
Proof.
  induction c as [|x c IH]; [reflexivity|].
  change (INR x * INR x + sum_sq (map INR c) = INR (x * x + sum_sq_nat c)).
  rewrite IH, plus_INR, mult_INR. reflexivity.
Qed.

Lemma norm_histogram_pos (words : list string) :
  words <> [] -> 0 < norm (histogram words).
Proof.
  intros Hne. unfold norm. apply sqrt_lt_R0.
  rewrite histogram_counts, sum_sq_INR.
  apply (lt_INR 0).
  pose proof (sum_nat_le_sq (counts words)) as H.
  rewrite sum_nat_counts in H.
  destruct words; [congruence|]. simpl in H. lia.
Qed.

Lemma embed_text_no_tokens (text : string) :
  tokens text = [] -> embed_text text = zeros dimension.
Proof.
  intros H. unfold embed_text. fold (tokens text). rewrite H.
  change (histogram []) with (zeros dimension).
  apply normalize_row_null, norm_zeros.
Qed.

Lemma embed_text_norm (text : string) :
  tokens text <> [] -> norm (embed_text text) = 1.
Proof.
  intros H. unfold embed_text. fold (tokens text).
  apply norm_normalize_row, norm_histogram_pos. exact H.
Qed.

Lemma embed_text_length (text : string) : length (embed_text text) = dimension.
Proof. unfold embed_text. rewrite normalize_row_length. apply histogram_length. Qed.

End Embedder.

(** C5 (as amended): the embedder is total and returns one vector of 384
    coordinates per text; the empty string yields the zero vector, and so
    does every text without a word token; a text with at least one word
    token yields a vector of L2 norm 1 (in exact arithmetic). *)
Theorem embedder_norm (text : string) :
  exists v : vec,
    _generate_simple_embeddings [text] = [v]
    /\ length v = 384
    /\ _generate_simple_embeddings [EmptyString] = [zeros 384]
    /\ (tokens text <> [] -> norm v = 1%R)
    /\ (tokens text = [] -> v = zeros 384).
Proof.
  exists (embed_text text). repeat split.
  - apply embed_text_length.
  - simpl. f_equal. apply embed_text_no_tokens. reflexivity.
  - apply embed_text_norm.
  - apply embed_text_no_tokens.
Qed.

(** Witness for C5: a sentence with word tokens has an embedding of norm 1. *)
Lemma embedder_norm_witness :
  norm (embed_text "PM2.5 causes respiratory disease") = 1%R.
Proof.
  destruct (embedder_norm "PM2.5 causes respiratory disease")
    as (v & Hv & _ & _ & Hn & _).
  injection Hv as <-. apply Hn. vm_compute. discriminate.
Defined.

(** C5 as stated fails: the text "!" is not empty, has no word token, and is
    embedded as the zero vector, whose norm is 0 and not 1. *)
Lemma embedder_norm_counterexample :
  "!"%string <> EmptyString
  /\ embed_text "!" = zeros 384
  /\ norm (embed_text "!") <> 1%R.
Proof.
  assert (H : embed_text "!" = zeros 384)
    by (apply embed_text_no_tokens; reflexivity).
  repeat split; [discriminate|exact H|].
  rewrite H, norm_zeros. lra.
Qed.

(** * Filter *)

Section Filter.

Lemma matches_filter_spec (metadata filter_metadata : Meta) :
  _matches_filter metadata filter_metadata = true
  <-> (forall key value,
         filter_metadata !! key = Some value ->
         exists v, metadata !! key = Some v /\ py_eqb v value = true).
Proof.
  unfold _matches_filter. rewrite forallb_forall. split.
  - intros H key value Hkv.
    specialize (H (key, value)). simpl in H.
    destruct (metadata !! key) as [v|].
    + exists v. split; [reflexivity|]. apply H.
      apply list_elem_of_In, elem_of_map_to_list. exact Hkv.
    + discriminate H. apply list_elem_of_In, elem_of_map_to_list. exact Hkv.
  - intros H [key value] Hin. simpl.
    apply list_elem_of_In, elem_of_map_to_list in Hin.
    destruct (H key value Hin) as (v & -> & Hv). exact Hv.
Qed.


Lemma filter_given_lookup (f : Meta) key value :
  f !! key = Some value -> filter_given (Some f) = true.
Proof.
  intros H. unfold filter_given.
  destruct (Nat.eqb_spec (size f) 0) as [Hz|]; [|reflexivity].
  apply map_size_empty_inv in Hz. subst f. rewrite lookup_empty in H. discriminate.
Qed.

(** What [format_hit] returns satisfies the filter. *)
Lemma format_hit_sound (st : VectorStore) (f : Meta) hit r :
  format_hit st (Some f) hit = Some r ->
  forall key value,
    f !! key = Some value ->
    exists v, res_metadata r !! key = Some v /\ py_eqb v value = true.
Proof.
  intros Hhit key value Hkv. destruct hit as [score i].
  unfold format_hit in Hhit.
  destruct (documents st !! i) as [text|]; [|discriminate].
  rewrite (filter_given_lookup f key value Hkv) in Hhit.
  simpl in Hhit.
  destruct (_matches_filter (default ∅ (metadata st !! i)) f) eqn:E; [|discriminate].
  injection Hhit as <-. simpl.
  apply (proj1 (matches_filter_spec _ _) E). exact Hkv.
Qed.

Lemma search_results_from_hits (st : VectorStore) query k f results :
  similarity_search st query k f = Ok results ->
  forall r, In r results -> exists hit, format_hit st f hit = Some r.
Proof.
  unfold similarity_search, search_body. intros H r Hr.
  destruct (index st) as [idx|]; [|injection H as <-; destruct Hr].
  destruct (ntotal idx =? 0); [injection H as <-; destruct Hr|].
  destruct (normalize_L2 (_generate_simple_embeddings [query])) as [qe|];
    simpl in H; [|injection H as <-; destruct Hr].
  destruct (faiss_search idx (default [] (head qe))
              (Z.min k (Z.of_nat (ntotal idx)))) as [hits|];
    simpl in H; [|injection H as <-; destruct Hr].
  injection H as <-.
  apply list_elem_of_In, subseteq_take in Hr.
  unfold format_results in Hr. apply list_elem_of_omap in Hr.
  destruct Hr as (hit & _ & Hhit). exists hit. exact Hhit.
Qed.

End Filter.

(** * Search: evaluation of the body *)

Section Search.

Lemma embed_text_normalized (text : string) :
  normalize_row (embed_text text) = embed_text text.
Proof. unfold embed_text. apply normalize_row_idem. Qed.

Lemma normalize_rows_embeddings (texts : list string) :
  map normalize_row (map embed_text texts) = map embed_text texts.
Proof.
  induction texts as [|t ts IH]; cbn [map]; [reflexivity|].
  rewrite embed_text_normalized, IH. reflexivity.
Qed.

Lemma normalize_embeddings (texts : list string) :
  texts <> [] ->
  normalize_L2 (_generate_simple_embeddings texts)
  = Ok (_generate_simple_embeddings texts).
Proof.
  intros Hne. unfold _generate_simple_embeddings.
  rewrite <- (normalize_rows_embeddings texts) at 2.
  destruct texts as [|t ts]; [congruence|]. reflexivity.
Qed.

Lemma search_body_uninitialized st query k f :
  index st = None -> search_body st query k f = Ok [].
Proof. intros H. unfold search_body. rewrite H. reflexivity. Qed.

Lemma search_body_empty st idx query k f :
  index st = Some idx -> ntotal idx = 0 -> search_body st query k f = Ok [].
Proof. intros H H0. unfold search_body. rewrite H, H0. reflexivity. Qed.

Lemma search_body_populated st idx query k f :
  index st = Some idx -> ntotal idx <> 0 ->
  search_body st query k f
  = (hits <- faiss_search idx (embed_text query)
               (Z.min k (Z.of_nat (ntotal idx))) ;;
     Ok (take (Z.to_nat k) (format_results st f hits))).
Proof.
  intros H Hn. unfold search_body. rewrite H.
  destruct (Nat.eqb_spec (ntotal idx) 0) as [|_]; [contradiction|].
  rewrite normalize_embeddings by discriminate. reflexivity.
Qed.

Lemma search_body_nonpositive_k st idx query k f :
  index st = Some idx -> ntotal idx <> 0 -> (k <= 0)%Z ->
  search_body st query k f = Raise AssertionError.
Proof.
  intros H Hn Hk. rewrite (search_body_populated st idx) by assumption.
  unfold faiss_search.
  destruct (Z.leb_spec (Z.min k (Z.of_nat (ntotal idx))) 0) as [_|Hbad];
    [reflexivity|lia].
Qed.

Lemma search_body_dimension_mismatch st idx query k f :
  index st = Some idx -> ntotal idx <> 0 -> (0 < k)%Z -> d idx <> dimension ->
  search_body st query k f = Raise AssertionError.
Proof.
  intros H Hn Hk Hd. rewrite (search_body_populated st idx) by assumption.
  unfold faiss_search.
  destruct (Z.leb_spec (Z.min k (Z.of_nat (ntotal idx))) 0) as [Hbad|_];
    [lia|].
  rewrite embed_text_length.
  destruct (Nat.eqb_spec dimension (d idx)) as [Heq|_]; [congruence|].
  reflexivity.
Qed.

Lemma search_body_ranked st idx query k f :
  index st = Some idx -> ntotal idx <> 0 -> (0 < k)%Z -> d idx = dimension ->
  search_body st query k f
  = Ok (take (Z.to_nat k) (format_results st f (top_hits idx query k))).
Proof.
  intros H Hn Hk Hd. rewrite (search_body_populated st idx) by assumption.
  unfold faiss_search, top_hits.
  destruct (Z.leb_spec (Z.min k (Z.of_nat (ntotal idx))) 0) as [Hbad|_];
    [lia|].
  rewrite embed_text_length, Hd, Nat.eqb_refl. reflexivity.
Qed.

Lemma similarity_search_returns st query k f :
  exists results, similarity_search st query k f = Ok results.
Proof.
  unfold similarity_search.
  destruct (search_body st query k f) as [results|e]; eauto.
Qed.

End Search.

(** * Adding documents *)

Section Adding.


Lemma random_rand_rows (env : Env) (n m : nat) :
  Forall (fun row : vec => length row = m) (random_rand env n m).
Proof.
  unfold random_rand. apply List.Forall_forall. intros row Hin.
  apply in_map_iff in Hin. destruct Hin as (i & <- & _).
  rewrite length_map. apply length_seq.
Qed.

Lemma embeddings_rows (texts : list string) :
  Forall (fun row : vec => length row = dimension)
         (_generate_simple_embeddings texts).
Proof.
  unfold _generate_simple_embeddings. apply List.Forall_forall. intros row Hin.
  apply in_map_iff in Hin. destruct Hin as (t & <- & _).
  apply embed_text_length.
Qed.

Lemma faiss_add_ok (env : Env) (idx : IndexFlatIP) (x : list vec) :
  x <> [] ->
  Forall (fun row : vec => length row = d idx) x ->
  faiss_add_completes env = true ->
  faiss_add env idx x = Ok (mkIndex (d idx) (xb idx ++ x)).
Proof.
  intros Hne Hrows Hok. unfold faiss_add.
  destruct x as [|r x']; [congruence|].
  assert (Hall : forallb (fun row : vec => length row =? d idx) (r :: x') = true).
  { apply forallb_forall. intros row Hin.
    apply Nat.eqb_eq. revert row Hin. apply List.Forall_forall. exact Hrows. }
  rewrite Hall, Hok. reflexivity.
Qed.


(** An empty batch raises before anything is changed. *)
Lemma add_documents_empty_batch env st disk :
  add_documents env st disk [] = (st, disk, Raise IndexError).
Proof. reflexivity. Qed.

Lemma add_documents_uninitialized env st disk docs :
  index st = None ->
  exists e, add_documents env st disk docs = (st, disk, Raise e).
Proof.
  intros H. unfold add_documents.
  destruct (collect docs) as [[texts metadatas]|e]; [|eauto].
  destruct (normalize_L2 _) as [embeddings|e]; [|eauto].
  rewrite H. eauto.
Qed.

(** A successful append to an empty index. *)
Lemma add_documents_first env st disk docs idx texts metadatas :
  index st = Some idx -> ntotal idx = 0 -> d idx = dimension ->
  collect docs = Ok (texts, metadatas) -> texts <> [] ->
  faiss_add_completes env = true ->
  let st' := mkStore (Some (mkIndex (d idx)
                              (xb idx ++ _generate_simple_embeddings texts)))
                     (documents st ++ texts) (metadata st ++ metadatas) in
  add_documents env st disk docs = (st', _save_data env st' disk, Ok tt).
Proof.
  intros Hidx Hn Hd Hc Hne Hok. unfold add_documents.
  rewrite Hc, (normalize_embeddings texts Hne), Hidx, Hn.
  change (0 =? 0) with true. cbv iota.
  rewrite faiss_add_ok; [reflexivity| |rewrite Hd; apply embeddings_rows|exact Hok].
  destruct texts; [congruence|discriminate].
Qed.

(** A successful add to a populated index: the index is rebuilt from the
    rows of [_get_existing_embeddings] followed by the new embeddings. *)
Lemma add_documents_rebuild env st disk docs idx texts metadatas :
  index st = Some idx -> ntotal idx <> 0 ->
  collect docs = Ok (texts, metadatas) -> texts <> [] ->
  faiss_add_completes env = true ->
  let st' := mkStore (Some (mkIndex dimension
                              (random_rand env (ntotal idx) dimension
                               ++ _generate_simple_embeddings texts)))
                     (documents st ++ texts) (metadata st ++ metadatas) in
  add_documents env st disk docs = (st', _save_data env st' disk, Ok tt).
Proof.
  intros Hidx Hn Hc Hne Hok. unfold add_documents, _get_existing_embeddings.
  rewrite Hc, (normalize_embeddings texts Hne), Hidx.
  destruct (Nat.eqb_spec (ntotal idx) 0) as [|_]; [contradiction|].
  rewrite faiss_add_ok; [reflexivity| | |exact Hok].
  - destruct texts; [congruence|].
    destruct (random_rand env (ntotal idx) dimension); discriminate.
  - apply Forall_app. split; [apply random_rand_rows|apply embeddings_rows].
Qed.

Lemma faiss_add_runtime_error (env : Env) (idx : IndexFlatIP) (x : list vec) :
  x <> [] ->
  Forall (fun row : vec => length row = d idx) x ->
  faiss_add_completes env = false ->
  faiss_add env idx x = Raise RuntimeError.
Proof.
  intros Hne Hrows Hno. unfold faiss_add.
  destruct x as [|r x']; [congruence|].
  assert (Hall : forallb (fun row : vec => length row =? d idx) (r :: x') = true).
  { apply forallb_forall. intros row Hin.
    apply Nat.eqb_eq. revert row Hin. apply List.Forall_forall. exact Hrows. }
  rewrite Hall, Hno. reflexivity.
Qed.

(** A failed append to a populated index: the index has already been
    replaced by a fresh, empty one. *)
Lemma add_documents_rebuild_fails env st disk docs idx texts metadatas :
  index st = Some idx -> ntotal idx <> 0 ->
  collect docs = Ok (texts, metadatas) -> texts <> [] ->
  faiss_add_completes env = false ->
  add_documents env st disk docs
  = (mkStore (Some (new_index dimension)) (documents st) (metadata st),
     disk, Raise RuntimeError).
Proof.
  intros Hidx Hn Hc Hne Hno. unfold add_documents, _get_existing_embeddings.
  rewrite Hc, (normalize_embeddings texts Hne), Hidx.
  destruct (Nat.eqb_spec (ntotal idx) 0) as [|_]; [contradiction|].
  rewrite faiss_add_runtime_error; [reflexivity| | |exact Hno].
  - destruct texts; [congruence|].
    destruct (random_rand env (ntotal idx) dimension); discriminate.
  - apply Forall_app. split; [apply random_rand_rows|apply embeddings_rows].
Qed.

End Adding.

(** * One-word texts: their embedding is a unit coordinate vector *)

Section OneWord.

Local Open Scope R_scope.

Lemma dot_zeros_INR (n : nat) (row : vec) :
  dot (map INR (replicate n 0%nat)) row = 0.
Proof.
  revert row. induction n as [|n IH]; intros row; [reflexivity|].
  destruct row as [|r row]; [reflexivity|].
  change (INR 0 * r + dot (map INR (replicate n 0%nat)) row = 0).
  rewrite IH. simpl. lra.
Qed.

Lemma dot_one_hot (n p : nat) (row : vec) :
  (p < n)%nat ->
  dot (map INR (alter S p (replicate n 0%nat))) row = nth p row 0.
Proof.
  revert p row. induction n as [|n IH]; intros p row Hp; [lia|].
  destruct p as [|p], row as [|r row]; try reflexivity.
  - change (INR 1 * r + dot (map INR (replicate n 0%nat)) row = r).
    rewrite dot_zeros_INR. simpl. lra.
  - change (INR 0 * r + dot (map INR (alter S p (replicate n 0%nat))) row
            = nth p row 0).
    rewrite IH by lia. simpl. lra.
Qed.

Lemma sum_sq_nat_one_hot (n p : nat) :
  (p < n)%nat -> sum_sq_nat (alter S p (replicate n 0%nat)) = 1%nat.
Proof.
  revert p. induction n as [|n IH]; intros p Hp; [lia|].
  destruct p as [|p].
  - change (1 * 1 + sum_sq_nat (replicate n 0) = 1)%nat.
    assert (Hz : sum_sq_nat (replicate n 0%nat) = 0%nat)
      by (clear; induction n; simpl; [reflexivity|assumption]).
    rewrite Hz. reflexivity.
  - change (0 * 0 + sum_sq_nat (alter S p (replicate n 0)) = 1)%nat.
    rewrite IH by lia. reflexivity.
Qed.

Lemma nth_one_hot (n p q : nat) :
  (p < n)%nat ->
  nth q (map INR (alter S p (replicate n 0%nat))) 0
  = if Nat.eqb p q then 1 else 0.
Proof.
  revert p q. induction n as [|n IH]; intros p q Hp; [lia|].
  destruct p as [|p], q as [|q]; try reflexivity.
  - change (nth q (map INR (replicate n 0%nat)) 0 = 0).
    clear. revert q. induction n as [|n IH]; intros [|q]; simpl; auto.
  - change (nth q (map INR (alter S p (replicate n 0%nat))) 0
            = if Nat.eqb p q then 1 else 0).
    apply IH. lia.
Qed.

(** The embedding of a text with exactly one word. *)
Lemma embed_one_word (text word : string) :
  tokens text = [word] ->
  embed_text text = map INR (alter S (word_pos word) (replicate dimension 0%nat)).
Proof.
  intros Ht. unfold embed_text. fold (tokens text). rewrite Ht.
  rewrite histogram_counts. change (counts [word])
    with (alter S (word_pos word) (replicate dimension 0%nat)).
  apply normalize_row_unit. unfold norm.
  rewrite sum_sq_INR, sum_sq_nat_one_hot by apply word_pos_bound.
  simpl. apply sqrt_1.
Qed.

Lemma dot_one_word (text word : string) (row : vec) :
  tokens text = [word] ->
  dot (embed_text text) row = nth (word_pos word) row 0.
Proof.
  intros Ht. rewrite (embed_one_word text word Ht).
  apply dot_one_hot, word_pos_bound.
Qed.

Lemma dot_one_word_each (s t ws wt : string) :
  tokens s = [ws] -> tokens t = [wt] ->
  dot (embed_text s) (embed_text t)
  = if Nat.eqb (word_pos wt) (word_pos ws) then 1 else 0.
Proof.
  intros Hs Ht. rewrite (dot_one_word s ws _ Hs), (embed_one_word t wt Ht).
  apply nth_one_hot, word_pos_bound.
Qed.

Lemma nth_random_row (env : Env) (i p m : nat) :
  (p < m)%nat ->
  nth p (map (fun j => random_entry env i j) (seq 0 m)) 0 = random_entry env i p.
Proof.
  intros Hp.
  rewrite (nth_indep _ 0 (random_entry env i 0))
    by (rewrite length_map, length_seq; exact Hp).
  rewrite (map_nth (fun j => random_entry env i j)).
  rewrite seq_nth by exact Hp. reflexivity.
Qed.

End OneWord.

(** * Initialisation and the sample stores *)

Section Samples.

Local Open Scope R_scope.

Lemma initialize_no_file env st :
  initialize env st NoFile
  = mkStore (Some (new_index dimension)) (documents st) (metadata st).
Proof. reflexivity. Qed.

(** Loading a snapshot rebuilds the index from the embeddings of the
    restored texts. *)
Lemma initialize_snapshot env st docs metas ts :
  docs <> [] -> faiss_add_completes env = true ->
  initialize env st (Snapshot docs metas ts)
  = mkStore (Some (mkIndex dimension (_generate_simple_embeddings docs)))
            docs metas.
Proof.
  intros Hne Hok. unfold initialize, _load_existing_data.
  destruct docs as [|t ts']; [congruence|].
  rewrite (normalize_embeddings (t :: ts')) by discriminate.
  cbn [bind index].
  rewrite faiss_add_ok; [reflexivity|discriminate| |exact Hok].
  apply embeddings_rows.
Qed.


Lemma tokens_ozone : tokens "ozone" = ["ozone"%string].
Proof. vm_compute. reflexivity. Qed.

Lemma tokens_asthma : tokens "asthma" = ["asthma"%string].
Proof. vm_compute. reflexivity. Qed.

Lemma word_pos_ozone : word_pos "ozone" = 170%nat.
Proof. vm_compute. reflexivity. Qed.

Lemma word_pos_asthma : word_pos "asthma" = 138%nat.
Proof. vm_compute. reflexivity. Qed.




Lemma add_both_eq env :
  faiss_add_completes env = true ->
  add_both env
  = (mkStore (Some (mkIndex dimension [embed_text "ozone"; embed_text "asthma"]))
             ["ozone"; "asthma"]%string [weather_meta; guidelines_meta],
     _save_data env
       (mkStore (Some (mkIndex dimension [embed_text "ozone"; embed_text "asthma"]))
                ["ozone"; "asthma"]%string [weather_meta; guidelines_meta])
       NoFile,
     Ok tt).
Proof.
  intros Hok. unfold add_both.
  rewrite (add_documents_first env (store_0 env) NoFile _ (new_index dimension)
             ["ozone"; "asthma"]%string [weather_meta; guidelines_meta]);
    try reflexivity; try discriminate; exact Hok.
Qed.

Lemma add_first_eq env :
  faiss_add_completes env = true ->
  add_first env
  = (mkStore (Some (mkIndex dimension [embed_text "ozone"]))
             ["ozone"%string] [weather_meta],
     _save_data env
       (mkStore (Some (mkIndex dimension [embed_text "ozone"]))
                ["ozone"%string] [weather_meta])
       NoFile,
     Ok tt).
Proof.
  intros Hok. unfold add_first.
  rewrite (add_documents_first env (store_0 env) NoFile _ (new_index dimension)
             ["ozone"%string] [weather_meta]);
    try reflexivity; try discriminate; exact Hok.
Qed.

Lemma add_second_eq env :
  faiss_add_completes env = true ->
  let st2 :=
    mkStore (Some (mkIndex dimension
                     [map (fun j => random_entry env 0 j) (seq 0 dimension);
                      embed_text "asthma"]))
            ["ozone"; "asthma"]%string [weather_meta; guidelines_meta] in
  add_second env = (st2, _save_data env st2 (add_first env).1.2, Ok tt).
Proof.
  intros Hok st2. unfold add_second. rewrite (add_first_eq env Hok).
  cbn [fst snd].
  rewrite (add_documents_rebuild env _ _ _
             (mkIndex dimension [embed_text "ozone"])
             ["asthma"%string] [guidelines_meta]);
    try reflexivity; try discriminate; exact Hok.
Qed.

Lemma reloaded_eq env :
  faiss_add_completes env = true -> disk_writable env = true ->
  reloaded env
  = mkStore (Some (mkIndex dimension [embed_text "ozone"; embed_text "asthma"]))
            ["ozone"; "asthma"]%string [weather_meta; guidelines_meta].
Proof.
  intros Hok Hw. unfold reloaded.
  pose proof (add_second_eq env Hok) as H. cbv zeta in H. rewrite H.
  cbn [fst snd]. unfold _save_data at 1. rewrite Hw.
  cbn [documents metadata].
  rewrite initialize_snapshot; [reflexivity|discriminate|exact Hok].
Qed.

End Samples.

(** * Searching the sample stores *)

Section SampleSearch.

Local Open Scope R_scope.

Lemma sort_desc_pair (x y : R) :
  y <= x -> sort_desc [(x, 0%nat); (y, 1%nat)] = [(x, 0%nat); (y, 1%nat)].
Proof.
  intros H. unfold sort_desc. cbn [fold_right insert_desc fst].
  destruct (Rlt_dec x y); [lra|reflexivity].
Qed.

Lemma scored_two (dim : nat) (r0 r1 q : vec) :
  scored (mkIndex dim [r0; r1]) q = [(dot q r0, 0%nat); (dot q r1, 1%nat)].
Proof. reflexivity. Qed.

Lemma scored_both_ozone :
  scored (mkIndex dimension [embed_text "ozone"; embed_text "asthma"])
         (embed_text "ozone")
  = [(1, 0%nat); (0, 1%nat)].
Proof.
  rewrite scored_two.
  rewrite (dot_one_word_each "ozone" "ozone" "ozone" "ozone" tokens_ozone tokens_ozone).
  rewrite (dot_one_word_each "ozone" "asthma" "ozone" "asthma" tokens_ozone tokens_asthma).
  rewrite word_pos_ozone, word_pos_asthma. reflexivity.
Qed.

Lemma scored_second_ozone env :
  scored (mkIndex dimension
            [map (fun j => random_entry env 0 j) (seq 0 dimension);
             embed_text "asthma"])
         (embed_text "ozone")
  = [(random_entry env 0 170, 0%nat); (0, 1%nat)].
Proof.
  rewrite scored_two.
  rewrite (dot_one_word "ozone" "ozone" _ tokens_ozone).
  rewrite (dot_one_word_each "ozone" "asthma" "ozone" "asthma" tokens_ozone tokens_asthma).
  rewrite word_pos_ozone, word_pos_asthma.
  rewrite nth_random_row by (unfold dimension; lia). reflexivity.
Qed.

Lemma top_hits_both_ozone (k : Z) :
  top_hits (mkIndex dimension [embed_text "ozone"; embed_text "asthma"]) "ozone" k
  = take (Z.to_nat (Z.min k 2)) [(1, 0%nat); (0, 1%nat)].
Proof.
  unfold top_hits. rewrite scored_both_ozone, sort_desc_pair by lra. reflexivity.
Qed.

Lemma search_both_ozone (k : Z) (f : option Meta) :
  (0 < k)%Z ->
  similarity_search both_store "ozone" k f
  = Ok (take (Z.to_nat k)
          (format_results both_store f
             (take (Z.to_nat (Z.min k 2)) [(1, 0%nat); (0, 1%nat)]))).
Proof.
  intros Hk. unfold similarity_search.
  rewrite (search_body_ranked both_store
             (mkIndex dimension [embed_text "ozone"; embed_text "asthma"]));
    try reflexivity; try discriminate; try exact Hk.
  rewrite top_hits_both_ozone. reflexivity.
Qed.

Lemma search_second_ozone env (k : Z) (f : option Meta) :
  (0 < k)%Z -> 0 <= random_entry env 0 170 ->
  similarity_search (second_store env) "ozone" k f
  = Ok (take (Z.to_nat k)
          (format_results (second_store env) f
             (take (Z.to_nat (Z.min k 2))
                   [(random_entry env 0 170, 0%nat); (0, 1%nat)]))).
Proof.
  intros Hk Hr. unfold similarity_search.
  rewrite (search_body_ranked (second_store env)
             (mkIndex dimension
                [map (fun j => random_entry env 0 j) (seq 0 dimension);
                 embed_text "asthma"]));
    try reflexivity; try discriminate; try exact Hk.
  unfold top_hits. rewrite scored_second_ozone, sort_desc_pair by exact Hr.
  reflexivity.
Qed.




Lemma format_results_cons st f hit hits :
  format_results st f (hit :: hits)
  = match format_hit st f hit with
    | Some r => r :: format_results st f hits
    | None => format_results st f hits
    end.
Proof. reflexivity. Qed.





End SampleSearch.

(** * Ranking *)

Section Ranking.

Local Open Scope R_scope.

Lemma insert_desc_perm (x : R * nat) (l : list (R * nat)) :
  Permutation (insert_desc x l) (x :: l).
Proof.
  induction l as [|y l IH]; simpl; [reflexivity|].
  destruct (Rlt_dec x.1 y.1); [|reflexivity].
  rewrite IH. apply perm_swap.
Qed.

Lemma sort_desc_perm (l : list (R * nat)) : Permutation (sort_desc l) l.
Proof.
  induction l as [|x l IH]; simpl; [reflexivity|].
  rewrite insert_desc_perm. apply perm_skip. exact IH.
Qed.

Lemma sort_desc_length (l : list (R * nat)) : length (sort_desc l) = length l.
Proof. apply Permutation_length, sort_desc_perm. Qed.

Lemma scored_length (idx : IndexFlatIP) (q : vec) :
  length (scored idx q) = ntotal idx.
Proof. unfold scored. apply length_imap. Qed.

Lemma scored_lookup (idx : IndexFlatIP) (q row : vec) (i : nat) :
  xb idx !! i = Some row -> scored idx q !! i = Some (dot q row, i).
Proof. intros H. unfold scored. rewrite list_lookup_imap, H. reflexivity. Qed.

Lemma scored_elem (idx : IndexFlatIP) (q : vec) (hit : R * nat) :
  In hit (scored idx q) ->
  exists row, xb idx !! hit.2 = Some row /\ hit.1 = dot q row.
Proof.
  intros H. apply list_elem_of_In, list_elem_of_lookup in H.
  destruct H as [i Hi]. unfold scored in Hi.
  rewrite list_lookup_imap in Hi.
  destruct (xb idx !! i) as [row|] eqn:E; [|discriminate].
  injection Hi as <-. exists row. split; [exact E|reflexivity].
Qed.

End Ranking.

(** * Error handling of the search *)

(** C10: [similarity_search] always returns a list and never an exception:
    whenever its body raises, the empty list is returned, and on a store
    that was never initialised (no index) the empty list is returned. *)
Theorem similarity_search_never_raises (st : VectorStore) (query : string)
  (k : Z) (f : option Meta) :
  (exists results, similarity_search st query k f = Ok results)
  /\ (forall e, search_body st query k f = Raise e ->
                similarity_search st query k f = Ok [])
  /\ (index st = None -> similarity_search st query k f = Ok []).
Proof.
  split; [apply similarity_search_returns|]. split.
  - intros e He. unfold similarity_search. rewrite He. reflexivity.
  - intros Hnone. unfold similarity_search.
    rewrite search_body_uninitialized by exact Hnone. reflexivity.
Qed.

(** Witness for C10: on the populated sample store, [k = 0] makes the index
    search raise inside the body, and the caller gets the empty list; the
    never-initialised store also gives the empty list. *)
Lemma similarity_search_never_raises_witness :
  search_body both_store "ozone" 0 None = Raise AssertionError
  /\ similarity_search both_store "ozone" 0 None = Ok []
  /\ similarity_search new_store "ozone" 5 None = Ok [].
Proof.
  assert (Hbody : search_body both_store "ozone" 0 None = Raise AssertionError).
  { apply (search_body_nonpositive_k both_store
             (mkIndex dimension [embed_text "ozone"; embed_text "asthma"]));
      [reflexivity|discriminate|lia]. }
  split; [exact Hbody|]. split.
  - exact (proj1 (proj2 (similarity_search_never_raises both_store "ozone" 0 None))
             AssertionError Hbody).
  - exact (proj2 (proj2 (similarity_search_never_raises new_store "ozone" 5 None))
             eq_refl).
Defined.

(** C6 (as amended): [similarity_search] does not fail fast.  On a store
    that was never initialised it returns the empty list, and when the
    index has another dimension than the query vector it returns the empty
    list as well (nothing is truncated or padded: the index refuses the
    query and the refusal is swallowed).  [add_documents] on a store that
    was never initialised does raise, and leaves store and disk as they
    were. *)
Theorem search_swallows_programmer_errors (st : VectorStore) (query : string)
  (k : Z) (f : option Meta) :
  (index st = None -> similarity_search st query k f = Ok [])
  /\ (forall idx, index st = Some idx -> d idx <> dimension ->
        similarity_search st query k f = Ok []
        /\ (ntotal idx <> 0 -> exists e, search_body st query k f = Raise e))
  /\ (forall env disk docs, index st = None ->
        exists e, add_documents env st disk docs = (st, disk, Raise e)).
Proof.
  split; [|split].
  - intros Hnone. unfold similarity_search.
    rewrite search_body_uninitialized by exact Hnone. reflexivity.
  - intros idx Hidx Hd.
    assert (Hraise : ntotal idx <> 0 -> exists e, search_body st query k f = Raise e).
    { intros Hn. destruct (Z_le_gt_dec k 0) as [Hk|Hk].
      - exists AssertionError. apply (search_body_nonpositive_k st idx); assumption.
      - exists AssertionError.
        apply (search_body_dimension_mismatch st idx); try assumption. lia. }
    split; [|exact Hraise].
    unfold similarity_search.
    destruct (Nat.eq_dec (ntotal idx) 0) as [Hz|Hn].
    + rewrite (search_body_empty st idx) by assumption. reflexivity.
    + destruct (Hraise Hn) as [e He]. rewrite He. reflexivity.
  - intros env disk docs Hnone. apply add_documents_uninitialized. exact Hnone.
Qed.

(** Witness for C6: the never-initialised store and a store whose index has
    two coordinates. *)
Lemma search_swallows_programmer_errors_witness :
  similarity_search new_store "ozone" 5 None = Ok []
  /\ similarity_search mismatched_store "ozone" 5 None = Ok []
  /\ (exists e, search_body mismatched_store "ozone" 5 None = Raise e)
  /\ (exists e, add_documents sample_env new_store NoFile [doc_ozone]
                = (new_store, NoFile, Raise e)).
Proof.
  destruct (search_swallows_programmer_errors new_store "ozone" 5 None)
    as (H1 & _ & H3).
  destruct (search_swallows_programmer_errors mismatched_store "ozone" 5 None)
    as (_ & H2 & _).
  destruct (H2 (mkIndex 2 [[1%R; 0%R]]) eq_refl) as [Hs Hb].
  { unfold dimension. simpl. lia. }
  split; [exact (H1 eq_refl)|]. split; [exact Hs|]. split.
  - apply Hb. discriminate.
  - exact (H3 sample_env NoFile [doc_ozone] eq_refl).
Defined.

(** C6 as stated fails: a search on the never-initialised store is not
    fatal, it returns the empty list; and a search whose query vector does
    not have the index's dimension is refused inside the body, yet the
    caller gets the empty list instead of the error. *)
Lemma search_fail_fast_counterexample :
  ~ (exists e, similarity_search new_store "ozone" 5 None = Raise e)
  /\ similarity_search new_store "ozone" 5 None = Ok []
  /\ search_body mismatched_store "ozone" 5 None = Raise AssertionError
  /\ similarity_search mismatched_store "ozone" 5 None = Ok [].
Proof.
  assert (Hb : search_body mismatched_store "ozone" 5 None = Raise AssertionError).
  { apply (search_body_dimension_mismatch mismatched_store
             (mkIndex 2 [[1%R; 0%R]]));
      [reflexivity|discriminate|lia|unfold dimension; simpl; lia]. }
  split; [|split; [|split]].
  - intros [e He]. discriminate He.
  - reflexivity.
  - exact Hb.
  - unfold similarity_search. rewrite Hb. reflexivity.
Qed.

(** * A query equal to an indexed text *)

Section ExactMatch.

Local Open Scope R_scope.

Lemma dot_bound (u v : vec) : 2 * dot u v <= sum_sq u + sum_sq v.
Proof.
  revert v. induction u as [|x u IH]; intros v.
  - change (dot [] v) with 0. pose proof (sum_sq_nonneg v).
    change (sum_sq []) with 0. lra.
  - destruct v as [|y v].
    + change (dot (x :: u) []) with 0. pose proof (sum_sq_nonneg (x :: u)).
      change (sum_sq []) with 0. lra.
    + change (2 * (x * y + dot u v) <= (x * x + sum_sq u) + (y * y + sum_sq v)).
      specialize (IH v).
      pose proof (Rle_0_sqr (x - y)) as Hsq. unfold Rsqr in Hsq. lra.
Qed.



Lemma sum_sq_of_norm (v : vec) : sum_sq v = norm v * norm v.
Proof. unfold norm. rewrite sqrt_sqrt; [reflexivity|apply sum_sq_nonneg]. Qed.

Lemma sum_sq_embed_le (text : string) : sum_sq (embed_text text) <= 1.
Proof.
  rewrite sum_sq_of_norm. unfold embed_text.
  destruct (normalize_row_norm (histogram (Text.findall_words (Text.lower text))))
    as [H|H]; rewrite H; lra.
Qed.


Lemma dot_embed_le (s t : string) : dot (embed_text s) (embed_text t) <= 1.
Proof.
  pose proof (dot_bound (embed_text s) (embed_text t)).
  pose proof (sum_sq_embed_le s). pose proof (sum_sq_embed_le t). lra.
Qed.

Lemma format_results_length (st : VectorStore) f hits :
  (length (format_results st f hits) <= length hits)%nat.
Proof.
  induction hits as [|hit hits IH]; [reflexivity|].
  rewrite format_results_cons.
  destruct (format_hit st f hit); simpl; lia.
Qed.

Lemma format_hit_score (st : VectorStore) f hit r :
  format_hit st f hit = Some r -> res_score r = hit.1.
Proof.
  destruct hit as [score i]. unfold format_hit.
  destruct (documents st !! i); [|discriminate].
  destruct (filter_given f).
  - destruct (_matches_filter _ _); [|discriminate].
    intros H. injection H as <-. reflexivity.
  - intros H. injection H as <-. reflexivity.
Qed.

End ExactMatch.

Section ExactMatchSearch.

Local Open Scope R_scope.

(** With [k] at least the number of rows, every row is a candidate and
    nothing is cut. *)
Lemma search_all_rows st idx query k f :
  index st = Some idx -> ntotal idx <> 0%nat -> d idx = dimension ->
  (Z.of_nat (ntotal idx) <= k)%Z ->
  similarity_search st query k f
  = Ok (format_results st f (sort_desc (scored idx (embed_text query)))).
Proof.
  intros Hidx Hn Hd Hk. unfold similarity_search.
  rewrite (search_body_ranked st idx) by (try assumption; lia).
  unfold top_hits.
  replace (Z.min k (Z.of_nat (ntotal idx))) with (Z.of_nat (ntotal idx)) by lia.
  rewrite Nat2Z.id.
  rewrite (take_ge (sort_desc _))
    by (rewrite sort_desc_length, scored_length; reflexivity).
  rewrite take_ge; [reflexivity|].
  pose proof (format_results_length st f
                (sort_desc (scored idx (embed_text query)))) as Hlen.
  rewrite sort_desc_length, scored_length in Hlen. lia.
Qed.

Lemma embeddings_lookup (texts : list string) (i : nat) (text : string) :
  texts !! i = Some text ->
  _generate_simple_embeddings texts !! i = Some (embed_text text).
Proof.
  intros H. unfold _generate_simple_embeddings.
  change (map embed_text texts) with (embed_text <$> texts).
  rewrite list_lookup_fmap, H. reflexivity.
Qed.

Lemma embeddings_lookup_inv (texts : list string) (i : nat) (row : vec) :
  _generate_simple_embeddings texts !! i = Some row ->
  exists text, texts !! i = Some text /\ row = embed_text text.
Proof.
  unfold _generate_simple_embeddings.
  change (map embed_text texts) with (embed_text <$> texts).
  rewrite list_lookup_fmap. destruct (texts !! i) as [text|]; [|discriminate].
  intros H. injection H as <-. eauto.
Qed.

End ExactMatchSearch.

Section IndexMatchesTexts.

(** After [initialize] of a new store, whatever the disk holds, the index
    rows are the embeddings of the stored texts. *)
Lemma initialize_matches (env : Env) (disk : Disk) :
  faiss_add_completes env = true ->
  index_matches_texts (initialize env new_store disk).
Proof.
  intros Hok. destruct disk as [| |docs metas ts].
  - exists (new_index dimension). repeat split.
  - exists (new_index dimension). repeat split.
  - destruct docs as [|t docs'].
    + exists (new_index dimension). repeat split.
    + rewrite initialize_snapshot by (try discriminate; exact Hok).
      eexists. repeat split.
Qed.

(** A successful add to an empty index keeps that property. *)
Lemma add_to_empty_matches env st disk docs st' disk' :
  index_matches_texts st -> vector_count st = 0 ->
  add_documents env st disk docs = (st', disk', Ok tt) ->
  index_matches_texts st'.
Proof.
  intros (idx & Hidx & Hd & Hxb) Hz. unfold vector_count in Hz.
  rewrite Hidx in Hz.
  assert (Hdocs : documents st = []).
  { unfold ntotal in Hz. rewrite Hxb in Hz.
    unfold _generate_simple_embeddings in Hz. rewrite length_map in Hz.
    destruct (documents st); [reflexivity|discriminate]. }
  unfold add_documents.
  destruct (collect docs) as [[texts metadatas]|e1]; [|discriminate].
  destruct texts as [|t texts]; [discriminate|].
  rewrite (normalize_embeddings (t :: texts)) by discriminate.
  rewrite Hidx, Hz. change (0 =? 0) with true. cbv iota.
  destruct (faiss_add env idx _) as [idx'|e] eqn:Hadd; [|discriminate].
  intros H. injection H as <- _.
  unfold faiss_add in Hadd.
  change (_generate_simple_embeddings (t :: texts))
    with (embed_text t :: _generate_simple_embeddings texts) in Hadd.
  destruct (negb _); [discriminate|].
  destruct (faiss_add_completes env); [|discriminate].
  injection Hadd as <-.
  eexists. split; [reflexivity|]. split; [exact Hd|].
  cbn [xb documents]. rewrite Hxb, Hdocs. reflexivity.
Qed.

Lemma both_store_matches : index_matches_texts both_store.
Proof. eexists. repeat split. Qed.

(** Saving such a store and initialising a new store from the snapshot
    gives the same index rows, texts and metadata, hence the same search
    results. *)
Lemma reload_of_matching_store env st idx :
  index st = Some idx -> d idx = dimension ->
  xb idx = _generate_simple_embeddings (documents st) ->
  documents st <> [] ->
  faiss_add_completes env = true -> disk_writable env = true ->
  forall disk, initialize env new_store (_save_data env st disk) = st.
Proof.
  intros Hidx Hd Hxb Hne Hok Hw disk. unfold _save_data. rewrite Hw.
  rewrite initialize_snapshot by assumption.
  destruct st as [oidx docs metas]. cbn [index documents metadata] in *.
  subst oidx. destruct idx as [dim rows]. cbn [d xb] in *. subst. reflexivity.
Qed.

End IndexMatchesTexts.

Section NoWordPassage.

Local Open Scope R_scope.



End NoWordPassage.

(** * The index across several adds *)

Section Rebuild.

Local Open Scope R_scope.

Lemma nth_embed_ozone : nth 170 (embed_text "ozone") 0 = 1.
Proof.
  rewrite (embed_one_word "ozone" "ozone" tokens_ozone), word_pos_ozone.
  rewrite nth_one_hot by (unfold dimension; lia). reflexivity.
Qed.

Lemma format_hit_second_ozone env (score : R) :
  format_hit (second_store env) None (score, 0%nat)
  = Some (mkResult "ozone" score weather_meta).
Proof. reflexivity. Qed.

Lemma format_hit_both_ozone_unfiltered (score : R) :
  format_hit both_store None (score, 0%nat)
  = Some (mkResult "ozone" score weather_meta).
Proof. reflexivity. Qed.

Lemma search_second_ozone_1 env :
  0 <= random_entry env 0 170 ->
  similarity_search (second_store env) "ozone" 1 None
  = Ok [mkResult "ozone" (random_entry env 0 170) weather_meta].
Proof.
  intros Hr. rewrite search_second_ozone by (try lia; exact Hr).
  change (Z.to_nat (Z.min 1 2)) with 1%nat. change (Z.to_nat 1) with 1%nat.
  cbn [take]. rewrite format_results_cons, format_hit_second_ozone. reflexivity.
Qed.

Lemma search_both_ozone_1 :
  similarity_search both_store "ozone" 1 None
  = Ok [mkResult "ozone" 1 weather_meta].
Proof.
  rewrite search_both_ozone by lia.
  change (Z.to_nat (Z.min 1 2)) with 1%nat. change (Z.to_nat 1) with 1%nat.
  cbn [take]. rewrite format_results_cons, format_hit_both_ozone_unfiltered.
  reflexivity.
Qed.

End Rebuild.

(** C1 fails on the code: after a first batch (the ozone passage) and a
    second batch (the asthma passage), both successful, the text and the
    metadata at position 0 are unchanged, but the vector at position 0 is
    the first row drawn by [np.random.rand] and no longer the embedding of
    its text, whatever numbers in [0, 1) are drawn. *)
Theorem rebuild_replaces_indexed_vectors (env : Env) :
  faiss_add_completes env = true ->
  (forall i j, (0 <= random_entry env i j < 1)%R) ->
  (add_first env).2 = Ok tt
  /\ (add_second env).2 = Ok tt
  /\ vector_count (add_first env).1.1 = 1
  /\ vector_at (add_first env).1.1 0 = Some (embed_text "ozone")
  /\ documents (add_second env).1.1 !! 0 = documents (add_first env).1.1 !! 0
  /\ metadata (add_second env).1.1 !! 0 = metadata (add_first env).1.1 !! 0
  /\ vector_at (add_second env).1.1 0
     = Some (map (fun j => random_entry env 0 j) (seq 0 dimension))
  /\ vector_at (add_second env).1.1 0 <> vector_at (add_first env).1.1 0.
Proof.
  intros Hok Hrand.
  pose proof (add_second_eq env Hok) as H2. cbv zeta in H2.
  rewrite H2, (add_first_eq env Hok). cbn [fst snd].
  repeat split.
  unfold vector_at. cbn [index xb lookup list_lookup].
  intros Heq.
  assert (Hn : nth 170 (map (fun j => random_entry env 0 j) (seq 0 dimension)) 0%R
               = nth 170 (embed_text "ozone") 0%R) by congruence.
  rewrite nth_random_row in Hn by (unfold dimension; lia).
  rewrite nth_embed_ozone in Hn.
  specialize (Hrand 0 170). lra.
Qed.

(** Witness for the evaluation of C1, with every random entry one half. *)
Lemma rebuild_replaces_indexed_vectors_witness :
  vector_at (add_first sample_env).1.1 0 = Some (embed_text "ozone")
  /\ vector_at (add_second sample_env).1.1 0
     = Some (map (fun j => (1 / 2)%R) (seq 0 dimension))
  /\ vector_at (add_second sample_env).1.1 0
     <> vector_at (add_first sample_env).1.1 0.
Proof.
  destruct (rebuild_replaces_indexed_vectors sample_env eq_refl)
    as (_ & _ & _ & H1 & _ & _ & H2 & H3).
  - intros i j. simpl. lra.
  - split; [exact H1|]. split; [exact H2|exact H3].
Defined.

(** C8 fails on the code: the store saved by the second batch answers the
    query "ozone" with the score given by its random first row, while a new
    process that loads the snapshot and re-embeds the texts answers with
    score 1; the snapshot itself holds the same texts and metadata. *)
Theorem reload_changes_search_results (env : Env) :
  faiss_add_completes env = true ->
  disk_writable env = true ->
  (forall i j, (0 <= random_entry env i j < 1)%R) ->
  (add_second env).1.2
  = Snapshot (documents (add_second env).1.1) (metadata (add_second env).1.1)
             (utcnow env)
  /\ documents (reloaded env) = documents (add_second env).1.1
  /\ similarity_search (add_second env).1.1 "ozone" 1 None
     = Ok [mkResult "ozone" (random_entry env 0 170) weather_meta]
  /\ similarity_search (reloaded env) "ozone" 1 None
     = Ok [mkResult "ozone" 1%R weather_meta]
  /\ similarity_search (reloaded env) "ozone" 1 None
     <> similarity_search (add_second env).1.1 "ozone" 1 None.
Proof.
  intros Hok Hw Hrand.
  rewrite (reloaded_eq env Hok Hw).
  pose proof (add_second_eq env Hok) as H2. cbv zeta in H2. rewrite H2.
  cbn [fst snd]. fold (second_store env). fold both_store.
  destruct (Hrand 0 170) as [Hlo Hhi].
  rewrite (search_second_ozone_1 env Hlo), search_both_ozone_1.
  split; [unfold _save_data; rewrite Hw; reflexivity|].
  split; [reflexivity|]. split; [reflexivity|]. split; [reflexivity|].
  intros Heq.
  assert (H1 : 1%R = random_entry env 0 170) by congruence.
  lra.
Qed.

(** Witness for the evaluation of C8, with every random entry one half:
    score 1/2 before the save, score 1 after the reload. *)
Lemma reload_changes_search_results_witness :
  similarity_search (add_second sample_env).1.1 "ozone" 1 None
  = Ok [mkResult "ozone" (1 / 2)%R weather_meta]
  /\ similarity_search (reloaded sample_env) "ozone" 1 None
     = Ok [mkResult "ozone" 1%R weather_meta].
Proof.
  destruct (reload_changes_search_results sample_env eq_refl eq_refl)
    as (_ & _ & H1 & H2 & _).
  - intros i j. simpl. lra.
  - split; [exact H1|exact H2].
Defined.

(** * Failing adds *)

Section FailingAdd.

Lemma store_eta (st : VectorStore) :
  mkStore (index st) (documents st) (metadata st) = st.
Proof. destruct st. reflexivity. Qed.

End FailingAdd.

(** C2 (as amended): when [add_documents] raises, the stored texts and the
    stored metadata are exactly as before the call and nothing is written
    to the snapshot; the whole store, index included, is exactly as before
    whenever the failure occurs while chunking or embedding, or the index
    held no vector before the call. *)
Theorem failed_add_keeps_texts_and_snapshot (env : Env) (st st' : VectorStore)
  (disk disk' : Disk) (docs : list Doc) (e : exn) :
  add_documents env st disk docs = (st', disk', Raise e) ->
  documents st' = documents st
  /\ metadata st' = metadata st
  /\ disk' = disk
  /\ (vector_count st = 0 -> st' = st)
  /\ ((exists e', chunk_and_embed docs = Raise e') -> st' = st).
Proof.
  unfold add_documents, chunk_and_embed, vector_count.
  destruct (collect docs) as [[texts metadatas]|e1]; cbn [bind fst].
  2:{ intros H. injection H as <- <- <-. repeat split; reflexivity. }
  destruct (normalize_L2 (_generate_simple_embeddings texts)) as [embeddings|e2];
    cbn [bind].
  2:{ intros H. injection H as <- <- <-. repeat split; reflexivity. }
  destruct (index st) as [idx|] eqn:Hidx.
  2:{ intros H. injection H as <- <- <-. repeat split; reflexivity. }
  destruct (Nat.eqb_spec (ntotal idx) 0) as [Hz|Hnz].
  - destruct (faiss_add env idx embeddings) as [idx'|e3]; intros H;
      [discriminate H|].
    injection H as <- <- <-. rewrite <- Hidx, store_eta.
    repeat split; reflexivity.
  - destruct (faiss_add env (new_index dimension) _) as [idx'|e3]; intros H;
      [discriminate H|].
    injection H as <- <- <-. cbn [documents metadata].
    split; [reflexivity|]. split; [reflexivity|]. split; [reflexivity|].
    split; [intros Hc; contradiction|intros [e' He']; discriminate He'].
Qed.

(** Witness for C2: a batch whose second document has no content raises
    while chunking; the populated sample store and the disk stay as they
    were. *)
Lemma failed_add_keeps_texts_and_snapshot_witness :
  add_documents sample_env both_store NoFile [doc_asthma; mkDoc None None]
  = (both_store, NoFile, Raise KeyError)
  /\ documents both_store = documents both_store
  /\ metadata both_store = metadata both_store
  /\ NoFile = NoFile
  /\ (vector_count both_store = 0 -> both_store = both_store)
  /\ ((exists e', chunk_and_embed [doc_asthma; mkDoc None None] = Raise e')
      -> both_store = both_store).
Proof.
  assert (H : add_documents sample_env both_store NoFile
                [doc_asthma; mkDoc None None]
              = (both_store, NoFile, Raise KeyError)) by reflexivity.
  split; [exact H|].
  exact (failed_add_keeps_texts_and_snapshot sample_env both_store both_store
           NoFile NoFile [doc_asthma; mkDoc None None] KeyError H).
Defined.

(** C2 as stated fails: on the populated store left by the first batch,
    where vectors, texts and metadata are one each, a second batch whose
    index append raises leaves a fresh, empty index behind: the index is
    not as before, and there are no vectors for one text. *)
Lemma failed_add_resets_index_counterexample :
  vector_count (add_first sample_env).1.1
  = length (documents (add_first sample_env).1.1)
  /\ length (documents (add_first sample_env).1.1)
     = length (metadata (add_first sample_env).1.1)
  /\ (add_documents failing_add_env (add_first sample_env).1.1
        (add_first sample_env).1.2 [doc_asthma]).2
     = Raise RuntimeError
  /\ index (add_documents failing_add_env (add_first sample_env).1.1
              (add_first sample_env).1.2 [doc_asthma]).1.1
     <> index (add_first sample_env).1.1
  /\ vector_count (add_documents failing_add_env (add_first sample_env).1.1
                     (add_first sample_env).1.2 [doc_asthma]).1.1
     <> length (documents
                  (add_documents failing_add_env (add_first sample_env).1.1
                     (add_first sample_env).1.2 [doc_asthma]).1.1).
Proof.
  rewrite (add_first_eq sample_env eq_refl). cbn [fst snd].
  rewrite (add_documents_rebuild_fails failing_add_env _ _ _
             (mkIndex dimension [embed_text "ozone"])
             ["asthma"%string] [guidelines_meta]);
    try reflexivity; try discriminate.
  cbn [fst snd index documents metadata].
  split; [reflexivity|]. split; [reflexivity|]. split; [reflexivity|].
  split; [intros H; discriminate H|].
  unfold vector_count. cbn [index ntotal xb new_index length]. lia.
Qed.

(** * Further properties of the store *)

Section StoreLifecycle.

Lemma initialize_has_index env st disk :
  exists idx, index (initialize env st disk) = Some idx.
Proof.
  unfold initialize, _load_existing_data.
  destruct disk as [| |docs metas ts]; cbn [index]; eauto.
  destruct docs as [|t docs']; cbn [index]; eauto.
  destruct (normalize_L2 _) as [emb|e]; cbn [bind index]; eauto.
  destruct (faiss_add env _ emb); cbn [index]; eauto.
Qed.

Lemma add_documents_keeps_index env st disk docs idx :
  index st = Some idx ->
  exists idx', index (add_documents env st disk docs).1.1 = Some idx'.
Proof.
  intros Hidx. unfold add_documents.
  destruct (collect docs) as [[texts metadatas]|e]; cbn [fst]; eauto.
  destruct (normalize_L2 _) as [emb|e]; cbn [fst]; eauto.
  rewrite Hidx.
  destruct (ntotal idx =? 0).
  - destruct (faiss_add env idx emb); cbn [fst index]; eauto.
  - destruct (faiss_add env (new_index dimension) _); cbn [fst index]; eauto.
Qed.

Lemma collect_chunks_lengths chunks texts metadatas :
  collect_chunks chunks = Ok (texts, metadatas) ->
  length texts = length chunks /\ length metadatas = length chunks.
Proof.
  revert texts metadatas.
  induction chunks as [|chunk rest IH]; intros texts metadatas H.
  - injection H as <- <-. split; reflexivity.
  - cbn [collect_chunks] in H.
    destruct (doc_content chunk) as [text|]; [|discriminate].
    destruct (collect_chunks rest) as [[ts ms]|e]; cbn [bind fst snd] in H;
      [|discriminate].
    injection H as <- <-. destruct (IH ts ms eq_refl) as [H1 H2].
    cbn [length]. split; congruence.
Qed.

End StoreLifecycle.

(** X1: a store that was initialised reports healthy, whatever the disk
    held and whether or not the rebuild of the index succeeded, and it
    keeps reporting healthy after any call of [add_documents], successful
    or not; a store that was never initialised fails the check. *)
Theorem health_check_after_initialize (env env' : Env) (st : VectorStore)
  (disk disk' : Disk) (docs : list Doc) :
  health_check new_store = Failed "Vector store not initialized"
  /\ health_check (initialize env st disk) = Returned true
  /\ (health_check st = Returned true ->
      health_check (add_documents env' st disk' docs).1.1 = Returned true).
Proof.
  split; [reflexivity|]. split.
  - destruct (initialize_has_index env st disk) as [idx H].
    unfold health_check. rewrite H. reflexivity.
  - unfold health_check at 1. destruct (index st) as [idx|] eqn:Hidx;
      [|discriminate]. intros _.
    destruct (add_documents_keeps_index env' st disk' docs idx Hidx) as [idx' H].
    unfold health_check. rewrite H. reflexivity.
Qed.

(** Witness for X1: the populated sample store stays healthy after an add
    whose index append fails. *)
Lemma health_check_after_initialize_witness :
  health_check (add_documents failing_add_env both_store NoFile [doc_ozone]).1.1
  = Returned true.
Proof.
  apply (proj2 (proj2 (health_check_after_initialize sample_env failing_add_env
                         both_store NoFile NoFile [doc_ozone]))).
  reflexivity.
Defined.

Section SuccessfulAdd.

Lemma faiss_add_inv env idx x idx' :
  faiss_add env idx x = Ok idx' -> idx' = mkIndex (d idx) (xb idx ++ x).
Proof.
  unfold faiss_add. destruct x as [|r x']; [discriminate|].
  destruct (negb _); [discriminate|].
  destruct (faiss_add_completes env); [|discriminate].
  intros H. injection H as <-. reflexivity.
Qed.

Lemma random_rand_count (env : Env) (n m : nat) :
  length (random_rand env n m) = n.
Proof. unfold random_rand. rewrite length_map. apply length_seq. Qed.

Lemma embeddings_count (texts : list string) :
  length (_generate_simple_embeddings texts) = length texts.
Proof. unfold _generate_simple_embeddings. apply length_map. Qed.

Lemma collect_lengths docs texts metadatas :
  collect docs = Ok (texts, metadatas) -> length metadatas = length texts.
Proof.
  unfold collect. intros H.
  destruct (collect_chunks_lengths _ _ _ H) as [H1 H2]. congruence.
Qed.

(** The shape of every successful add. *)
Lemma add_documents_ok_inv env st st' disk disk' docs :
  add_documents env st disk docs = (st', disk', Ok tt) ->
  exists idx texts metadatas old,
    index st = Some idx
    /\ collect docs = Ok (texts, metadatas)
    /\ texts <> []
    /\ length old = ntotal idx
    /\ st' = mkStore (Some (mkIndex (if ntotal idx =? 0 then d idx else dimension)
                              (old ++ _generate_simple_embeddings texts)))
                     (documents st ++ texts) (metadata st ++ metadatas)
    /\ disk' = _save_data env st' disk.
Proof.
  unfold add_documents.
  destruct (collect docs) as [[texts metadatas]|e1]; [|discriminate].
  destruct texts as [|t texts]; [discriminate|].
  rewrite (normalize_embeddings (t :: texts)) by discriminate.
  destruct (index st) as [idx|] eqn:Hidx; [|discriminate].
  unfold _get_existing_embeddings. rewrite Hidx.
  destruct (ntotal idx =? 0) eqn:Hz.
  - destruct (faiss_add env idx _) as [idx'|e] eqn:Hadd; [|discriminate].
    apply faiss_add_inv in Hadd. subst idx'.
    intros H. injection H as <- <-.
    exists idx, (t :: texts), metadatas, (xb idx). rewrite Hz.
    repeat split; try reflexivity; try assumption; discriminate.
  - destruct (faiss_add env (new_index dimension) _) as [idx'|e] eqn:Hadd;
      [|discriminate].
    apply faiss_add_inv in Hadd. subst idx'.
    intros H. injection H as <- <-.
    exists idx, (t :: texts), metadatas, (random_rand env (ntotal idx) dimension).
    rewrite Hz.
    repeat split; try reflexivity; try assumption; try discriminate.
    apply random_rand_count.
Qed.

End SuccessfulAdd.

(** X2: a successful [add_documents] appends the texts and the metadata of
    the batch's chunks, in order, behind the stored ones; the index grows
    by one vector per new chunk, the vector of each new chunk is the
    embedding of its text, the snapshot is written from the new state, and
    if vectors, texts and metadata were equally many before the call they
    are equally many after it. *)
Theorem successful_add_appends (env : Env) (st st' : VectorStore)
  (disk disk' : Disk) (docs : list Doc) :
  add_documents env st disk docs = (st', disk', Ok tt) ->
  exists texts metadatas,
    collect docs = Ok (texts, metadatas)
    /\ texts <> []
    /\ length metadatas = length texts
    /\ documents st' = documents st ++ texts
    /\ metadata st' = metadata st ++ metadatas
    /\ vector_count st' = vector_count st + length texts
    /\ (forall j text, texts !! j = Some text ->
          vector_at st' (vector_count st + j) = Some (embed_text text))
    /\ disk' = _save_data env st' disk
    /\ (lengths_agree st -> lengths_agree st').
Proof.
  intros H.
  destruct (add_documents_ok_inv env st st' disk disk' docs H)
    as (idx & texts & metadatas & old & Hidx & Hc & Hne & Hold & Hst & Hdisk).
  exists texts, metadatas.
  pose proof (collect_lengths docs texts metadatas Hc) as Hlen.
  assert (Hcount : vector_count st' = vector_count st + length texts).
  { unfold vector_count. rewrite Hidx, Hst. cbn [index]. unfold ntotal.
    cbn [xb]. rewrite length_app, embeddings_count. unfold ntotal in Hold. lia. }
  repeat split; try assumption.
  - rewrite Hst. reflexivity.
  - rewrite Hst. reflexivity.
  - intros j text Hj. unfold vector_at, vector_count. rewrite Hidx, Hst.
    cbn [index xb]. rewrite <- Hold.
    rewrite lookup_app_r by lia.
    replace (length old + j - length old) with j by lia.
    apply embeddings_lookup. exact Hj.
  - rewrite Hcount. destruct H0 as [H1 _]. rewrite H1, Hst. cbn [documents].
    rewrite length_app. reflexivity.
  - destruct H0 as [_ H2]. rewrite Hst. cbn [documents metadata].
    rewrite !length_app. lia.
Qed.

(** Witness for X2: the first batch on the freshly initialised store. *)
Lemma successful_add_appends_witness :
  exists texts metadatas,
    collect [doc_ozone] = Ok (texts, metadatas)
    /\ texts <> []
    /\ length metadatas = length texts
    /\ documents (add_first sample_env).1.1
       = documents (store_0 sample_env) ++ texts
    /\ metadata (add_first sample_env).1.1
       = metadata (store_0 sample_env) ++ metadatas
    /\ vector_count (add_first sample_env).1.1
       = vector_count (store_0 sample_env) + length texts
    /\ (forall j text, texts !! j = Some text ->
          vector_at (add_first sample_env).1.1
            (vector_count (store_0 sample_env) + j) = Some (embed_text text))
    /\ (add_first sample_env).1.2
       = _save_data sample_env (add_first sample_env).1.1 NoFile
    /\ (lengths_agree (store_0 sample_env) ->
        lengths_agree (add_first sample_env).1.1).
Proof.
  apply (successful_add_appends sample_env (store_0 sample_env)
           (add_first sample_env).1.1 NoFile (add_first sample_env).1.2
           [doc_ozone]).
  pose proof (add_first_eq sample_env eq_refl) as E.
  unfold add_first in E |- *. rewrite E. reflexivity.
Defined.

Section MissingContent.

Lemma collect_chunks_raises chunks :
  (exists chunk, In chunk chunks /\ doc_content chunk = None)
  -> collect_chunks chunks = Raise KeyError.
Proof.
  induction chunks as [|c rest IH]; intros (chunk & Hin & Hnone).
  - destruct Hin.
  - cbn [collect_chunks]. destruct (doc_content c) as [text|] eqn:Hc;
      [|reflexivity].
    destruct Hin as [->|Hin]; [congruence|].
    rewrite IH by eauto. reflexivity.
Qed.

Lemma collect_chunks_raise_inv chunks e :
  collect_chunks chunks = Raise e ->
  exists chunk, In chunk chunks /\ doc_content chunk = None.
Proof.
  induction chunks as [|c rest IH]; [discriminate|].
  cbn [collect_chunks]. destruct (doc_content c) as [text|] eqn:Hc.
  - destruct (collect_chunks rest) as [tm|e']; cbn [bind]; [discriminate|].
    intros H. destruct (IH H) as (chunk & Hin & Hnone).
    exists chunk. split; [right; exact Hin|exact Hnone].
  - intros _. exists c. split; [left; reflexivity|exact Hc].
Qed.

Lemma split_document_contents doc chunk :
  In chunk (_split_document doc) ->
  doc_content chunk = None -> doc_content doc = None.
Proof.
  destruct (doc_content doc) as [content|] eqn:Hc; [|reflexivity].
  rewrite (split_document_eq doc content Hc).
  destruct (String.length content <=? 1000).
  - intros [<-|[]] H. congruence.
  - intros Hin H. apply in_map_iff in Hin. destruct Hin as (i & <- & _).
    discriminate H.
Qed.

Lemma split_document_no_content doc :
  doc_content doc = None -> _split_document doc = [doc].
Proof. intros H. unfold _split_document. rewrite H. reflexivity. Qed.

Lemma collect_raises_iff docs :
  collect docs = Raise KeyError
  <-> exists doc, In doc docs /\ doc_content doc = None.
Proof.
  unfold collect. split.
  - intros H.
    destruct (collect_chunks_raise_inv _ _ H) as (chunk & Hin & Hnone).
    apply in_concat in Hin. destruct Hin as (chunks & Hchunks & Hin).
    apply in_map_iff in Hchunks. destruct Hchunks as (doc & <- & Hdoc).
    exists doc. split; [exact Hdoc|].
    exact (split_document_contents doc chunk Hin Hnone).
  - intros (doc & Hin & Hnone). apply collect_chunks_raises.
    exists doc. split; [|exact Hnone].
    apply in_concat. exists [doc]. split; [|left; reflexivity].
    apply in_map_iff. exists doc. split; [|exact Hin].
    apply split_document_no_content. exact Hnone.
Qed.


End MissingContent.

(** X3: [add_documents] raises [KeyError] exactly when some document of the
    batch has no ['content'] key, and then neither the store nor the
    snapshot is touched; this holds in every state, an uninitialised store
    included, because the chunks are collected before the index is looked
    at. *)
Theorem missing_content_raises_key_error (env : Env) (st : VectorStore)
  (disk : Disk) (docs : list Doc) :
  ((exists doc, In doc docs /\ doc_content doc = None)
   -> add_documents env st disk docs = (st, disk, Raise KeyError))
  /\ ((add_documents env st disk docs).2 = Raise KeyError
      -> exists doc, In doc docs /\ doc_content doc = None).
Proof.
  split.
  - intros Hex. apply collect_raises_iff in Hex.
    unfold add_documents. rewrite Hex. reflexivity.
  - intros H. apply collect_raises_iff.
    unfold add_documents in H.
    destruct (collect docs) as [[texts metadatas]|e] eqn:Hc.
    + exfalso.
      destruct (normalize_L2 _) as [emb|e2] eqn:Hn.
      * destruct (index st) as [idx|]; [|discriminate H].
        destruct (ntotal idx =? 0).
        -- destruct (faiss_add env idx emb) as [idx'|e3] eqn:Ha;
             cbn [snd] in H; [discriminate H|].
           injection H as ->. unfold faiss_add in Ha.
           destruct emb; [discriminate Ha|].
           destruct (negb _); [discriminate Ha|].
           destruct (faiss_add_completes env); discriminate Ha.
        -- destruct (faiss_add env (new_index dimension) _) as [idx'|e3] eqn:Ha;
             cbn [snd] in H; [discriminate H|].
           injection H as ->. unfold faiss_add in Ha.
           destruct (_ ++ emb); [discriminate Ha|].
           destruct (negb _); [discriminate Ha|].
           destruct (faiss_add_completes env); discriminate Ha.
      * cbn [snd] in H. injection H as ->.
        unfold normalize_L2 in Hn.
        destruct (_generate_simple_embeddings texts); discriminate Hn.
    + cbn [snd] in H. injection H as ->. reflexivity.
Qed.

(** Witness for X3: a batch whose second document has no content, given
    to a store that was never initialised. *)
Lemma missing_content_raises_key_error_witness :
  add_documents sample_env new_store NoFile [doc_asthma; mkDoc None None]
  = (new_store, NoFile, Raise KeyError)
  /\ exists doc, In doc [doc_asthma; mkDoc None None] /\ doc_content doc = None.
Proof.
  destruct (missing_content_raises_key_error sample_env new_store NoFile
              [doc_asthma; mkDoc None None]) as [H1 H2].
  assert (H : add_documents sample_env new_store NoFile
                [doc_asthma; mkDoc None None]
              = (new_store, NoFile, Raise KeyError)).
  { apply H1. exists (mkDoc None None). split; [right; left|]; reflexivity. }
  split; [exact H|]. apply H2. rewrite H. reflexivity.
Defined.

(** * Further properties of the search *)

Section SearchShape.

Local Open Scope R_scope.

(** Either nothing is returned, or the results are the formatted and
    filtered best hits, cut to [k]. *)
Lemma search_shape st query k f :
  results_of (similarity_search st query k f) = []
  \/ exists idx,
       index st = Some idx /\ ntotal idx <> 0%nat /\ (0 < k)%Z
       /\ d idx = dimension
       /\ results_of (similarity_search st query k f)
          = take (Z.to_nat k) (format_results st f (top_hits idx query k)).
Proof.
  unfold similarity_search.
  destruct (index st) as [idx|] eqn:Hidx.
  2:{ left. rewrite search_body_uninitialized by exact Hidx. reflexivity. }
  destruct (Nat.eq_dec (ntotal idx) 0%nat) as [Hz|Hn].
  { left. rewrite (search_body_empty st idx) by assumption. reflexivity. }
  destruct (Z_le_gt_dec k 0) as [Hk|Hk].
  { left. rewrite (search_body_nonpositive_k st idx) by assumption. reflexivity. }
  destruct (Nat.eq_dec (d idx) dimension) as [Hd|Hd].
  - right. exists idx. repeat split; try assumption; try lia.
    rewrite (search_body_ranked st idx) by (try assumption; lia). reflexivity.
  - left. rewrite (search_body_dimension_mismatch st idx)
      by (try assumption; lia). reflexivity.
Qed.

Lemma top_hits_length idx query k :
  (length (top_hits idx query k) <= ntotal idx)%nat.
Proof.
  unfold top_hits. rewrite length_take, sort_desc_length, scored_length. lia.
Qed.

Lemma top_hits_from_scored idx query k hit :
  In hit (top_hits idx query k) -> In hit (scored idx (embed_text query)).
Proof.
  unfold top_hits. intros H. apply list_elem_of_In, subseteq_take in H.
  apply list_elem_of_In in H.
  exact (Permutation_in _ (sort_desc_perm _) H).
Qed.

Lemma scored_index_bound idx q hit :
  In hit (scored idx q) -> (hit.2 < ntotal idx)%nat.
Proof.
  intros H. destruct (scored_elem idx q hit H) as (row & Hrow & _).
  apply lookup_lt_Some in Hrow. exact Hrow.
Qed.

(** Without a filter every hit that has a text is formatted. *)
Lemma format_results_unfiltered_length st f hits :
  filter_given f = false ->
  (forall hit, In hit hits -> (hit.2 < length (documents st))%nat) ->
  length (format_results st f hits) = length hits.
Proof.
  intros Hf. induction hits as [|hit hits IH]; intros Hall; [reflexivity|].
  rewrite format_results_cons.
  assert (Hhit : exists r, format_hit st f hit = Some r).
  { destruct hit as [score i]. unfold format_hit.
    destruct (lookup_lt_is_Some_2 (documents st) i) as [text Ht].
    { apply (Hall (score, i)). left. reflexivity. }
    rewrite Ht, Hf. eauto. }
  destruct Hhit as [r ->]. cbn [length]. f_equal.
  apply IH. intros h Hh. apply Hall. right. exact Hh.
Qed.

End SearchShape.

(** X4: [similarity_search] returns at most [k] results and at most as many
    as there are indexed vectors; without a filter, with a positive [k], an
    index of the embedder's dimension and a text for every vector, it
    returns exactly [min(k, ntotal)] results. *)
Theorem search_result_count (st : VectorStore) (query : string) (k : Z)
  (f : option Meta) :
  length (results_of (similarity_search st query k f)) <= Z.to_nat k
  /\ length (results_of (similarity_search st query k f)) <= vector_count st
  /\ (forall idx,
        index st = Some idx -> d idx = dimension -> (0 < k)%Z ->
        filter_given f = false -> ntotal idx <= length (documents st) ->
        length (results_of (similarity_search st query k f))
        = Nat.min (Z.to_nat k) (ntotal idx)).
Proof.
  assert (Hbounds :
    length (results_of (similarity_search st query k f)) <= Z.to_nat k
    /\ length (results_of (similarity_search st query k f)) <= vector_count st).
  { destruct (search_shape st query k f)
      as [Hnil|(idx & Hidx & Hn & Hk & Hd & Hres)].
    - rewrite Hnil. cbn [length]. lia.
    - rewrite Hres, length_take. unfold vector_count. rewrite Hidx.
      pose proof (format_results_length st f (top_hits idx query k)).
      pose proof (top_hits_length idx query k). lia. }
  destruct Hbounds as [Hb1 Hb2]. split; [exact Hb1|]. split; [exact Hb2|].
  intros idx Hidx Hd Hk Hf Hdocs.
  destruct (Nat.eq_dec (ntotal idx) 0) as [Hz|Hn].
  - unfold similarity_search.
    rewrite (search_body_empty st idx) by assumption.
    rewrite Hz. cbn [results_of length]. lia.
  - unfold similarity_search.
    rewrite (search_body_ranked st idx) by assumption.
    cbn [results_of]. rewrite length_take.
    rewrite format_results_unfiltered_length; [|exact Hf|].
    + unfold top_hits. rewrite length_take, sort_desc_length, scored_length. lia.
    + intros hit Hin. apply top_hits_from_scored in Hin.
      apply scored_index_bound in Hin. lia.
Qed.

(** Witness for X4: two results for [k = 5] on the store with two
    passages. *)
Lemma search_result_count_witness :
  length (results_of (similarity_search both_store "ozone" 5 None))
  = Nat.min (Z.to_nat 5) 2.
Proof.
  apply (proj2 (proj2 (search_result_count both_store "ozone" 5 None))
           (mkIndex dimension [embed_text "ozone"; embed_text "asthma"]));
    reflexivity.
Defined.

Section ResultOrder.

Local Open Scope R_scope.

Lemma insert_desc_sorted (x : R * nat) (l : list (R * nat)) :
  descending (map fst l) -> descending (map fst (insert_desc x l)).
Proof.
  induction l as [|y l IH]; intros Hl.
  - cbn. split; [constructor|exact I].
  - destruct Hl as [Hy Hl]. cbn [insert_desc].
    destruct (Rlt_dec x.1 y.1) as [Hlt|Hge].
    + cbn [map descending]. split; [|exact (IH Hl)].
      apply List.Forall_forall. intros s Hs.
      apply in_map_iff in Hs. destruct Hs as (h & <- & Hh).
      apply (Permutation_in _ (insert_desc_perm x l)) in Hh.
      destruct Hh as [<-|Hh]; [lra|].
      revert Hy. rewrite List.Forall_forall. intros Hy. apply Hy.
      apply in_map. exact Hh.
    + cbn [map descending]. split; [|split; [exact Hy|exact Hl]].
      constructor; [lra|].
      revert Hy. apply List.Forall_impl. intros s Hs. lra.
Qed.

Lemma sort_desc_sorted (l : list (R * nat)) : descending (map fst (sort_desc l)).
Proof.
  induction l as [|x l IH]; [exact I|].
  cbn [sort_desc fold_right]. apply insert_desc_sorted. exact IH.
Qed.

Lemma descending_take (n : nat) (l : list R) :
  descending l -> descending (take n l).
Proof.
  revert n. induction l as [|x l IH]; intros [|n] Hl; try exact I.
  destruct Hl as [Hx Hl]. cbn [take descending]. split; [|exact (IH n Hl)].
  apply List.Forall_forall. intros y Hy. apply list_elem_of_In, subseteq_take in Hy.
  revert Hx. rewrite List.Forall_forall. intros Hx. apply Hx.
  apply list_elem_of_In. exact Hy.
Qed.

Lemma format_results_sorted st f hits :
  descending (map fst hits) ->
  descending (map res_score (format_results st f hits)).
Proof.
  induction hits as [|hit hits IH]; intros Hs; [exact I|].
  destruct Hs as [Hhit Hs]. rewrite format_results_cons.
  destruct (format_hit st f hit) as [r|] eqn:Hr; [|exact (IH Hs)].
  cbn [map descending]. split; [|exact (IH Hs)].
  rewrite (format_hit_score st f hit r Hr).
  apply List.Forall_forall. intros s Hin.
  apply in_map_iff in Hin. destruct Hin as (r' & <- & Hr').
  apply list_elem_of_In in Hr'. unfold format_results in Hr'.
  apply list_elem_of_omap in Hr'. destruct Hr' as (h & Hh & Hfmt).
  rewrite (format_hit_score st f h r' Hfmt).
  revert Hhit. rewrite List.Forall_forall. intros Hhit. apply Hhit.
  apply in_map. apply list_elem_of_In. exact Hh.
Qed.

Lemma map_take {A B} (g : A -> B) (n : nat) (l : list A) :
  map g (take n l) = take n (map g l).
Proof. revert n. induction l as [|x l IH]; intros [|n]; cbn; f_equal; auto. Qed.

End ResultOrder.

(** X5: the results of [similarity_search] come in non-increasing order of
    score, for every store, query, [k] and filter: filtering and cutting
    keep the order in which the index returns its hits. *)
Theorem search_results_descending (st : VectorStore) (query : string) (k : Z)
  (f : option Meta) :
  descending (map res_score (results_of (similarity_search st query k f))).
Proof.
  destruct (search_shape st query k f) as [Hnil|(idx & _ & _ & _ & _ & Hres)].
  - rewrite Hnil. exact I.
  - rewrite Hres, map_take. apply descending_take, format_results_sorted.
    unfold top_hits. rewrite map_take. apply descending_take, sort_desc_sorted.
Qed.

Section ScoreRange.

Local Open Scope R_scope.

Lemma dot_nonneg (u v : vec) :
  Forall (fun x => 0 <= x) u -> Forall (fun x => 0 <= x) v -> 0 <= dot u v.
Proof.
  intros Hu. revert v. induction Hu as [|x u Hx Hu IH]; intros v Hv.
  - change (dot [] v) with 0. lra.
  - destruct Hv as [|y v Hy Hv]; [change (dot (x :: u) []) with 0; lra|].
    change (0 <= x * y + dot u v). specialize (IH v Hv).
    pose proof (Rmult_le_pos x y Hx Hy). lra.
Qed.

Lemma normalize_row_nonneg (v : vec) :
  Forall (fun x => 0 <= x) v -> Forall (fun x => 0 <= x) (normalize_row v).
Proof.
  intros Hv. unfold normalize_row. destruct (Rlt_dec 0 (norm v)) as [Hpos|_];
    [|exact Hv].
  apply List.Forall_forall. intros y Hy. apply in_map_iff in Hy.
  destruct Hy as (x & <- & Hx).
  revert Hv. rewrite List.Forall_forall. intros Hv. specialize (Hv x Hx).
  unfold Rdiv. apply Rmult_le_pos; [exact Hv|].
  apply Rlt_le, Rinv_0_lt_compat. exact Hpos.
Qed.

Lemma embed_text_nonneg (text : string) :
  Forall (fun x => 0 <= x) (embed_text text).
Proof.
  unfold embed_text. apply normalize_row_nonneg.
  rewrite histogram_counts. apply List.Forall_forall. intros y Hy.
  apply in_map_iff in Hy. destruct Hy as (n & <- & _). apply pos_INR.
Qed.

End ScoreRange.

(** X6: in a store whose index rows are the embeddings of its texts, every
    result of every search has a score between 0 and 1 (in exact
    arithmetic): the embeddings have no negative coordinate and norm at
    most 1. *)
Theorem search_scores_in_unit_interval (st : VectorStore) (query : string)
  (k : Z) (f : option Meta) :
  index_matches_texts st ->
  forall r, In r (results_of (similarity_search st query k f)) ->
            (0 <= res_score r <= 1)%R.
Proof.
  intros (idx0 & Hidx0 & _ & Hxb) r Hr.
  destruct (search_shape st query k f) as [Hnil|(idx & Hidx & _ & _ & _ & Hres)].
  - rewrite Hnil in Hr. destruct Hr.
  - rewrite Hres in Hr. apply list_elem_of_In, subseteq_take in Hr.
    unfold format_results in Hr. apply list_elem_of_omap in Hr.
    destruct Hr as (hit & Hhit & Hfmt).
    rewrite (format_hit_score st f hit r Hfmt).
    apply list_elem_of_In, top_hits_from_scored in Hhit.
    destruct (scored_elem idx _ hit Hhit) as (row & Hrow & ->).
    assert (idx = idx0) by congruence. subst idx0.
    rewrite Hxb in Hrow.
    destruct (embeddings_lookup_inv _ _ _ Hrow) as (t & _ & ->).
    split; [|apply dot_embed_le].
    apply dot_nonneg; apply embed_text_nonneg.
Qed.

(** Witness for X6: the store with the two sample passages. *)
Lemma search_scores_in_unit_interval_witness :
  List.Forall (fun r => (0 <= res_score r <= 1)%R)
              (results_of (similarity_search both_store "ozone" 2 None)).
Proof.
  apply List.Forall_forall.
  apply (search_scores_in_unit_interval both_store "ozone" 2 None).
  exact both_store_matches.
Defined.

(** * Further properties of the embedder *)

Section BagOfWords.

Lemma bump_comm (p q : nat) (v : vec) : bump p (bump q v) = bump q (bump p v).
Proof.
  unfold bump. revert p q. induction v as [|x v IH]; intros [|p] [|q];
    try reflexivity.
  change (x :: alter (fun y => (y + 1)%R) p (alter (fun y => (y + 1)%R) q v)
          = x :: alter (fun y => (y + 1)%R) q (alter (fun y => (y + 1)%R) p v)).
  f_equal. apply IH.
Qed.

Lemma fold_bump_perm (ws ws' : list string) :
  Permutation ws ws' ->
  forall acc,
    fold_left (fun e w => bump (word_pos w) e) ws acc
    = fold_left (fun e w => bump (word_pos w) e) ws' acc.
Proof.
  induction 1 as [|w ws ws' _ IH|w w' ws|ws ws' ws'' _ IH1 _ IH2]; intros acc.
  - reflexivity.
  - cbn [fold_left]. apply IH.
  - cbn [fold_left]. rewrite bump_comm. reflexivity.
  - rewrite IH1. apply IH2.
Qed.

Lemma lower_char_idem (c : ascii) :
  Text.lower_char (Text.lower_char c) = Text.lower_char c.
Proof.
  destruct c as [[] [] [] [] [] [] [] []]; vm_compute; reflexivity.
Qed.

Lemma lower_idem (s : string) : Text.lower (Text.lower s) = Text.lower s.
Proof.
  induction s as [|c s IH]; [reflexivity|].
  cbn [Text.lower]. rewrite lower_char_idem, IH. reflexivity.
Qed.

Lemma search_by_embedding st s t k f :
  embed_text s = embed_text t ->
  similarity_search st s k f = similarity_search st t k f.
Proof.
  intros H. unfold similarity_search, search_body, _generate_simple_embeddings.
  cbn [map]. rewrite H. reflexivity.
Qed.

End BagOfWords.

(** X7: the embedding of a text depends only on the bag of its lower-cased
    words: two texts whose word lists are permutations of each other
    (texts that differ in word order, punctuation, spacing or letter case)
    have the same embedding and get the same results from every search;
    in particular lower-casing a text changes neither. *)
Theorem embedding_ignores_order_and_case (s t : string) :
  (Permutation (tokens s) (tokens t) ->
   embed_text s = embed_text t
   /\ forall st k f, similarity_search st s k f = similarity_search st t k f)
  /\ embed_text (Text.lower s) = embed_text s
  /\ (forall st k f,
        similarity_search st (Text.lower s) k f = similarity_search st s k f).
Proof.
  assert (Hlow : embed_text (Text.lower s) = embed_text s).
  { unfold embed_text. rewrite lower_idem. reflexivity. }
  split; [|split; [exact Hlow|]].
  - intros Hperm.
    assert (He : embed_text s = embed_text t).
    { unfold embed_text, histogram. fold (tokens s). fold (tokens t).
      rewrite (fold_bump_perm _ _ Hperm). reflexivity. }
    split; [exact He|]. intros st k f. apply search_by_embedding. exact He.
  - intros st k f. apply search_by_embedding. exact Hlow.
Qed.

(** Witness for X7: two spellings of the same two words. *)
Lemma embedding_ignores_order_and_case_witness :
  embed_text "Ozone, asthma!" = embed_text "ASTHMA ozone"
  /\ forall st k f,
       similarity_search st "Ozone, asthma!" k f
       = similarity_search st "ASTHMA ozone" k f.
Proof.
  apply (proj1 (embedding_ignores_order_and_case "Ozone, asthma!" "ASTHMA ozone")).
  change (tokens "Ozone, asthma!") with ["ozone"; "asthma"]%string.
  change (tokens "ASTHMA ozone") with ["asthma"; "ozone"]%string.
  apply perm_swap.
Defined.

(** * Further properties of the chunker *)

Section ChunkCoverage.

Lemma substring_as_list (s : string) :
  forall n m,
    list_ascii_of_string (substring n m s)
    = take m (drop n (list_ascii_of_string s)).
Proof.
  induction s as [|c s IH]; intros n m.
  - destruct n, m; reflexivity.
  - destruct n as [|n].
    + destruct m as [|m]; [reflexivity|].
      cbn [substring list_ascii_of_string drop take]. f_equal. apply (IH 0).
    + cbn [substring list_ascii_of_string drop]. apply IH.
Qed.

Lemma list_ascii_of_join (parts : list string) :
  list_ascii_of_string (join_all parts)
  = concat (map list_ascii_of_string parts).
Proof.
  induction parts as [|p parts IH]; [reflexivity|].
  cbn [join_all fold_right map concat].
  fold (join_all parts). rewrite <- IH.
  generalize (join_all parts) as rest. clear.
  induction p as [|c p IHp]; intros rest; [reflexivity|].
  change (c :: list_ascii_of_string (String.append p rest)
          = c :: (list_ascii_of_string p ++ list_ascii_of_string rest)).
  f_equal. apply IHp.
Qed.

Lemma list_ascii_length (s : string) :
  length (list_ascii_of_string s) = String.length s.
Proof. induction s as [|c s IH]; [reflexivity|]. cbn. f_equal. exact IH. Qed.

Lemma string_eq_by_list (s t : string) :
  list_ascii_of_string s = list_ascii_of_string t -> s = t.
Proof.
  intros H. rewrite <- (string_of_list_ascii_of_string s).
  rewrite <- (string_of_list_ascii_of_string t). rewrite H. reflexivity.
Qed.

(** Windows of 800 items laid end to end give the list back. *)
Lemma windows_cover {A} (n : nat) :
  forall l : list A,
    length l <= 800 * n ->
    concat (map (fun i => take 800 (drop (800 * i) l)) (seq 0 n)) = l.
Proof.
  induction n as [|n IH]; intros l Hl.
  - destruct l; [reflexivity|cbn in Hl; lia].
  - cbn [seq map concat]. rewrite <- seq_shift, map_map.
    rewrite Nat.mul_0_r. cbn [drop].
    transitivity (take 800 l ++ drop 800 l); [|apply take_drop].
    f_equal.
    assert (Hlen : length (drop 800 l) <= 800 * n)
      by (rewrite length_drop; lia).
    etransitivity; [|exact (IH (drop 800 l) Hlen)].
    f_equal. apply map_ext. intros i.
    rewrite drop_drop. do 2 f_equal. lia.
Qed.

Lemma ceil_div_covers (L : nat) : L <= 800 * ceil_div L 800.
Proof.
  unfold ceil_div.
  pose proof (Nat.div_mod (L + 800 - 1) 800 ltac:(lia)) as H.
  pose proof (Nat.mod_upper_bound (L + 800 - 1) 800 ltac:(lia)). lia.
Qed.

Lemma split_document_long doc content :
  doc_content doc = Some content -> 1000 < String.length content ->
  _split_document doc
  = map (chunk_at doc content) (seq 0 (ceil_div (String.length content) 800)).
Proof.
  intros Hc HL. rewrite (split_document_eq doc content Hc).
  destruct (Nat.leb_spec (String.length content) 1000); [lia|reflexivity].
Qed.

Lemma chunk_text_at doc content i :
  chunk_text (chunk_at doc content i) = substring (800 * i) 1000 content.
Proof.
  unfold chunk_text, chunk_at, slice. cbn [doc_content].
  replace (800 * i + 1000 - 800 * i) with 1000 by lia. reflexivity.
Qed.

End ChunkCoverage.

(** X8: the chunks of a long document (more than 1000 characters) cover it
    without gap: the first 800 characters of every chunk, laid end to end,
    are the content; no chunk is longer than 1000 characters; and each
    chunk starts with the characters that follow the first 800 of the
    chunk before it (the overlap of up to 200 characters). *)
Theorem chunks_cover_content (doc : Doc) (content : string) :
  doc_content doc = Some content ->
  1000 < String.length content ->
  join_all (map (fun chunk => substring 0 800 (chunk_text chunk))
                (_split_document doc))
  = content
  /\ Forall (fun chunk => String.length (chunk_text chunk) <= 1000)
            (_split_document doc)
  /\ (forall i a b,
        _split_document doc !! i = Some a ->
        _split_document doc !! S i = Some b ->
        substring 800 200 (chunk_text a) = substring 0 200 (chunk_text b)).
Proof.
  intros Hc HL. rewrite (split_document_long doc content Hc HL).
  split; [|split].
  - rewrite map_map. apply string_eq_by_list.
    rewrite list_ascii_of_join, map_map.
    etransitivity;
      [|apply (windows_cover (ceil_div (String.length content) 800)
                 (list_ascii_of_string content));
        rewrite list_ascii_length; apply ceil_div_covers].
    f_equal. apply map_ext. intros i.
    rewrite chunk_text_at, !substring_as_list, drop_0.
    rewrite take_take. reflexivity.
  - apply List.Forall_forall. intros chunk Hin.
    apply in_map_iff in Hin. destruct Hin as (i & <- & _).
    rewrite chunk_text_at, substring_length. lia.
  - intros i a b Ha Hb.
    change (map (chunk_at doc content) ?l) with (chunk_at doc content <$> l) in Ha, Hb.
    rewrite list_lookup_fmap in Ha, Hb.
    destruct (seq 0 _ !! i) as [x|] eqn:Hx; [|discriminate Ha].
    destruct (seq 0 _ !! S i) as [y|] eqn:Hy; [|discriminate Hb].
    apply lookup_seq in Hx. apply lookup_seq in Hy.
    destruct Hx as [-> _]. destruct Hy as [-> _].
    injection Ha as <-. injection Hb as <-.
    rewrite !chunk_text_at.
    apply string_eq_by_list. rewrite !substring_as_list, drop_0.
    rewrite take_take. replace (Nat.min 200 1000) with 200 by reflexivity.
    change 1000 with (800 + 200). rewrite <- take_drop_commute.
    rewrite take_take, drop_drop.
    f_equal. f_equal. lia.
Qed.

(** Witness for X8: a content of 1601 characters. *)
Lemma chunks_cover_content_witness :
  join_all (map (fun chunk => substring 0 800 (chunk_text chunk))
                (_split_document (mkDoc (Some (letters 1601)) None)))
  = letters 1601.
Proof.
  apply (chunks_cover_content (mkDoc (Some (letters 1601)) None) (letters 1601)).
  - reflexivity.
  - rewrite letters_length. lia.
Defined.

Section ChunkFilter.

Lemma matches_filter_insert (m f : Meta) (key : string) (v : pyval) :
  f !! key = None ->
  _matches_filter (<[key := v]> m) f = _matches_filter m f.
Proof.
  intros Hf.
  assert (Hiff : _matches_filter (<[key := v]> m) f = true
                 <-> _matches_filter m f = true).
  { rewrite !matches_filter_spec. split; intros H k value Hk.
    - destruct (H k value Hk) as (w & Hw & Hv).
      rewrite lookup_insert_ne in Hw by congruence. eauto.
    - destruct (H k value Hk) as (w & Hw & Hv).
      exists w. rewrite lookup_insert_ne by congruence. eauto. }
  destruct (_matches_filter (<[key := v]> m) f),
           (_matches_filter m f); try reflexivity.
  - symmetry. apply Hiff. reflexivity.
  - apply Hiff. reflexivity.
Qed.

End ChunkFilter.

(** X9: the chunks of a document pass exactly the filters that the
    document's own metadata passes, as long as the filter does not mention
    [chunk_index], the one key that the chunker adds. *)
Theorem chunks_inherit_filter_match (doc chunk : Doc) (f : Meta) :
  f !! "chunk_index" = None ->
  In chunk (_split_document doc) ->
  _matches_filter (default ∅ (doc_metadata chunk)) f
  = _matches_filter (default ∅ (doc_metadata doc)) f.
Proof.
  intros Hf Hin. unfold _split_document in Hin.
  destruct (String.length (default EmptyString (doc_content doc)) <=? 1000).
  - destruct Hin as [<-|[]]. reflexivity.
  - apply in_map_iff in Hin. destruct Hin as (i & <- & _).
    cbn [doc_metadata]. simpl. apply matches_filter_insert. exact Hf.
Qed.

(** Witness for X9: the third chunk of a document of 1601 characters from
    the guidelines client, and the guidelines filter. *)
Lemma chunks_inherit_filter_match_witness :
  _matches_filter
    (default ∅ (doc_metadata
       (chunk_at (mkDoc (Some (letters 1601)) (Some guidelines_meta))
                 (letters 1601) 2)))
    guidelines_meta
  = _matches_filter guidelines_meta guidelines_meta.
Proof.
  apply (chunks_inherit_filter_match
           (mkDoc (Some (letters 1601)) (Some guidelines_meta))).
  - vm_compute. reflexivity.
  - rewrite (split_document_long
               (mkDoc (Some (letters 1601)) (Some guidelines_meta))
               (letters 1601) eq_refl)
      by (rewrite letters_length; lia).
    apply in_map. rewrite letters_length. apply in_seq.
    vm_compute. lia.
Defined.

(** * Persistence *)

Section Persistence.

Lemma initialize_restores env st docs metas ts :
  faiss_add_completes env = true ->
  initialize env st (Snapshot docs metas ts)
  = mkStore (Some (mkIndex dimension (_generate_simple_embeddings docs)))
            docs metas.
Proof.
  intros Hok. destruct docs as [|t docs'].
  - reflexivity.
  - apply initialize_snapshot; [discriminate|exact Hok].
Qed.

Lemma matching_store_eq st :
  index_matches_texts st ->
  st = mkStore (Some (mkIndex dimension
                        (_generate_simple_embeddings (documents st))))
               (documents st) (metadata st).
Proof.
  intros (idx & Hidx & Hd & Hxb).
  destruct st as [oidx docs metas]. cbn [index documents metadata] in *.
  subst oidx. destruct idx as [dim rows]. cbn [d xb] in *. subst. reflexivity.
Qed.

End Persistence.

(** X10: saving a store to a writable disk and initialising a store from
    that snapshot restores the texts and the metadata exactly and builds an
    index whose rows are the embeddings of the restored texts; if the rows
    of the saved store were the embeddings of its texts, the new store is
    equal to the saved one, so every search gives the same results. *)
Theorem save_load_round_trip (env env' : Env) (st fresh : VectorStore)
  (disk : Disk) :
  disk_writable env = true ->
  faiss_add_completes env' = true ->
  documents (initialize env' fresh (_save_data env st disk)) = documents st
  /\ metadata (initialize env' fresh (_save_data env st disk)) = metadata st
  /\ index_matches_texts (initialize env' fresh (_save_data env st disk))
  /\ (index_matches_texts st ->
      initialize env' fresh (_save_data env st disk) = st
      /\ forall query k f,
           similarity_search (initialize env' fresh (_save_data env st disk))
                             query k f
           = similarity_search st query k f).
Proof.
  intros Hw Hok. unfold _save_data. rewrite Hw.
  rewrite (initialize_restores env' fresh _ _ _ Hok).
  split; [reflexivity|]. split; [reflexivity|]. split.
  - eexists. repeat split.
  - intros Hm. rewrite <- (matching_store_eq st Hm).
    split; [reflexivity|]. intros; reflexivity.
Qed.

(** Witness for X10: the store with the two sample passages. *)
Lemma save_load_round_trip_witness :
  initialize sample_env new_store (_save_data sample_env both_store NoFile)
  = both_store.
Proof.
  destruct (save_load_round_trip sample_env sample_env both_store new_store
              NoFile eq_refl eq_refl) as (_ & _ & _ & H).
  exact (proj1 (H both_store_matches)).
Defined.

Section FailedLoad.

Lemma faiss_add_raises env idx x :
  faiss_add_completes env = false -> exists e, faiss_add env idx x = Raise e.
Proof.
  intros Hno. unfold faiss_add. destruct x as [|r x']; [eauto|].
  destruct (negb _); [eauto|]. rewrite Hno. eauto.
Qed.

Lemma initialize_failed_rebuild env st docs metas ts :
  faiss_add_completes env = false ->
  initialize env st (Snapshot docs metas ts)
  = mkStore (Some (new_index dimension)) docs metas.
Proof.
  intros Hno. unfold initialize, _load_existing_data.
  destruct docs as [|t docs']; [reflexivity|].
  rewrite (normalize_embeddings (t :: docs')) by discriminate.
  cbn [bind index].
  destruct (faiss_add_raises env (new_index dimension)
              (_generate_simple_embeddings (t :: docs')) Hno) as [e ->].
  reflexivity.
Qed.

Lemma search_empty_index st query k f :
  vector_count st = 0 -> similarity_search st query k f = Ok [].
Proof.
  unfold vector_count, similarity_search. intros H.
  destruct (index st) as [idx|] eqn:Hidx.
  - rewrite (search_body_empty st idx) by assumption. reflexivity.
  - rewrite search_body_uninitialized by assumption. reflexivity.
Qed.

End FailedLoad.

(** X11: [initialize] swallows every failure of loading.  Without a
    snapshot, with an unreadable one, or when the append of the rebuilt
    vectors fails, it leaves an empty index, and every search on the
    resulting store returns the empty list; in the last case the texts and
    metadata of the snapshot are in the store all the same, without
    vectors. *)
Theorem initialize_swallows_load_failures (env : Env) (st : VectorStore)
  (disk : Disk) :
  (disk = NoFile \/ disk = Unreadable \/ faiss_add_completes env = false) ->
  index (initialize env st disk) = Some (new_index dimension)
  /\ (forall query k f,
        similarity_search (initialize env st disk) query k f = Ok [])
  /\ (forall docs metas ts,
        disk = Snapshot docs metas ts ->
        documents (initialize env st disk) = docs
        /\ metadata (initialize env st disk) = metas).
Proof.
  intros Hcase.
  assert (Hidx : index (initialize env st disk) = Some (new_index dimension)).
  { destruct Hcase as [->|[->|Hno]]; try reflexivity.
    destruct disk as [| |docs metas ts]; try reflexivity.
    rewrite (initialize_failed_rebuild env st docs metas ts Hno). reflexivity. }
  split; [exact Hidx|]. split.
  - intros query k f. apply search_empty_index.
    unfold vector_count. rewrite Hidx. reflexivity.
  - intros docs metas ts ->.
    destruct Hcase as [H|[H|Hno]]; try discriminate H.
    rewrite (initialize_failed_rebuild env st docs metas ts Hno).
    split; reflexivity.
Qed.

(** Witness for X11: a snapshot with the two sample passages, loaded while
    the index append fails. *)
Lemma initialize_swallows_load_failures_witness :
  documents (initialize failing_add_env new_store
               (Snapshot ["ozone"; "asthma"]%string
                         [weather_meta; guidelines_meta] "t"))
  = ["ozone"; "asthma"]%string
  /\ similarity_search
       (initialize failing_add_env new_store
          (Snapshot ["ozone"; "asthma"]%string
                    [weather_meta; guidelines_meta] "t"))
       "ozone" 5 None
     = Ok [].
Proof.
  destruct (initialize_swallows_load_failures failing_add_env new_store
              (Snapshot ["ozone"; "asthma"]%string
                        [weather_meta; guidelines_meta] "t"))
    as (_ & Hs & Hd).
  - right. right. reflexivity.
  - split; [exact (proj1 (Hd _ _ _ eq_refl))|apply Hs].
Defined.

(** * Filtering and ranking of the search *)

Section FilterAndRank.

Local Open Scope R_scope.

Lemma matches_empty_filter (m f : Meta) :
  size f = 0%nat -> _matches_filter m f = true.
Proof.
  intros H. apply map_size_empty_inv in H. subst f.
  unfold _matches_filter. rewrite map_to_list_empty. reflexivity.
Qed.

(** A hit passes a given filter when it passes without filter and its
    metadata passes the filter. *)
Lemma format_hit_filter st (f : Meta) hit :
  format_hit st (Some f) hit
  = match format_hit st None hit with
    | Some r => if passes f r then Some r else None
    | None => None
    end.
Proof.
  destruct hit as [score i]. unfold format_hit, passes.
  destruct (documents st !! i) as [text|]; [|reflexivity].
  cbn [filter_given res_metadata].
  destruct (Nat.eqb_spec (size f) 0) as [Hz|Hnz]; cbn [negb].
  - simpl. rewrite (matches_empty_filter _ f Hz). reflexivity.
  - reflexivity.
Qed.

Lemma format_results_filter st (f : Meta) hits :
  format_results st (Some f) hits
  = List.filter (passes f) (format_results st None hits).
Proof.
  induction hits as [|hit hits IH]; [reflexivity|].
  rewrite !format_results_cons, format_hit_filter.
  destruct (format_hit st None hit) as [r|]; [|exact IH].
  cbn [List.filter]. destruct (passes f r); rewrite IH; reflexivity.
Qed.

Lemma top_hits_at_most_k idx query k :
  (length (top_hits idx query k) <= Z.to_nat k)%nat.
Proof. unfold top_hits. rewrite length_take. lia. Qed.

(** On a populated index of the right dimension and for a positive [k],
    the results are the formatted hits: the final cut to [k] removes
    nothing, since the index returns at most [k] hits. *)
Lemma search_ranked_uncut st idx query k f :
  index st = Some idx -> ntotal idx <> 0%nat -> (0 < k)%Z ->
  d idx = dimension ->
  similarity_search st query k f
  = Ok (format_results st f (top_hits idx query k)).
Proof.
  intros Hidx Hn Hk Hd. unfold similarity_search.
  rewrite (search_body_ranked st idx) by assumption.
  rewrite take_ge; [reflexivity|].
  pose proof (format_results_length st f (top_hits idx query k)).
  pose proof (top_hits_at_most_k idx query k). lia.
Qed.

(** Either every search with this query and [k] returns nothing, or the
    index is populated, of the right dimension, and [k] is positive. *)
Lemma search_cases st query k :
  (forall f, results_of (similarity_search st query k f) = [])
  \/ exists idx,
       index st = Some idx /\ ntotal idx <> 0%nat /\ (0 < k)%Z
       /\ d idx = dimension.
Proof.
  destruct (index st) as [idx|] eqn:Hidx.
  2:{ left. intros f. unfold similarity_search.
      rewrite search_body_uninitialized by exact Hidx. reflexivity. }
  destruct (Nat.eq_dec (ntotal idx) 0%nat) as [Hz|Hn].
  { left. intros f. unfold similarity_search.
    rewrite (search_body_empty st idx) by assumption. reflexivity. }
  destruct (Z_le_gt_dec k 0) as [Hk|Hk].
  { left. intros f. unfold similarity_search.
    rewrite (search_body_nonpositive_k st idx) by assumption. reflexivity. }
  destruct (Nat.eq_dec (d idx) dimension) as [Hd|Hd].
  - right. exists idx. repeat split; try assumption; lia.
  - left. intros f. unfold similarity_search.
    rewrite (search_body_dimension_mismatch st idx)
      by (try assumption; lia). reflexivity.
Qed.

(** The filtered search returns the results of the unfiltered search, with
    the same query and [k], that pass the filter, in the same order. *)
Lemma filtered_search st query k (f : Meta) :
  results_of (similarity_search st query k (Some f))
  = List.filter (passes f) (results_of (similarity_search st query k None)).
Proof.
  destruct (search_cases st query k) as [Hnil|(idx & Hidx & Hn & Hk & Hd)].
  - rewrite !Hnil. reflexivity.
  - rewrite !(search_ranked_uncut st idx) by assumption.
    cbn [results_of]. apply format_results_filter.
Qed.

Lemma passes_spec (f : Meta) (r : SearchResult) :
  passes f r = true
  <-> (forall key value,
         f !! key = Some value ->
         exists v, res_metadata r !! key = Some v /\ py_eqb v value = true).
Proof. unfold passes. apply matches_filter_spec. Qed.

(** Every formatted result comes from one of the hits. *)
Lemma format_results_entry st f hits r :
  In r (format_results st f hits) ->
  exists hit, In hit hits /\ format_hit st f hit = Some r.
Proof.
  intros H. apply list_elem_of_In in H. unfold format_results in H.
  apply list_elem_of_omap in H. destruct H as (hit & Hhit & Hfmt).
  exists hit. split; [apply list_elem_of_In; exact Hhit|exact Hfmt].
Qed.

Lemma format_results_In st f hits hit r :
  In hit hits -> format_hit st f hit = Some r ->
  In r (format_results st f hits).
Proof.
  intros Hin Hfmt. apply list_elem_of_In. unfold format_results.
  apply list_elem_of_omap. exists hit.
  split; [apply list_elem_of_In; exact Hin|exact Hfmt].
Qed.

Lemma format_hit_unfiltered st score j text :
  documents st !! j = Some text ->
  format_hit st None (score, j)
  = Some (mkResult text score (default ∅ (metadata st !! j))).
Proof. intros H. unfold format_hit. rewrite H. reflexivity. Qed.


(** ** The rows with the greatest score come first, in insertion order *)










End FilterAndRank.

Section RankingSamples.

Local Open Scope R_scope.

Lemma sort_desc_pair_swap (x y : R) :
  x < y -> sort_desc [(x, 0%nat); (y, 1%nat)] = [(y, 1%nat); (x, 0%nat)].
Proof.
  intros H. unfold sort_desc. cbn [fold_right insert_desc fst].
  destruct (Rlt_dec x y); [reflexivity|lra].
Qed.

Lemma scored_both_asthma :
  scored (mkIndex dimension [embed_text "ozone"; embed_text "asthma"])
         (embed_text "asthma")
  = [(0, 0%nat); (1, 1%nat)].
Proof.
  rewrite scored_two.
  rewrite (dot_one_word_each "asthma" "ozone" "asthma" "ozone"
             tokens_asthma tokens_ozone).
  rewrite (dot_one_word_each "asthma" "asthma" "asthma" "asthma"
             tokens_asthma tokens_asthma).
  rewrite word_pos_ozone, word_pos_asthma. reflexivity.
Qed.

(** For the query "asthma" the index ranks the asthma passage, stored
    second, before the ozone passage. *)
Lemma search_both_asthma (k : Z) (f : option Meta) :
  (0 < k)%Z ->
  similarity_search both_store "asthma" k f
  = Ok (format_results both_store f
          (take (Z.to_nat (Z.min k 2)) [(1, 1%nat); (0, 0%nat)])).
Proof.
  intros Hk.
  rewrite (search_ranked_uncut both_store
             (mkIndex dimension [embed_text "ozone"; embed_text "asthma"]));
    try reflexivity; try discriminate; try exact Hk.
  unfold top_hits. rewrite scored_both_asthma, sort_desc_pair_swap by lra.
  reflexivity.
Qed.

Lemma search_both_asthma_1 :
  similarity_search both_store "asthma" 1 None
  = Ok [mkResult "asthma" 1 guidelines_meta].
Proof. rewrite search_both_asthma by lia. reflexivity. Qed.

Lemma search_both_asthma_2 :
  similarity_search both_store "asthma" 2 None
  = Ok [mkResult "asthma" 1 guidelines_meta; mkResult "ozone" 0 weather_meta].
Proof. rewrite search_both_asthma by lia. reflexivity. Qed.

Lemma passes_weather_asthma (score : R) :
  passes weather_meta (mkResult "asthma" score guidelines_meta) = false.
Proof. vm_compute. reflexivity. Qed.

Lemma passes_weather_ozone (score : R) :
  passes weather_meta (mkResult "ozone" score weather_meta) = true.
Proof. vm_compute. reflexivity. Qed.








Lemma descending_take_drop (l : list R) :
  descending l ->
  forall n a b, In a (take n l) -> In b (drop n l) -> b <= a.
Proof.
  induction l as [|x l IH]; intros Hl n a b Ha Hb.
  - destruct n; destruct Ha.
  - destruct Hl as [Hx Hl]. destruct n as [|n]; [destruct Ha|].
    cbn [take drop] in Ha, Hb. destruct Ha as [<-|Ha].
    + revert Hx. rewrite List.Forall_forall. intros Hx. apply Hx.
      apply list_elem_of_In. apply list_elem_of_In in Hb.
      exact (subseteq_drop n l b Hb).
    + exact (IH Hl n a b Ha Hb).
Qed.



End RankingSamples.




(** C7: with a filter given, every returned result has, for every key of
    the filter, a metadata value under that key that is equal (Python's
    [==]) to the filter's value; a result with a missing or unequal key is
    never returned; the filtered search returns exactly the results of the
    unfiltered search that pass the filter; and without a filter no
    candidate is left out: every hit of the index search that has a text
    is returned, hence every stored entry when [k] is at least the number
    of entries. *)
Theorem filter_correctness (st : VectorStore) (query : string) (k : Z) :
  (forall (f : Meta) r,
     In r (results_of (similarity_search st query k (Some f))) ->
     forall key value,
       f !! key = Some value ->
       exists v, res_metadata r !! key = Some v /\ py_eqb v value = true)
  /\ (forall (f : Meta) r key value,
        f !! key = Some value ->
        match res_metadata r !! key with
        | None => True
        | Some v => py_eqb v value = false
        end ->
        ~ In r (results_of (similarity_search st query k (Some f))))
  /\ (forall (f : Meta),
        results_of (similarity_search st query k (Some f))
        = List.filter (fun r => _matches_filter (res_metadata r) f)
            (results_of (similarity_search st query k None)))
  /\ (forall idx hits score j text,
        index st = Some idx ->
        faiss_search idx (embed_text query)
                     (Z.min k (Z.of_nat (ntotal idx))) = Ok hits ->
        In (score, j) hits ->
        documents st !! j = Some text ->
        In (mkResult text score (default ∅ (metadata st !! j)))
           (results_of (similarity_search st query k None)))
  /\ (forall idx j text row,
        index st = Some idx -> d idx = dimension ->
        (Z.of_nat (ntotal idx) <= k)%Z ->
        documents st !! j = Some text ->
        xb idx !! j = Some row ->
        In (mkResult text (dot (embed_text query) row)
                     (default ∅ (metadata st !! j)))
           (results_of (similarity_search st query k None))).
Proof.
  assert (Hsound : forall (f : Meta) r,
            In r (results_of (similarity_search st query k (Some f))) ->
            passes f r = true).
  { intros f r Hr. rewrite filtered_search in Hr.
    apply filter_In in Hr. exact (proj2 Hr). }
  split; [|split; [|split; [|split]]].
  - intros f r Hr. apply passes_spec. exact (Hsound f r Hr).
  - intros f r key value Hkv Hbad Hr.
    destruct (proj1 (passes_spec f r) (Hsound f r Hr) key value Hkv)
      as (v & Hv & Heq).
    rewrite Hv in Hbad. congruence.
  - intros f. exact (filtered_search st query k f).
  - intros idx hits score j text Hidx Hsearch Hin Hdoc.
    unfold faiss_search in Hsearch.
    destruct (Z.leb_spec (Z.min k (Z.of_nat (ntotal idx))) 0) as [|Hpos];
      [discriminate|].
    rewrite embed_text_length in Hsearch.
    destruct (Nat.eqb_spec dimension (d idx)) as [Hd|]; [|discriminate].
    cbn [negb] in Hsearch. injection Hsearch as <-.
    rewrite (search_ranked_uncut st idx query k None)
      by (try assumption; try lia; congruence).
    cbn [results_of].
    apply (format_results_In st None _ (score, j)); [exact Hin|].
    apply format_hit_unfiltered. exact Hdoc.
  - intros idx j text row Hidx Hd Hk Hdoc Hrow.
    assert (Hn : ntotal idx <> 0).
    { apply lookup_lt_Some in Hrow. unfold ntotal. lia. }
    rewrite (search_all_rows st idx query k None Hidx Hn Hd Hk).
    cbn [results_of].
    apply (format_results_In st None _ (dot (embed_text query) row, j)).
    + apply (Permutation_in _ (Permutation_sym (sort_desc_perm _))).
      apply list_elem_of_In, list_elem_of_lookup. exists j.
      apply scored_lookup. exact Hrow.
    + apply format_hit_unfiltered. exact Hdoc.
Qed.

(** Witness for C7: searching the two sample passages for "ozone" with
    [k = 2].  Without filter the ozone passage is returned; with the
    guidelines filter it is not, and what is returned carries the source
    that the filter asks for. *)
Lemma filter_correctness_witness :
  In (mkResult "ozone" (dot (embed_text "ozone") (embed_text "ozone"))
               weather_meta)
     (results_of (similarity_search both_store "ozone" 2 None))
  /\ ~ In (mkResult "ozone" (dot (embed_text "ozone") (embed_text "ozone"))
                    weather_meta)
          (results_of (similarity_search both_store "ozone" 2
                         (Some guidelines_meta)))
  /\ results_of (similarity_search both_store "ozone" 2 (Some guidelines_meta))
     = List.filter (fun r => _matches_filter (res_metadata r) guidelines_meta)
         (results_of (similarity_search both_store "ozone" 2 None)).
Proof.
  destruct (filter_correctness both_store "ozone" 2)
    as (_ & Hnever & Heq & _ & Hall).
  split; [|split].
  - apply (Hall (mkIndex dimension [embed_text "ozone"; embed_text "asthma"])
                0 "ozone"%string (embed_text "ozone"));
      try reflexivity; unfold ntotal; cbn [xb length]; lia.
  - apply (Hnever guidelines_meta _ "source"%string (PStr "GuidelinesClient")).
    + reflexivity.
    + vm_compute. reflexivity.
  - exact (Heq guidelines_meta).
Defined.

(** C9: the filtered search returns the results of the unfiltered search
    with the same [k] that pass the filter, and nothing else; the
    unfiltered search returns at most [min(k, total)] entries, and they
    are best-scoring ones of the whole index: an entry that it leaves out
    scores no more than any entry that it returns.  So there is a store
    with [k] entries that match the filter for which fewer than [k]
    results come back: the entry that does not match outranks the entry
    that matches, which is found with [k + 1] only. *)
Theorem filter_applied_after_top_k :
  (forall st query k (f : Meta),
     results_of (similarity_search st query k (Some f))
     = List.filter (fun r => _matches_filter (res_metadata r) f)
         (results_of (similarity_search st query k None))
     /\ length (results_of (similarity_search st query k None))
        <= Nat.min (Z.to_nat k) (vector_count st))
  /\ (forall st idx query k j text row,
        index st = Some idx ->
        documents st !! j = Some text ->
        xb idx !! j = Some row ->
        ~ In (mkResult text (dot (embed_text query) row)
                       (default ∅ (metadata st !! j)))
             (results_of (similarity_search st query k None)) ->
        forall r, In r (results_of (similarity_search st query k None)) ->
                  (dot (embed_text query) row <= res_score r)%R)
  /\ (exists st query k (f : Meta) winner loser,
        (add_both sample_env).1.1 = st
        /\ filter_given (Some f) = true
        /\ Z.to_nat k
           <= length (List.filter (fun m => _matches_filter m f) (metadata st))
        /\ results_of (similarity_search st query k None) = [winner]
        /\ results_of (similarity_search st query (k + 1) None)
           = [winner; loser]
        /\ _matches_filter (res_metadata winner) f = false
        /\ _matches_filter (res_metadata loser) f = true
        /\ (res_score loser < res_score winner)%R
        /\ results_of (similarity_search st query (k + 1) (Some f)) = [loser]
        /\ length (results_of (similarity_search st query k (Some f)))
           < Z.to_nat k).
Proof.
  split; [|split].
  - intros st query k f. split; [exact (filtered_search st query k f)|].
    destruct (search_cases st query k) as [Hnil|(idx & Hidx & Hn & Hk & Hd)].
    + rewrite Hnil. cbn [length]. lia.
    + rewrite (search_ranked_uncut st idx) by assumption.
      cbn [results_of]. unfold vector_count. rewrite Hidx.
      pose proof (format_results_length st None (top_hits idx query k)).
      pose proof (top_hits_at_most_k idx query k).
      pose proof (top_hits_length idx query k). lia.
  - intros st idx query k j text row Hidx Hdoc Hrow Hout r Hr.
    destruct (search_cases st query k) as [Hnil|(idx' & Hidx' & Hn & Hk & Hd)].
    { rewrite Hnil in Hr. destruct Hr. }
    assert (idx' = idx) by congruence. subst idx'.
    rewrite (search_ranked_uncut st idx) in Hr, Hout by assumption.
    cbn [results_of] in Hr, Hout.
    destruct (format_results_entry st None _ r Hr) as (hit & Hhit & Hfmt).
    rewrite (format_hit_score st None hit r Hfmt).
    unfold top_hits in Hhit, Hout.
    set (n := Z.to_nat (Z.min k (Z.of_nat (ntotal idx)))) in *.
    set (sorted := sort_desc (scored idx (embed_text query))) in *.
    assert (Hin : In (dot (embed_text query) row, j) sorted).
    { apply (Permutation_in _ (Permutation_sym (sort_desc_perm _))).
      apply list_elem_of_In, list_elem_of_lookup. exists j.
      apply scored_lookup. exact Hrow. }
    rewrite <- (take_drop n sorted) in Hin. apply in_app_or in Hin.
    destruct Hin as [Hin|Hin].
    { exfalso. apply Hout.
      apply (format_results_In st None _ (dot (embed_text query) row, j));
        [exact Hin|].
      apply format_hit_unfiltered. exact Hdoc. }
    apply (descending_take_drop (map fst sorted) (sort_desc_sorted _) n).
    + rewrite firstn_map. apply (in_map fst) in Hhit. exact Hhit.
    + rewrite skipn_map. apply (in_map fst) in Hin. exact Hin.
  - exists both_store, "asthma"%string, 1%Z, weather_meta,
      (mkResult "asthma" 1%R guidelines_meta),
      (mkResult "ozone" 0%R weather_meta).
    change (1 + 1)%Z with 2%Z.
    rewrite !filtered_search, search_both_asthma_1, search_both_asthma_2.
    cbn [results_of List.filter].
    rewrite !passes_weather_asthma, !passes_weather_ozone.
    split; [rewrite add_both_eq by reflexivity; reflexivity|].
    split; [reflexivity|]. split; [vm_compute; lia|].
    split; [reflexivity|]. split; [reflexivity|].
    split; [exact (passes_weather_asthma 1)|].
    split; [exact (passes_weather_ozone 0)|].
    split; [cbn [res_score]; lra|]. split; [reflexivity|].
    cbn [length]. lia.
Qed.

(** Witness for C9: in the sample store with two passages, the search for
    "asthma" with [k = 1] and the weather filter returns what passes the
    filter among the one result of the unfiltered search, which is
    nothing. *)
Lemma filter_applied_after_top_k_witness :
  results_of (similarity_search both_store "asthma" 1 (Some weather_meta))
  = List.filter (fun r => _matches_filter (res_metadata r) weather_meta)
      (results_of (similarity_search both_store "asthma" 1 None))
  /\ length (results_of (similarity_search both_store "asthma" 1 None))
     <= Nat.min (Z.to_nat 1) (vector_count both_store).
Proof.
  exact (proj1 filter_applied_after_top_k both_store "asthma"%string 1%Z
           weather_meta).
Defined.


(** * The pipeline around the store *)

(** X12: [_classify_query] returns one of the two category names only; it
    returns ['weather_air_quality'] exactly when the lower-cased query
    contains none of the action patterns and at least one weather pattern,
    so the health patterns never change the outcome; and the
    classification does not depend on letter case. *)
Theorem classify_query_cases (query : string) :
  (_classify_query query = "health_guidelines"%string
   \/ _classify_query query = "weather_air_quality"%string)
  /\ (_classify_query query = "weather_air_quality"%string
      <-> any_in action_patterns (Text.lower query) = false
          /\ any_in weather_patterns (Text.lower query) = true)
  /\ _classify_query (Text.lower query) = _classify_query query.
Proof.
  split; [|split].
  - unfold _classify_query.
    destruct (any_in action_patterns _); [left; reflexivity|].
    destruct (any_in weather_patterns _); [right; reflexivity|].
    destruct (any_in health_patterns _); left; reflexivity.
  - unfold _classify_query.
    destruct (any_in action_patterns _); [split; [discriminate|intros [H _]; discriminate H]|].
    destruct (any_in weather_patterns _); [split; [auto|reflexivity]|].
    destruct (any_in health_patterns _);
      (split; [discriminate|intros [_ H]; discriminate H]).
  - unfold _classify_query. rewrite lower_idem. reflexivity.
Qed.

Section Retrieval.

Lemma py_eqb_list_inv v l : py_eqb v (PList l) = true -> exists l', v = PList l'.
Proof. destruct v; try discriminate. eauto. Qed.

Lemma format_hit_metadata st f hit r :
  format_hit st f hit = Some r ->
  res_metadata r = default ∅ (metadata st !! hit.2).
Proof.
  destruct hit as [score i]. unfold format_hit.
  destruct (documents st !! i); [|discriminate].
  destruct (filter_given f).
  - destruct (_matches_filter _ _); [|discriminate].
    intros H. injection H as <-. reflexivity.
  - intros H. injection H as <-. reflexivity.
Qed.

(** The filter of both categories asks for a list under ['source']. *)
Lemma category_filter_source category location :
  category = "weather_air_quality"%string
  \/ category = "health_guidelines"%string ->
  exists f l, category_filter category location = Some f
              /\ f !! "source" = Some (PList l).
Proof.
  intros [ -> | -> ]; unfold category_filter;
    cbn [String.eqb Ascii.eqb Bool.eqb];
    destruct (location_given location).
  - eexists _, _. split; [reflexivity|].
    rewrite lookup_insert_ne by discriminate. reflexivity.
  - eexists _, _. split; reflexivity.
  - eexists _, _. split; [reflexivity|].
    rewrite lookup_insert_ne by discriminate. reflexivity.
  - eexists _, _. split; reflexivity.
Qed.

Lemma search_with_list_source_filter st query k (f : Meta) l :
  no_list_source st ->
  f !! "source" = Some (PList l) ->
  similarity_search st query k (Some f) = Ok [].
Proof.
  intros Hno Hf.
  destruct (similarity_search_returns st query k (Some f)) as [results E].
  rewrite E. f_equal. destruct results as [|r rest]; [reflexivity|]. exfalso.
  destruct (search_results_from_hits st query k (Some f) _ E r
              (or_introl eq_refl)) as [hit Hhit].
  destruct (format_hit_sound st f hit r Hhit "source" (PList l) Hf)
    as (v & Hv & Heq).
  destruct (py_eqb_list_inv v l Heq) as [l' ->].
  rewrite (format_hit_metadata st (Some f) hit r Hhit) in Hv.
  destruct (metadata st !! hit.2) as [m|] eqn:Hm.
  - cbn in Hv. unfold no_list_source in Hno.
    rewrite List.Forall_forall in Hno.
    apply (Hno m) with (l := l'); [|exact Hv].
    apply list_elem_of_In, list_elem_of_lookup. eauto.
  - cbn in Hv. rewrite lookup_empty in Hv. discriminate Hv.
Qed.

Lemma retrieve_empty st query category location :
  no_list_source st ->
  category = "weather_air_quality"%string
  \/ category = "health_guidelines"%string ->
  _retrieve_category_specific_docs st query category location = Ok [].
Proof.
  intros Hno Hcat.
  destruct (category_filter_source category location Hcat) as (f & l & Hf & Hl).
  unfold _retrieve_category_specific_docs. rewrite Hf.
  exact (search_with_list_source_filter st query 5 f l Hno Hl).
Qed.

Lemma classify_two_cases query :
  _classify_query query = "weather_air_quality"%string
  \/ _classify_query query = "health_guidelines"%string.
Proof.
  unfold _classify_query.
  destruct (any_in action_patterns _); [right; reflexivity|].
  destruct (any_in weather_patterns _); [left; reflexivity|].
  destruct (any_in health_patterns _); right; reflexivity.
Qed.

End Retrieval.

(** X13: for both categories that the classifier can return, and for every
    query and location, [_retrieve_category_specific_docs] returns the
    empty list on every store in which no metadata holds a list under
    ['source']: the category filter asks for ['source'] to be equal to a
    list of client names, and a client name never equals a list.  Hence the
    retrieval step of [process_query] finds nothing in such a store. *)
Theorem category_retrieval_is_empty (st : VectorStore) (query : string)
  (location : option string) :
  no_list_source st ->
  (forall category,
     category = "weather_air_quality"%string
     \/ category = "health_guidelines"%string ->
     _retrieve_category_specific_docs st query category location = Ok [])
  /\ _retrieve_category_specific_docs st query (_classify_query query) location
     = Ok [].
Proof.
  intros Hno. split.
  - intros category Hcat. apply retrieve_empty; assumption.
  - apply retrieve_empty; [exact Hno|apply classify_two_cases].
Qed.

(** Witness for X13: the store with the two sample passages, whose sources
    are the client names; without the category filter the same query
    finds both passages. *)
Lemma category_retrieval_is_empty_witness :
  _retrieve_category_specific_docs both_store "ozone" "weather_air_quality" None
  = Ok []
  /\ length (results_of (similarity_search both_store "ozone" 5 None)) = 2.
Proof.
  split.
  - apply (proj1 (category_retrieval_is_empty both_store "ozone" None
                    ltac:(repeat constructor; intros l; vm_compute; discriminate))).
    left. reflexivity.
  - rewrite search_both_ozone by lia. reflexivity.
Defined.

Section SourceInvariant.

Lemma collect_chunks_metadata chunks texts metadatas :
  collect_chunks chunks = Ok (texts, metadatas) ->
  metadatas = map (fun chunk => default ∅ (doc_metadata chunk)) chunks.
Proof.
  revert texts metadatas.
  induction chunks as [|chunk rest IH]; intros texts metadatas H.
  - injection H as <- <-. reflexivity.
  - cbn [collect_chunks] in H.
    destruct (doc_content chunk) as [text|]; [|discriminate].
    destruct (collect_chunks rest) as [[ts ms]|e]; cbn [bind fst snd] in H;
      [|discriminate].
    injection H as <- <-. cbn [map]. f_equal. exact (IH ts ms eq_refl).
Qed.

Lemma chunk_source doc chunk :
  In chunk (_split_document doc) ->
  default ∅ (doc_metadata chunk) !! "source"
  = default ∅ (doc_metadata doc) !! "source".
Proof.
  unfold _split_document.
  destruct (String.length (default EmptyString (doc_content doc)) <=? 1000).
  - intros [<-|[]]. reflexivity.
  - intros Hin. apply in_map_iff in Hin. destruct Hin as (i & <- & _).
    cbn [doc_metadata]. simpl. apply lookup_insert_ne. discriminate.
Qed.

(** The metadata after [add_documents]: as before, or with the metadata of
    the batch's chunks behind. *)
Lemma add_documents_metadata env st disk docs :
  metadata (add_documents env st disk docs).1.1 = metadata st
  \/ metadata (add_documents env st disk docs).1.1
     = metadata st
       ++ map (fun chunk => default ∅ (doc_metadata chunk))
              (concat (map _split_document docs)).
Proof.
  unfold add_documents.
  destruct (collect docs) as [[texts metadatas]|e] eqn:Hc; [|left; reflexivity].
  apply collect_chunks_metadata in Hc. subst metadatas.
  destruct (normalize_L2 _) as [emb|e]; [|left; reflexivity].
  destruct (index st) as [idx|]; [|left; reflexivity].
  destruct (ntotal idx =? 0).
  - destruct (faiss_add env idx emb); [right|left]; reflexivity.
  - destruct (faiss_add env (new_index dimension) _); [right|left]; reflexivity.
Qed.

Lemma add_documents_no_list_source env st disk docs :
  no_list_source st ->
  Forall (fun doc => forall l,
            default ∅ (doc_metadata doc) !! "source" <> Some (PList l)) docs ->
  no_list_source (add_documents env st disk docs).1.1.
Proof.
  intros Hst Hdocs. unfold no_list_source in *.
  destruct (add_documents_metadata env st disk docs) as [-> | ->];
    [exact Hst|].
  apply Forall_app. split; [exact Hst|].
  apply List.Forall_forall. intros m Hm l.
  apply in_map_iff in Hm. destruct Hm as (chunk & <- & Hchunk).
  apply in_concat in Hchunk. destruct Hchunk as (chunks & Hchunks & Hin).
  apply in_map_iff in Hchunks. destruct Hchunks as (doc & <- & Hdoc).
  rewrite (chunk_source doc chunk Hin).
  rewrite List.Forall_forall in Hdocs. apply Hdocs. exact Hdoc.
Qed.

Lemma formatted_source doc :
  formatted doc ->
  forall l, default ∅ (doc_metadata doc) !! "source" <> Some (PList l).
Proof.
  intros (cls & ts & content & md & ->) l. unfold _format_document.
  cbn [doc_metadata]. simpl.
  rewrite lookup_insert_ne by discriminate.
  rewrite lookup_insert_eq. discriminate.
Qed.

Lemma populate_no_list_source env st disk client_data :
  no_list_source st ->
  clients_format_documents client_data ->
  no_list_source (populate_knowledge_base env st disk client_data).1.1.
Proof.
  intros Hst Hdata. unfold populate_knowledge_base.
  set (all := concat (omap _ client_data)).
  assert (Hall : Forall formatted all).
  { subst all. unfold clients_format_documents in Hdata.
    induction Hdata as [|o rest Ho _ IH]; [constructor|].
    destruct o as [documents|msg]; cbn; [|exact IH].
    apply Forall_app. split; [exact Ho|exact IH]. }
  destruct all as [|doc rest] eqn:E; [exact Hst|].
  apply add_documents_no_list_source; [exact Hst|].
  revert Hall. apply List.Forall_impl. intros d Hd. apply formatted_source. exact Hd.
Qed.

End SourceInvariant.

(** X14: when a store is initialised without snapshot and populated from
    clients whose documents are built by [_format_document] (which sets
    ['source'] to the client's class name), then, whether the population
    succeeds or fails and also after a refresh, the retrieval step of
    [process_query] returns the empty list for every query and every
    location. *)
Theorem populated_store_never_retrieves (env env' : Env)
  (client_data refreshed : list (outcome (list Doc)))
  (query : string) (location : option string) :
  clients_format_documents client_data ->
  clients_format_documents refreshed ->
  let started :=
    populate_knowledge_base env (initialize env new_store NoFile) NoFile
                            client_data in
  let after_refresh :=
    populate_knowledge_base env' started.1.1 started.1.2 refreshed in
  _retrieve_category_specific_docs started.1.1 query
    (_classify_query query) location = Ok []
  /\ _retrieve_category_specific_docs after_refresh.1.1 query
       (_classify_query query) location = Ok [].
Proof.
  intros Hdata Hrefresh started after_refresh.
  assert (H0 : no_list_source (initialize env new_store NoFile))
    by constructor.
  assert (H1 : no_list_source started.1.1)
    by (apply populate_no_list_source; assumption).
  assert (H2 : no_list_source after_refresh.1.1)
    by (apply populate_no_list_source; assumption).
  split; (apply retrieve_empty; [assumption|apply classify_two_cases]).
Qed.

(** Witness for X14: one client that returns one formatted ozone passage;
    the pipeline's retrieval does not find it. *)
Lemma populated_store_never_retrieves_witness :
  _retrieve_category_specific_docs
    (populate_knowledge_base sample_env (initialize sample_env new_store NoFile)
       NoFile
       [Returned [_format_document "OpenAQClient" "2024-01-01T00:00:00"
                    "ozone" ∅]]).1.1
    "ozone" (_classify_query "ozone") None
  = Ok [].
Proof.
  apply (populated_store_never_retrieves sample_env sample_env
           [Returned [_format_document "OpenAQClient" "2024-01-01T00:00:00"
                        "ozone" ∅]]
           [] "ozone" None).
  - repeat constructor. eexists _, _, _, _. reflexivity.
  - constructor.
Defined.

Section Populate.

Lemma populate_eq env st disk client_data :
  populate_knowledge_base env st disk client_data
  = match gathered client_data with
    | [] => (st, disk, Ok tt)
    | _ => add_documents env st disk (gathered client_data)
    end.
Proof. reflexivity. Qed.

Lemma gathered_nothing client_data :
  Forall (fun o => match o with
                   | Returned documents => documents = []
                   | Failed _ => True
                   end) client_data ->
  gathered client_data = [].
Proof.
  unfold gathered. induction 1 as [|o rest Ho _ IH]; [reflexivity|].
  destruct o as [documents|msg]; cbn; [|exact IH].
  subst documents. exact IH.
Qed.

End Populate.

(** X15: [populate_knowledge_base] skips the clients that fail; when no
    client delivers a document it returns without calling [add_documents]
    and leaves store and snapshot as they were; and a refresh, which is a
    second population, does not replace what the first one stored: after
    two successful populations with the same client data every chunk text
    and every chunk metadata is stored twice. *)
Theorem refresh_accumulates_duplicates (env env' : Env)
  (st st1 st2 : VectorStore) (disk disk1 disk2 : Disk)
  (client_data : list (outcome (list Doc))) :
  (Forall (fun o => match o with
                    | Returned documents => documents = []
                    | Failed _ => True
                    end) client_data ->
   populate_knowledge_base env st disk client_data = (st, disk, Ok tt))
  /\ (populate_knowledge_base env st disk client_data = (st1, disk1, Ok tt) ->
      populate_knowledge_base env' st1 disk1 client_data = (st2, disk2, Ok tt) ->
      exists texts metadatas,
        length metadatas = length texts
        /\ (gathered client_data <> [] ->
            collect (gathered client_data) = Ok (texts, metadatas))
        /\ documents st1 = documents st ++ texts
        /\ documents st2 = documents st ++ texts ++ texts
        /\ metadata st1 = metadata st ++ metadatas
        /\ metadata st2 = metadata st ++ metadatas ++ metadatas).
Proof.
  split.
  - intros Hnone. rewrite populate_eq, (gathered_nothing _ Hnone). reflexivity.
  - rewrite !populate_eq.
    destruct (gathered client_data) as [|doc rest] eqn:Hg.
    + intros H1 H2. injection H1 as <- <-. injection H2 as <- <-.
      exists [], []. rewrite !app_nil_r.
      repeat split; try reflexivity; intros Hne; congruence.
    + intros H1 H2.
      destruct (add_documents_ok_inv _ _ _ _ _ _ H1)
        as (idx & texts & metadatas & old & _ & Hc & _ & _ & Hst1 & _).
      destruct (add_documents_ok_inv _ _ _ _ _ _ H2)
        as (idx' & texts' & metadatas' & old' & _ & Hc' & _ & _ & Hst2 & _).
      assert (texts' = texts /\ metadatas' = metadatas) as [-> ->]
        by (split; congruence).
      exists texts, metadatas.
      split; [exact (collect_lengths _ _ _ Hc)|].
      split; [intros _; exact Hc|].
      rewrite Hst2, Hst1. cbn [documents metadata].
      rewrite <- !app_assoc. repeat split; reflexivity.
Qed.

(** Witness for X15: population and refresh with one client that returns
    the ozone passage. *)
Lemma refresh_accumulates_duplicates_witness :
  exists st1 disk1 st2 disk2,
    populate_knowledge_base sample_env (store_0 sample_env) NoFile
      [Failed "timeout"; Returned [doc_ozone]] = (st1, disk1, Ok tt)
    /\ populate_knowledge_base sample_env st1 disk1
         [Failed "timeout"; Returned [doc_ozone]] = (st2, disk2, Ok tt)
    /\ documents st2 = ["ozone"; "ozone"]%string.
Proof.
  pose (st1 := mkStore (Some (mkIndex dimension [embed_text "ozone"]))
                       ["ozone"%string] [weather_meta]).
  pose (disk1 := _save_data sample_env st1 NoFile).
  pose (st2 := mkStore (Some (mkIndex dimension
                          (random_rand sample_env 1 dimension
                           ++ _generate_simple_embeddings ["ozone"%string])))
                       (["ozone"%string] ++ ["ozone"%string])
                       ([weather_meta] ++ [weather_meta])).
  pose (disk2 := _save_data sample_env st2 disk1).
  exists st1, disk1, st2, disk2.
  assert (H1 : populate_knowledge_base sample_env (store_0 sample_env) NoFile
                 [Failed "timeout"; Returned [doc_ozone]]
               = (st1, disk1, Ok tt)).
  { rewrite populate_eq. exact (add_first_eq sample_env eq_refl). }
  assert (H2 : populate_knowledge_base sample_env st1 disk1
                 [Failed "timeout"; Returned [doc_ozone]]
               = (st2, disk2, Ok tt)).
  { rewrite populate_eq.
    apply (add_documents_rebuild sample_env st1 disk1 [doc_ozone]
             (mkIndex dimension [embed_text "ozone"])
             ["ozone"%string] [weather_meta]);
      try reflexivity; discriminate. }
  split; [exact H1|]. split; [exact H2|].
  destruct (proj2 (refresh_accumulates_duplicates sample_env sample_env
                     (store_0 sample_env) st1 st2 NoFile disk1 disk2
                     [Failed "timeout"; Returned [doc_ozone]]) H1 H2)
    as (texts & metadatas & _ & Hc & _ & Hd2 & _).
  assert (Ht : texts = ["ozone"%string]).
  { assert (Hc' := Hc ltac:(discriminate)). cbv in Hc'. congruence. }
  rewrite Hd2, Ht. reflexivity.
Defined.

(** * The response formatter *)

(** X16: [_extract_data_sources] never returns the empty list; it returns
    at most three names, without repetition, in the fixed order OpenAQ,
    Weather API, WHO/EPA Guidelines, and ['Knowledge Base'] is returned,
    alone, exactly when the context mentions none of OpenAQ, Weather, WHO
    and EPA. *)
Theorem data_sources_never_empty (context : string) :
  _extract_data_sources context <> []
  /\ length (_extract_data_sources context) <= 3
  /\ List.NoDup (_extract_data_sources context)
  /\ (exists a b c : bool,
        _extract_data_sources context
        = (if a then ["OpenAQ"%string] else [])
          ++ (if b then ["Weather API"%string] else [])
          ++ (if c then ["WHO/EPA Guidelines"%string] else [])
        \/ _extract_data_sources context = ["Knowledge Base"%string])
  /\ (In "Knowledge Base"%string (_extract_data_sources context)
      <-> contains "OpenAQ" context = false
          /\ contains "Weather" context = false
          /\ contains "WHO" context = false
          /\ contains "EPA" context = false)
  /\ (In "OpenAQ"%string (_extract_data_sources context)
      <-> contains "OpenAQ" context = true).
Proof.
  unfold _extract_data_sources.
  destruct (contains "OpenAQ" context), (contains "Weather" context),
           (contains "WHO" context), (contains "EPA" context);
    cbn [orb app];
    (split; [discriminate|]);
    (split; [cbn; lia|]);
    (split; [repeat (apply List.NoDup_cons; [cbn; intuition discriminate|]);
             apply List.NoDup_nil|]);
    (split; [first [ exists true, true, true; left; reflexivity
                   | exists true, true, false; left; reflexivity
                   | exists true, false, true; left; reflexivity
                   | exists true, false, false; left; reflexivity
                   | exists false, true, true; left; reflexivity
                   | exists false, true, false; left; reflexivity
                   | exists false, false, true; left; reflexivity
                   | exists false, false, false; right; reflexivity ]|]);
    (split; (split; [cbn; intuition discriminate|cbn; intuition (try discriminate)])).
Qed.

Section Confidence.

Local Open Scope R_scope.

Lemma confidence_bounds_any (context : string) (data_sources : list string) :
  5 / 10 <= _calculate_confidence context data_sources <= 1.
Proof.
  unfold _calculate_confidence.
  destruct (1 <? length data_sources)%nat, (in_list "OpenAQ" data_sources),
           (in_list "WHO" data_sources || in_list "EPA" data_sources),
           (contains "2024" context || contains "2025" context);
    unfold Rmin; destruct (Rle_dec _ _); lra.
Qed.

End Confidence.

(** X17: the confidence that [format_response] reports (the confidence of a
    context and of the data sources extracted from it) lies, in exact
    arithmetic, between 0.5 and 0.9 and never reaches 1.0: it is 0.5, plus
    0.2 when two or more sources were extracted, plus 0.1 when the context
    mentions OpenAQ, plus 0.1 when it mentions 2024 or 2025.  The bonus for ['WHO'] or ['EPA'] is
    never granted, since the extracted name is ['WHO/EPA Guidelines']. *)
Theorem confidence_below_one (context : string) :
  (5 / 10 <= _calculate_confidence context (_extract_data_sources context)
   <= 9 / 10)%R
  /\ _calculate_confidence context (_extract_data_sources context)
     = (5 / 10
        + (if (1 <? length (_extract_data_sources context))%nat
           then 2 / 10 else 0)
        + (if contains "OpenAQ" context then 1 / 10 else 0)
        + (if contains "2024" context || contains "2025" context
           then 1 / 10 else 0))%R
  /\ in_list "WHO" (_extract_data_sources context) = false
  /\ in_list "EPA" (_extract_data_sources context) = false.
Proof.
  unfold _calculate_confidence, _extract_data_sources.
  destruct (contains "OpenAQ" context), (contains "Weather" context),
           (contains "WHO" context), (contains "EPA" context),
           (contains "2024" context || contains "2025" context);
    cbv [in_list existsb String.eqb Ascii.eqb Bool.eqb orb length
         Nat.ltb Nat.leb app];
    unfold Rmin; destruct (Rle_dec _ _);
    (split; [lra|]); (split; [lra|]); split; reflexivity.
Qed.

Section Recommendations.


Lemma recommendations_ok_inv uc context l :
  _generate_recommendations uc context = Ok l ->
  exists asthma pregnancy,
    health_condition uc "asthma" = Ok asthma
    /\ health_condition uc "pregnancy" = Ok pregnancy
    /\ l = take 5
             ((if age_group_is uc "children" then children_advice else [])
              ++ (if age_group_is uc "elderly" then elderly_advice else [])
              ++ (if asthma then asthma_advice else [])
              ++ (if pregnancy then pregnancy_advice else [])
              ++ (if contains "unhealthy" (Text.lower context)
                     || contains "poor" (Text.lower context)
                  then general_advice else [])).
Proof.
  unfold _generate_recommendations.
  destruct (health_condition uc "asthma") as [a|e]; cbn [bind]; [|discriminate].
  destruct (health_condition uc "pregnancy") as [p|e]; cbn [bind]; [|discriminate].
  intros H. injection H as <-. eauto.
Qed.

End Recommendations.

(** X18: [_generate_recommendations] returns at most five recommendations;
    it raises exactly when the user context holds something else than a
    dictionary under ['health_conditions']; and for a user with both asthma
    and pregnancy the five places are taken by personal advice, so that
    none of the general recommendations for poor air is returned, whatever
    the context says. *)
Theorem recommendations_at_most_five (user_context : UserContext)
  (context : string) :
  (forall l, _generate_recommendations user_context context = Ok l ->
             length l <= 5)
  /\ ((exists e, _generate_recommendations user_context context = Raise e)
      <-> exists v, user_context !! "health_conditions" = Some (CVal v))
  /\ (health_condition user_context "asthma" = Ok true ->
      health_condition user_context "pregnancy" = Ok true ->
      forall l advice,
        _generate_recommendations user_context context = Ok l ->
        In advice general_advice -> ~ In advice l).
Proof.
  split; [|split].
  - intros l H.
    destruct (recommendations_ok_inv _ _ _ H) as (a & p & _ & _ & ->).
    rewrite length_take. lia.
  - unfold _generate_recommendations, health_condition.
    destruct (user_context !! "health_conditions") as [[v|m]|]; cbn [bind].
    + split; eauto.
    + split; [intros [e H]; discriminate H|intros [v H]; discriminate H].
    + split; [intros [e H]; discriminate H|intros [v H]; discriminate H].
  - intros Ha Hp l advice H Hadv Hin.
    destruct (recommendations_ok_inv _ _ _ H) as (a & p & Ha' & Hp' & ->).
    assert (a = true) by congruence. assert (p = true) by congruence.
    subst a p.
    destruct (age_group_is user_context "children"),
             (age_group_is user_context "elderly"),
             (contains "unhealthy" (Text.lower context)
              || contains "poor" (Text.lower context));
      cbn in Hin, Hadv;
      intuition (subst; discriminate).
Qed.

(** Witness for X18: an elderly user with asthma who is pregnant, and a
    context that speaks of poor air. *)
Lemma recommendations_at_most_five_witness :
  let uc : UserContext :=
    <["age_group" := CVal (PStr "elderly")]>
      (<["health_conditions" :=
           CDict (<["asthma" := PBool true]>
                    (<["pregnancy" := PBool true]> ∅))]> ∅) in
  exists l,
    _generate_recommendations uc "air quality is poor" = Ok l
    /\ length l <= 5
    /\ ~ In "Stay indoors with windows closed"%string l.
Proof.
  intros uc.
  destruct (recommendations_at_most_five uc "air quality is poor")
    as (H1 & _ & H3).
  eexists. split; [vm_compute; reflexivity|]. split.
  - apply H1. vm_compute. reflexivity.
  - apply (H3 ltac:(vm_compute; reflexivity) ltac:(vm_compute; reflexivity)).
    + vm_compute. reflexivity.
    + left. reflexivity.
Defined.

(** * The web endpoints *)

Section Endpoints.

Lemma service_status_mentions_healthy {A} (o : outcome A) :
  contains "healthy" (service_status o) = true.
Proof. destruct o as [a|message]; reflexivity. Qed.

Lemma pipeline_health_check_returns clients :
  Forall (fun o => exists b, o = Returned b) clients ->
  pipeline_health_check clients = Returned tt.
Proof.
  induction 1 as [|o rest [b ->] _ IH]; [reflexivity|]. exact IH.
Qed.

End Endpoints.

(** X19: the [/health] endpoint always answers with the status
    ["operational"] and never with ["degraded"], whatever the checks of the
    vector store and of the clients gave: the status of a failed service
    starts with ["unhealthy"], which contains ["healthy"].  So it is with a
    store that was never initialised, whose entry reads
    ["unhealthy: Vector store not initialized"]. *)
Theorem health_endpoint_always_operational (now : string)
  (vector_store : option VectorStore)
  (rag_pipeline : option (list (outcome bool))) :
  hr_status (health_endpoint now vector_store rag_pipeline)
  = "operational"%string
  /\ hr_status (health_endpoint now (Some new_store) rag_pipeline)
     = "operational"%string
  /\ In ("vector_store"%string,
         "unhealthy: Vector store not initialized"%string)
        (hr_services (health_endpoint now (Some new_store) rag_pipeline)).
Proof.
  assert (H : forall vs,
    hr_status (health_endpoint now vs rag_pipeline) = "operational"%string).
  { intros vs. unfold health_endpoint. cbn [hr_status forallb snd].
    rewrite !service_status_mentions_healthy. reflexivity. }
  split; [apply H|]. split; [apply H|].
  left. reflexivity.
Qed.

(** X20: with the three clients that the startup registers, the [/health]
    endpoint reports the data clients as ["healthy"] whether or not the
    OpenAQ and weather services can be reached: their health checks turn
    every failure into the return value [False], and the pipeline's check
    only reacts to exceptions. *)
Theorem unreachable_clients_reported_healthy (now : string)
  (vector_store : option VectorStore) (openaq_reachable : bool)
  (weather_key : option string) (weather_reachable : bool) :
  pipeline_health_check
    (registered_clients openaq_reachable weather_key weather_reachable)
  = Returned tt
  /\ In ("data_clients"%string, "healthy"%string)
        (hr_services
           (health_endpoint now vector_store
              (Some (registered_clients openaq_reachable weather_key
                       weather_reachable)))).
Proof.
  assert (H : pipeline_health_check
                (registered_clients openaq_reachable weather_key
                   weather_reachable) = Returned tt).
  { apply pipeline_health_check_returns.
    unfold registered_clients, openaq_health_check, weather_health_check,
      guidelines_health_check.
    destruct (key_given weather_key); repeat constructor; eauto. }
  split; [exact H|].
  unfold health_endpoint. cbn [hr_services]. rewrite H.
  right. left. reflexivity.
Qed.

(** X21: the [/chat] endpoint answers either with the formatted response or
    with the status code 500.  The 503 that it raises when the pipeline was
    never initialised is raised inside its own [try] block and comes back
    as a 500 as well. *)
Theorem chat_errors_are_500 (http_exception_str : Z -> string -> string)
  (rag_pipeline : option (outcome FormattedResponse)) :
  (forall code detail,
     chat http_exception_str rag_pipeline = HttpError code detail ->
     code = 500%Z)
  /\ chat http_exception_str None
     = HttpError 500%Z
         (String.append "Error processing request: "
            (http_exception_str 503%Z "RAG pipeline not initialized"))
  /\ (forall result,
        rag_pipeline = Some (Returned result) ->
        chat http_exception_str rag_pipeline = Reply result).
Proof.
  split; [|split].
  - intros code detail. unfold chat.
    destruct rag_pipeline as [[result|message]|]; intros H;
      try discriminate H; injection H as <- _; reflexivity.
  - reflexivity.
  - intros result ->. reflexivity.
Qed.

(** Witness for X21: a pipeline whose [process_query] raises. *)
Lemma chat_errors_are_500_witness :
  chat (fun _ detail => detail) (Some (Failed "quota exceeded"))
  = HttpError 500%Z "Error processing request: quota exceeded"
  /\ 500%Z = 500%Z.
Proof.
  split; [reflexivity|].
  apply (proj1 (chat_errors_are_500 (fun _ detail => detail)
                  (Some (Failed "quota exceeded")))
           500%Z "Error processing request: quota exceeded"%string).
  reflexivity.
Defined.
